(** * Smart Buddy: router, planner, tool registry and hybrid retrieval

    A shallow embedding of the engineering core of the Smart Buddy
    assistant (package [smart_buddy]) together with the properties its
    specification states about it.

    Conventions of the embedding.
    - Python [str] values are modelled as byte strings ([string]); the
      case and whitespace functions below are the ASCII restriction of
      [str.lower], [str.split] and [str.strip].
    - Python [float] values are modelled as exact rationals ([Q]); the
      square root taken from [math]/[numpy] is a parameter of the
      retrieval section.
    - Dictionaries with a fixed set of keys are records; dictionaries
      used as maps are [gmap]s or association lists.
    - Stateful code threads an explicit [World] through a state and
      exception monad; exceptions keep the effects performed before
      they were raised, as in Python.
    - Calls of the structured logger change no result and are left
      out; the clock, the uuid generator and the other services of the
      interpreter are the fields of a [Host]. *)

From Stdlib Require Import QArith Qminmax Ascii String DecimalString Sorting.Sorted Permutation Lia Lqa.
From stdpp Require Import gmap strings list.

Local Open Scope string_scope.
Local Open Scope list_scope.
Local Open Scope stdpp_scope.

(* ================================================================== *)
(** * Python string primitives *)
(* ================================================================== *)

Module PyStr.

(** [str.isspace] on one ASCII character: TAB..CR, FS..US and SPACE. *)
Definition is_space (c : ascii) : bool :=
  let n := nat_of_ascii c in
  ((9 <=? n)%nat && (n <=? 13)%nat) || ((28 <=? n)%nat && (n <=? 32)%nat).

Definition lower_char (c : ascii) : ascii :=
  let n := nat_of_ascii c in
  if ((65 <=? n)%nat && (n <=? 90)%nat) then ascii_of_nat (n + 32) else c.

(** [s.lower()] *)
Fixpoint lower (s : string) : string :=
  match s with
  | EmptyString => EmptyString
  | String c s' => String (lower_char c) (lower s')
  end.

(** [sub in s] *)
Fixpoint contains (sub s : string) : bool :=
  String.prefix sub s ||
  match s with
  | EmptyString => false
  | String _ s' => contains sub s'
  end.

(** [any(k in t for k in ks)] *)
Definition any_in (ks : list string) (t : string) : bool :=
  existsb (fun k => contains k t) ks.

Fixpoint rev_onto (s acc : string) : string :=
  match s with
  | EmptyString => acc
  | String c s' => rev_onto s' (String c acc)
  end.

Definition rev (s : string) : string := rev_onto s EmptyString.

(** [s.split()]: maximal runs of non-space characters.  [cur] is the
    word being read, reversed. *)
Fixpoint split_go (cur : string) (s : string) : list string :=
  match s with
  | EmptyString =>
      match cur with EmptyString => [] | _ => [rev cur] end
  | String c s' =>
      if is_space c then
        match cur with
        | EmptyString => split_go EmptyString s'
        | _ => rev cur :: split_go EmptyString s'
        end
      else split_go (String c cur) s'
  end.

Definition split (s : string) : list string := split_go EmptyString s.

Fixpoint lstrip (s : string) : string :=
  match s with
  | EmptyString => EmptyString
  | String c s' => if is_space c then lstrip s' else s
  end.

(** [s.strip()] *)
Definition strip (s : string) : string := rev (lstrip (rev (lstrip s))).

(** [s[:n]] for a non-negative literal [n]. *)
Fixpoint take (n : nat) (s : string) : string :=
  match n, s with
  | O, _ => EmptyString
  | S _, EmptyString => EmptyString
  | S n', String c s' => String c (take n' s')
  end.

(** [str(n)] for a non-negative [int]. *)
Definition of_nat (n : nat) : string := NilEmpty.string_of_uint (Nat.to_uint n).

Definition is_empty (s : string) : bool :=
  match s with EmptyString => true | _ => false end.

Definition mem (s : string) (l : list string) : bool :=
  existsb (String.eqb s) l.

Definition dquote : string := String (ascii_of_nat 34) EmptyString.
Definition newline : string := String (ascii_of_nat 10) EmptyString.

(** [sep.join(l)] *)
Fixpoint join (sep : string) (l : list string) : string :=
  match l with
  | [] => EmptyString
  | [x] => x
  | x :: rest => x +:+ sep +:+ join sep rest
  end.

End PyStr.

(* ================================================================== *)
(** * Dynamically typed values *)
(* ================================================================== *)

(** Scalars that travel in envelopes. *)
Inductive pyval :=
| PyNone
| PyBool (b : bool)
| PyInt (z : Z)
| PyFloat (q : Q)
| PyStr (s : string).

(** JSON values, as [json.loads] yields them. *)
#[local] Set Warnings "-register-all".
Inductive json :=
| JNull
| JBool (b : bool)
| JInt (z : Z)
| JFloat (q : Q)
| JStr (s : string)
| JArr (l : list json)
| JObj (kvs : list (string * json)).
#[local] Set Warnings "register-all".

Definition Qeqb0 (q : Q) : bool := Qeq_bool q 0.

(** Python truthiness of a JSON value. *)
Definition json_truthy (j : json) : bool :=
  match j with
  | JNull => false
  | JBool b => b
  | JInt z => negb (z =? 0)%Z
  | JFloat q => negb (Qeqb0 q)
  | JStr s => negb (PyStr.is_empty s)
  | JArr l => match l with [] => false | _ => true end
  | JObj kvs => match kvs with [] => false | _ => true end
  end.

(** Exceptions (subclasses of [Exception]) by class name and message. *)
Record exn := Exn { exn_class : string; exn_msg : string }.

Definition TypeError (msg : string) : exn := Exn "TypeError" msg.
Definition ValueError (msg : string) : exn := Exn "ValueError" msg.
Definition IndexError (msg : string) : exn := Exn "IndexError" msg.
Definition AttributeError (msg : string) : exn := Exn "AttributeError" msg.
Definition ZeroDivisionError (msg : string) : exn := Exn "ZeroDivisionError" msg.

(** [v >= f] for a float literal [f]: numbers compare, [bool] is an
    [int], anything else raises [TypeError]. *)
Definition py_ge_float (v : pyval) (f : Q) : exn + bool :=
  match v with
  | PyInt z => inr (Qle_bool f (inject_Z z))
  | PyFloat q => inr (Qle_bool f q)
  | PyBool b => inr (Qle_bool f (if b then 1 else 0))
  | PyStr _ => inl (TypeError "'>=' not supported between instances of 'str' and 'float'")
  | PyNone => inl (TypeError "'>=' not supported between instances of 'NoneType' and 'float'")
  end.

(** The number a value stands for in a comparison with a float. *)
Definition numeric (v : pyval) : option Q :=
  match v with
  | PyInt z => Some (inject_Z z)
  | PyFloat q => Some q
  | PyBool b => Some (if b then 1 else 0)%Q
  | _ => None
  end.

Definition confidence_threshold : Q := 85 # 100.

(* ================================================================== *)
(** * Intent classifier ([agents/intent.py]) *)
(* ================================================================== *)

Module Intent.

(** [IntentPrediction]: the dictionary [classify] returns. *)
Record IntentPrediction := {
  intent : string;
  confidence : pyval;
}.

Definition planner_cues : list string :=
  ["teach"; "explain"; "learn"; "what is"; "how does"; "advice"; "suggest";
   "plan"; "roadmap"; "problem"; "stuck"; "review"; "feedback"].
Definition task_cues : list string :=
  ["task"; "todo"; "remind"; "reminder"; "add event"; "schedule"; "calendar"].
Definition emotion_cues : list string :=
  ["sad"; "stress"; "anx"; "feel"; "upset"; "depress"; "lonely"; "happy"; "excited"].
Definition summary_cues : list string :=
  ["summary"; "summarize"; "tl;dr"; "summ"].

(** [IntentAgent.classify]; logging is not modelled. *)
Definition classify (text : string) : IntentPrediction :=
  let t := PyStr.lower text in
  if PyStr.any_in planner_cues t then
    {| intent := "planner"; confidence := PyStr "0.9" |}
  else if PyStr.any_in task_cues t then
    {| intent := "task"; confidence := PyStr "0.9" |}
  else if PyStr.any_in emotion_cues t then
    {| intent := "emotion"; confidence := PyStr "0.9" |}
  else if PyStr.any_in summary_cues t then
    {| intent := "summary"; confidence := PyStr "0.8" |}
  else
    {| intent := "general"; confidence := PyStr "0.6" |}.

Definition labels : list string :=
  ["planner"; "task"; "emotion"; "summary"; "general"].

(** The shape the data model gives [IntentResult.confidence]. *)
Definition is_unit_float (v : pyval) : Prop :=
  match v with
  | PyFloat q => (0 <= q)%Q /\ (q <= 1)%Q
  | _ => False
  end.

End Intent.

(** [d.get(k)] on a JSON object held as an association list. *)
Fixpoint assoc_get {A} (k : string) (kvs : list (string * A)) : option A :=
  match kvs with
  | [] => None
  | (k', v) :: rest => if String.eqb k k' then Some v else assoc_get k rest
  end.

(** [d[k] = v]: replace in place or append. *)
Fixpoint assoc_set {A} (k : string) (v : A) (kvs : list (string * A)) : list (string * A) :=
  match kvs with
  | [] => [(k, v)]
  | (k', v') :: rest =>
      if String.eqb k k' then (k, v) :: rest else (k', v') :: assoc_set k v rest
  end.

Definition json_get (k : string) (j : json) : option json :=
  match j with
  | JObj kvs => assoc_get k kvs
  | _ => None
  end.

(* ================================================================== *)
(** * The world: key-value store, audit trail, clock *)
(* ================================================================== *)

(** [AuditTrail] payloads (dictionaries with a fixed set of keys). *)
Inductive AuditPayload :=
| ApToolBlocked (tool user_id session_id : string) (arguments : gmap string json)
| ApToolCall (tool user_id session_id : string) (arguments : gmap string json)
             (success : bool) (diagnostics : list (string * json))
| ApMemoryWrite (namespace key value_preview : string).

Record AuditEvent := {
  ev_id : nat;
  ev_event_type : string;
  ev_trace_id : string;
  ev_severity : string;
  ev_payload : AuditPayload;
  ev_timestamp : Q;
  ev_status : string;
  ev_notes : list string;
}.

(** Ghost record of the store operations performed, oldest first. *)
Inductive KvOp :=
| KvGet (namespace key : string)
| KvSet (namespace key : string).

Record World := {
  (** [MemoryBank]: the [kv] table, (namespace, key) to (value, updated_at) *)
  kv : gmap (string * string) (json * Q);
  (** [audit_trail]: the deque, newest first, and its id counter *)
  audit_events : list AuditEvent;
  audit_next_id : nat;
  (** how many times the clock and the uuid generator were read *)
  clock_reads : nat;
  uuid_draws : nat;
  (** ghost: names of the tools whose [invoke] was entered, oldest first *)
  invoke_log : list string;
  (** ghost: store operations, oldest first *)
  kv_log : list KvOp;
}.

Definition with_kv (f : gmap (string * string) (json * Q) -> gmap (string * string) (json * Q))
    (w : World) : World :=
  {| kv := f (kv w); audit_events := audit_events w; audit_next_id := audit_next_id w;
     clock_reads := clock_reads w; uuid_draws := uuid_draws w;
     invoke_log := invoke_log w; kv_log := kv_log w |}.

Definition with_audit (evs : list AuditEvent) (next : nat) (w : World) : World :=
  {| kv := kv w; audit_events := evs; audit_next_id := next;
     clock_reads := clock_reads w; uuid_draws := uuid_draws w;
     invoke_log := invoke_log w; kv_log := kv_log w |}.

Definition with_clock (n : nat) (w : World) : World :=
  {| kv := kv w; audit_events := audit_events w; audit_next_id := audit_next_id w;
     clock_reads := n; uuid_draws := uuid_draws w;
     invoke_log := invoke_log w; kv_log := kv_log w |}.

Definition with_uuid (n : nat) (w : World) : World :=
  {| kv := kv w; audit_events := audit_events w; audit_next_id := audit_next_id w;
     clock_reads := clock_reads w; uuid_draws := n;
     invoke_log := invoke_log w; kv_log := kv_log w |}.

Definition with_invoke_log (l : list string) (w : World) : World :=
  {| kv := kv w; audit_events := audit_events w; audit_next_id := audit_next_id w;
     clock_reads := clock_reads w; uuid_draws := uuid_draws w;
     invoke_log := l; kv_log := kv_log w |}.

Definition with_kv_log (l : list KvOp) (w : World) : World :=
  {| kv := kv w; audit_events := audit_events w; audit_next_id := audit_next_id w;
     clock_reads := clock_reads w; uuid_draws := uuid_draws w;
     invoke_log := invoke_log w; kv_log := l |}.

Definition empty_world : World :=
  {| kv := ∅; audit_events := []; audit_next_id := 1;
     clock_reads := 0; uuid_draws := 0; invoke_log := []; kv_log := [] |}.

(** What the interpreter and the operating system supply. *)
Record Host := {
  (** the [n]-th reading of [time.time()] *)
  time_time : nat -> Q;
  (** the [n]-th [str(uuid.uuid4())] *)
  uuid4 : nat -> string;
  (** [str(v)] for a JSON value *)
  py_str : json -> string;
  (** [datetime.fromisoformat(s).isoformat()], when [s] parses *)
  fromisoformat : string -> option string;
  (** [(datetime.utcnow() + timedelta(days=1)).isoformat()] at the [n]-th clock reading *)
  utc_tomorrow : nat -> string;
}.

(** State and exception monad over the world. *)
Definition M (A : Type) : Type := World -> (exn + A) * World.

Global Instance M_ret : MRet M := fun A (a : A) w => (inr a, w).
Global Instance M_bind : MBind M := fun A B (f : A -> M B) (m : M A) w =>
  match m w with
  | (inl e, w') => (inl e, w')
  | (inr a, w') => f a w'
  end.

Definition raise {A} (e : exn) : M A := fun w => (inl e, w).

(** [try: body except Exception as exc: handler(exc)] *)
Definition try_except {A} (body : M A) (handler : exn -> M A) : M A := fun w =>
  match body w with
  | (inl e, w') => handler e w'
  | (inr a, w') => (inr a, w')
  end.

Definition lift_exn {A} (r : exn + A) : M A := fun w => (r, w).
Definition get_world : M World := fun w => (inr w, w).
Definition modify (f : World -> World) : M unit := fun w => (inr tt, f w).

Section WithHost.
Variable host : Host.

Definition read_clock : M Q := fun w =>
  (inr (time_time host (clock_reads w)), with_clock (S (clock_reads w)) w).

Definition draw_uuid : M string := fun w =>
  (inr (uuid4 host (uuid_draws w)), with_uuid (S (uuid_draws w)) w).

(** [AuditTrail.record]: the deque holds at most 500 events. *)
Definition audit_max_events : nat := 500.

Definition audit_record (event_type : string) (trace_id : option string)
    (severity : string) (payload : AuditPayload) : M AuditEvent :=
  now ← read_clock;
  w ← get_world;
  let tid := match trace_id with
             | Some t => if PyStr.is_empty t then "unknown" else t
             | None => "unknown"
             end in
  let event := {| ev_id := audit_next_id w; ev_event_type := event_type;
                  ev_trace_id := tid; ev_severity := severity;
                  ev_payload := payload; ev_timestamp := now;
                  ev_status := "open"; ev_notes := [] |} in
  modify (with_audit (take audit_max_events (event :: audit_events w))
                     (S (audit_next_id w)));;
  mret event.

(** [MemoryBank.set] *)
Definition memory_set (namespace key : string) (value : json)
    (trace_id : option string) : M unit :=
  now ← read_clock;
  modify (with_kv (insert (namespace, key) (value, now)));;
  modify (fun w => with_kv_log (kv_log w ++ [KvSet namespace key]) w);;
  audit_record "memory_write" trace_id "info"
    (ApMemoryWrite namespace key (PyStr.take 120 (py_str host value)));;
  mret tt.

(** [MemoryBank.get] *)
Definition memory_get (namespace key : string) (default : json) : M json :=
  modify (fun w => with_kv_log (kv_log w ++ [KvGet namespace key]) w);;
  w ← get_world;
  match kv w !! (namespace, key) with
  | None => mret default
  | Some (val, _) => mret val
  end.

(** [MemoryBank.append_to_list]: a missing or falsy value starts a new
    list, a value that is no list becomes its first element. *)
Definition memory_append_to_list (namespace key : string) (item : json)
    (trace_id : option string) : M unit :=
  stored ← memory_get namespace key (JArr []);
  let lst := if json_truthy stored then stored else JArr [] in
  let lst := match lst with
             | JArr l => l
             | other => [other]
             end in
  memory_set namespace key (JArr (lst ++ [item])) trace_id.

End WithHost.

(* ================================================================== *)
(** * Tool registry and tools ([tools/base.py], [calendar.py], [docs.py], [web.py]) *)
(* ================================================================== *)

Module Tools.

(** Tool arguments are a mapping from argument name to any value
    ([Dict[str, Any]]); the values are modelled as JSON values. *)
Record ToolRequest := {
  rq_name : string;
  rq_arguments : gmap string json;
  rq_user_id : string;
  rq_session_id : string;
  rq_trace_id : string;
}.

Record ToolResult := {
  tr_name : string;
  tr_success : bool;
  tr_output : json;
  tr_diagnostics : list (string * json);
}.

(** The [Tool] interface: a name, the guardrail predicate, which
    returns a [bool] or raises, and the effectful [invoke]. *)
Record Tool := {
  tool_name : string;
  tool_is_allowed : ToolRequest -> exn + bool;
  tool_invoke : ToolRequest -> M ToolResult;
}.

(** [Tool.is_allowed]: [len(request.arguments) <= max_args]. *)
Definition base_is_allowed (max_args : nat) (request : ToolRequest) : bool :=
  (size (rq_arguments request) <=? max_args)%nat.

(** [arguments.get(key) or default] *)
Definition arg_or (key : string) (default : json) (arguments : gmap string json) : json :=
  match arguments !! key with
  | Some v => if json_truthy v then v else default
  | None => default
  end.

(** [str(v)]: a string is itself, any other value is printed by the
    interpreter. *)
Definition json_str (host : Host) (v : json) : string :=
  match v with
  | JStr s => s
  | other => py_str host other
  end.

(** [str(arguments.get(key) or default)] *)
Definition arg_str (host : Host) (key default : string) (arguments : gmap string json)
    : string :=
  json_str host (arg_or key (JStr default) arguments).

(** [v in {...}] for a set of strings: the value is hashed first,
    which a list or a dictionary refuses. *)
Definition in_str_set (v : json) (l : list string) : exn + bool :=
  match v with
  | JStr s => inr (PyStr.mem s l)
  | JArr _ => inl (TypeError "unhashable type: 'list'")
  | JObj _ => inl (TypeError "unhashable type: 'dict'")
  | _ => inr false
  end.

(** [v == s] for a string literal [s] *)
Definition eq_str (v : json) (s : string) : bool :=
  match v with
  | JStr t => String.eqb t s
  | _ => false
  end.

Definition guardrail_result (name : string) : ToolResult :=
  {| tr_name := name; tr_success := false; tr_output := JObj [];
     tr_diagnostics := [("error", JStr "guardrail_violation")] |}.

Definition exception_result (name : string) (exc : exn) : ToolResult :=
  {| tr_name := name; tr_success := false; tr_output := JObj [];
     tr_diagnostics := [("error", JStr (exn_msg exc))] |}.

(** [ToolRegistry._tools] *)
Abbreviation ToolRegistry := (gmap string Tool).

(** [ToolRegistry.register] *)
Definition register (tool : Tool) (reg : ToolRegistry) : ToolRegistry :=
  <[tool_name tool := tool]> reg.

(** [ToolRegistry.__init__]: registers the tools in order. *)
Definition make_registry (tools : list Tool) : ToolRegistry :=
  fold_left (fun reg tool => register tool reg) tools ∅.

Section WithHost.
Variable host : Host.

(** [ToolRegistry.call]: the guardrail predicate is evaluated before
    the [try] block is entered. *)
Definition call (reg : ToolRegistry) (name user_id session_id trace_id : string)
    (arguments : option (gmap string json)) : M ToolResult :=
  match reg !! name with
  | None => raise (ValueError ("Unknown tool: " +:+ name))
  | Some tool =>
      let request := {| rq_name := name;
                        rq_arguments := default ∅ arguments;
                        rq_user_id := user_id;
                        rq_session_id := session_id;
                        rq_trace_id := trace_id |} in
      allowed ← lift_exn (tool_is_allowed tool request);
      if negb allowed then
        audit_record host "tool_call" (Some trace_id) "warn"
          (ApToolBlocked name user_id session_id (rq_arguments request));;
        mret (guardrail_result name)
      else
        try_except
          (modify (fun w => with_invoke_log (invoke_log w ++ [name]) w);;
           result ← tool_invoke tool request;
           audit_record host "tool_call" (Some trace_id)
             (if tr_success result then "info" else "warn")
             (ApToolCall name user_id session_id (rq_arguments request)
                (tr_success result) (tr_diagnostics result));;
           mret result)
          (fun exc =>
             audit_record host "tool_call" (Some trace_id) "error"
               (ApToolCall name user_id session_id (rq_arguments request)
                  false [("error", JStr (exn_msg exc))]);;
             mret (exception_result name exc))
  end.

(** ** [CalendarTool] *)

Definition calendar_name : string := "calendar.manage".
Definition calendar_namespace : string := "events".
Definition calendar_max_args : nat := 6.
Definition allowed_actions : list string := ["list_upcoming"; "add_hold"].

(** [request.arguments.get("action") or "list_upcoming"] *)
Definition calendar_action (request : ToolRequest) : json :=
  arg_or "action" (JStr "list_upcoming") (rq_arguments request).

(** [CalendarTool.is_allowed] *)
Definition calendar_is_allowed (request : ToolRequest) : exn + bool :=
  if negb (base_is_allowed calendar_max_args request) then inr false
  else in_str_set (calendar_action request) allowed_actions.

(** [value or []] *)
Definition or_empty_list (j : json) : json :=
  if json_truthy j then j else JArr [].

(** [events[-3:][::-1]] *)
Definition last_three_reversed (events : json) : exn + json :=
  match events with
  | JArr l => inr (JArr (reverse (drop (length l - 3) l)))
  | JStr s =>
      inr (JStr (PyStr.rev (string_of_list_ascii
             (drop (String.length s - 3) (list_ascii_of_string s)))))
  | JObj _ => inl (TypeError "unhashable type: 'slice'")
  | _ => inl (TypeError "object is not subscriptable")
  end.

(** [len(x)] for a sliced value *)
Definition json_len (j : json) : nat :=
  match j with
  | JArr l => length l
  | JStr s => String.length s
  | JObj kvs => length kvs
  | _ => 0
  end.

(** [CalendarTool._list_upcoming] *)
Definition calendar_list_upcoming (request : ToolRequest) : M ToolResult :=
  stored ← memory_get calendar_namespace (rq_user_id request) (JArr []);
  upcoming ← lift_exn (last_three_reversed (or_empty_list stored));
  mret {| tr_name := calendar_name; tr_success := true;
          tr_output := JObj [("events", upcoming)];
          tr_diagnostics := [("count", JInt (Z.of_nat (json_len upcoming)))] |}.

(** [events.append(event)] *)
Definition json_append (events event : json) : exn + json :=
  match events with
  | JArr l => inr (JArr (l ++ [event]))
  | _ => inl (AttributeError "object has no attribute 'append'")
  end.

(** [CalendarTool._add_hold] *)
Definition calendar_add_hold (request : ToolRequest) : M ToolResult :=
  let arguments := rq_arguments request in
  let title := PyStr.take 80 (PyStr.strip (arg_str host "title" "Hold" arguments)) in
  if PyStr.is_empty title then
    mret {| tr_name := calendar_name; tr_success := false; tr_output := JObj [];
            tr_diagnostics := [("error", JStr "missing_title")] |}
  else
    date ← match fromisoformat host
                   (match arguments !! "date" with
                    | Some date_str => json_str host date_str
                    | None => "None"
                    end) with
           | Some iso => mret iso
           | None => fun w => (inr (utc_tomorrow host (clock_reads w)),
                               with_clock (S (clock_reads w)) w)
           end;
    let event := JObj [("title", JStr title); ("date", JStr date);
                       ("time", default (JStr "09:00") (arguments !! "time"));
                       ("source", JStr "tool_bus")] in
    stored ← memory_get calendar_namespace (rq_user_id request) (JArr []);
    events ← lift_exn (json_append (or_empty_list stored) event);
    memory_set host calendar_namespace (rq_user_id request) events
      (Some (rq_trace_id request));;
    mret {| tr_name := calendar_name; tr_success := true;
            tr_output := JObj [("created", event)];
            tr_diagnostics := [("total_events", JInt (Z.of_nat (json_len events)))] |}.

(** [CalendarTool.invoke] *)
Definition calendar_invoke (request : ToolRequest) : M ToolResult :=
  if eq_str (calendar_action request) "add_hold"
  then calendar_add_hold request
  else calendar_list_upcoming request.

Definition CalendarTool : Tool :=
  {| tool_name := calendar_name;
     tool_is_allowed := calendar_is_allowed;
     tool_invoke := calendar_invoke |}.

End WithHost.

(** ** [DocumentLookupTool] *)

Record DocRecord := {
  doc_path : string;
  doc_title : string;
  doc_content : string;
}.

Definition docs_name : string := "docs.lookup".
Definition docs_max_args : nat := 4.
Definition max_query_len : nat := 160.

(** The suffix appended to an excerpt, byte for byte as in the source. *)
Definition excerpt_suffix : string :=
  string_of_list_ascii (map ascii_of_nat [195; 162; 226; 130; 172; 194; 166]).

Definition doc_hit (record : DocRecord) : json :=
  JObj [("title", JStr (doc_title record)); ("path", JStr (doc_path record));
        ("excerpt", JStr (PyStr.take 240 (doc_content record) +:+ excerpt_suffix))].

(** The loop of [DocumentLookupTool.invoke]: case-insensitive
    substring search, leaving the loop once three hits are found. *)
Fixpoint docs_scan (query : string) (records : list DocRecord) (hits : list json)
    : list json :=
  match records with
  | [] => hits
  | record :: rest =>
      let hits' :=
        if PyStr.contains (PyStr.lower query) (PyStr.lower (doc_content record))
        then hits ++ [doc_hit record] else hits in
      if (3 <=? length hits')%nat then hits' else docs_scan query rest hits'
  end.

(** [DocumentLookupTool.invoke] *)
Definition docs_invoke (host : Host) (records : list DocRecord) (request : ToolRequest)
    : M ToolResult :=
  let query := PyStr.strip (arg_str host "query" "" (rq_arguments request)) in
  if PyStr.is_empty query || (max_query_len <? String.length query)%nat then
    mret {| tr_name := docs_name; tr_success := false; tr_output := JObj [];
            tr_diagnostics := [("error", JStr "invalid_query")] |}
  else
    let hits := docs_scan query (take 25 records) [] in
    mret {| tr_name := docs_name; tr_success := true;
            tr_output := JObj [("hits", JArr hits)];
            tr_diagnostics := [("query", JStr query);
                               ("hit_count", JInt (Z.of_nat (length hits)))] |}.

Definition DocumentLookupTool (host : Host) (records : list DocRecord) : Tool :=
  {| tool_name := docs_name;
     tool_is_allowed := fun request => inr (base_is_allowed docs_max_args request);
     tool_invoke := docs_invoke host records |}.

(** ** [CuratedWebSearchTool] *)

Record CuratedResult := {
  cr_title : string;
  cr_url : string;
  cr_summary : string;
  cr_tags : list string;
}.

Definition CURATED_RESULTS : list CuratedResult :=
  [ {| cr_title := "AI Observability Basics";
       cr_url := "https://example.org/observability";
       cr_summary := "Explains latency percentiles, trace IDs, and metrics useful for agent systems.";
       cr_tags := ["metrics"; "observability"] |};
    {| cr_title := "Tool Orchestration Blueprint";
       cr_url := "https://example.org/tools";
       cr_summary := "Patterns for secure tool execution, guardrails, and audit logging.";
       cr_tags := ["tools"; "security"] |};
    {| cr_title := "Education Benchmarks 2025";
       cr_url := "https://example.org/edu-bench";
       cr_summary := "Latest data on AI tutor effectiveness across 50 judge scenarios.";
       cr_tags := ["education"; "benchmarks"] |} ].

Definition web_name : string := "web.search".
Definition web_max_args : nat := 4.
Definition allowed_tags : list string := ["metrics"; "tools"; "education"].

Definition curated_json (r : CuratedResult) : json :=
  JObj [("title", JStr (cr_title r)); ("url", JStr (cr_url r));
        ("summary", JStr (cr_summary r)); ("tags", JArr (map JStr (cr_tags r)))].

(** The query filter of the loop: the result is skipped when the
    query is non-empty and occurs neither in the summary nor in the
    title. *)
Definition query_skips (query : string) (r : CuratedResult) : bool :=
  negb (PyStr.is_empty query)
  && negb (PyStr.contains query (PyStr.lower (cr_summary r)))
  && negb (PyStr.contains query (PyStr.lower (cr_title r))).

(** The loop of [CuratedWebSearchTool.invoke]; [None] is the early
    return taken on a tag outside the whitelist. *)
Fixpoint web_scan (query tag : string) (results : list CuratedResult)
    (hits : list CuratedResult) : option (list CuratedResult) :=
  match results with
  | [] => Some hits
  | r :: rest =>
      if query_skips query r then web_scan query tag rest hits
      else if negb (PyStr.is_empty tag) && negb (PyStr.mem tag allowed_tags) then None
      else if negb (PyStr.is_empty tag) && negb (PyStr.mem tag (cr_tags r))
           then web_scan query tag rest hits
      else web_scan query tag rest (hits ++ [r])
  end.

(** [CuratedWebSearchTool.invoke] *)
Definition web_invoke (host : Host) (request : ToolRequest) : M ToolResult :=
  let query := PyStr.lower (arg_str host "query" "" (rq_arguments request)) in
  let tag := PyStr.lower (arg_str host "tag" "" (rq_arguments request)) in
  match web_scan query tag CURATED_RESULTS [] with
  | None =>
      mret {| tr_name := web_name; tr_success := false; tr_output := JObj [];
              tr_diagnostics := [("error", JStr "unsafe_tag")] |}
  | Some hits =>
      mret {| tr_name := web_name; tr_success := true;
              tr_output := JObj [("hits", JArr (map curated_json (take 3 hits)))];
              tr_diagnostics :=
                [("query", JStr query); ("tag", JStr tag);
                 ("hit_count", JInt (Z.of_nat (length (take 3 hits))))] |}
  end.

Definition CuratedWebSearchTool (host : Host) : Tool :=
  {| tool_name := web_name;
     tool_is_allowed := fun request => inr (base_is_allowed web_max_args request);
     tool_invoke := web_invoke host |}.

(** [build_default_registry]: calendar, document lookup and curated
    search.  The optional MCP tools, which the planner never calls,
    are left out. *)
Definition build_default_registry (host : Host) (docs : list DocRecord) : ToolRegistry :=
  make_registry [CalendarTool host; DocumentLookupTool host docs; CuratedWebSearchTool host].

End Tools.

(* ================================================================== *)
(** * Envelopes *)
(* ================================================================== *)

(** The [intent] entry of a payload; a key that is absent is [None]. *)
Record IntentPayload := {
  ip_intent : option string;
  ip_confidence : option pyval;
}.

Record Meta := {
  meta_from : option string;
  meta_to : option string;
  meta_trace_id : option string;
}.

Record Payload := {
  pl_user_id : option string;
  pl_session_id : option string;
  pl_text : option string;
  pl_intent : option IntentPayload;
}.

Record Envelope := {
  env_meta : option Meta;
  env_payload : option Payload;
}.

Definition empty_payload : Payload :=
  {| pl_user_id := None; pl_session_id := None; pl_text := None; pl_intent := None |}.

Definition empty_intent : IntentPayload :=
  {| ip_intent := None; ip_confidence := None |}.

(* ================================================================== *)
(** * Planner ([agents/planner.py]) *)
(* ================================================================== *)

Module Planner.

Record DepthCfg := {
  dc_steps : nat;
  dc_level : string;
  dc_reflection_prompts : nat;
}.

Record PlanStep := {
  ps_step : nat;
  ps_action : string;
  ps_success : string;
  ps_status : string;
}.

Record ExecEntry := {
  ee_step : nat;
  ee_action : string;
  ee_result : string;
  ee_status : string;
}.

Record ToolEntry := {
  te_step : nat;
  te_tool : string;
  te_success : bool;
  te_output : json;
  te_diagnostics : list (string * json);
}.

Record TimelineEntry := {
  tl_stage : string;
  tl_summary : string;
  tl_timestamp : Q;
}.

(** The checkpoint dictionary [plan_state]. *)
Record PlanState := {
  plan_id : string;
  user_id : string;
  session_id : string;
  goal : string;
  depth : DepthCfg;
  steps : list PlanStep;
  execution_log : list ExecEntry;
  tool_calls : list ToolEntry;
  reflection : string;
  timeline : list TimelineEntry;
  done : bool;
  timestamp : Q;
}.

(** What [handle] returns. *)
Inductive Result :=
| RError (error reply : string)
| RResumed (checkpoint : json) (reply : string)
| RCompleted (plan : PlanState) (reply : string).

Definition status (r : Result) : string :=
  match r with
  | RError _ _ => "error"
  | RResumed _ _ => "resumed"
  | RCompleted _ _ => "completed"
  end.

(** ** The checkpoint as the JSON value the store holds *)

Definition depth_json (d : DepthCfg) : json :=
  JObj [("steps", JInt (Z.of_nat (dc_steps d))); ("level", JStr (dc_level d));
        ("reflection_prompts", JInt (Z.of_nat (dc_reflection_prompts d)))].

Definition step_json (s : PlanStep) : json :=
  JObj [("step", JInt (Z.of_nat (ps_step s))); ("action", JStr (ps_action s));
        ("success", JStr (ps_success s)); ("status", JStr (ps_status s))].

Definition exec_json (e : ExecEntry) : json :=
  JObj [("step", JInt (Z.of_nat (ee_step e))); ("action", JStr (ee_action e));
        ("result", JStr (ee_result e)); ("status", JStr (ee_status e))].

Definition tool_entry_json (t : ToolEntry) : json :=
  JObj [("step", JInt (Z.of_nat (te_step t))); ("tool", JStr (te_tool t));
        ("success", JBool (te_success t)); ("output", te_output t);
        ("diagnostics", JObj (te_diagnostics t))].

Definition timeline_json (t : TimelineEntry) : json :=
  JObj [("stage", JStr (tl_stage t)); ("summary", JStr (tl_summary t));
        ("timestamp", JFloat (tl_timestamp t))].

Definition plan_json (p : PlanState) : json :=
  JObj [("plan_id", JStr (plan_id p)); ("user_id", JStr (user_id p));
        ("session_id", JStr (session_id p)); ("goal", JStr (goal p));
        ("depth", depth_json (depth p));
        ("steps", JArr (map step_json (steps p)));
        ("execution_log", JArr (map exec_json (execution_log p)));
        ("tool_calls", JArr (map tool_entry_json (tool_calls p)));
        ("reflection", JStr (reflection p));
        ("timeline", JArr (map timeline_json (timeline p)));
        ("done", JBool (done p)); ("timestamp", JFloat (timestamp p))].

(** ** Depth *)

Definition complexity_triggers : list string :=
  ["roadmap"; "launch"; "strategy"; "architecture"; "curriculum"; "campaign";
   "research"; "bootcamp"].

(** [len(goal.split()) > 40 or any(word in text for word in complexity_triggers)] *)
Definition is_complex (goal : string) : bool :=
  (40 <? length (PyStr.split goal))%nat
  || PyStr.any_in complexity_triggers (PyStr.lower goal).

(** [PlannerAgent._determine_depth] *)
Definition _determine_depth (intent_payload : IntentPayload) (goal : string)
    : exn + DepthCfg :=
  let base_steps := 4%nat in
  let level := "standard" in
  let '(base_steps, level) :=
    if is_complex goal then (6%nat, "deep") else (base_steps, level) in
  let confidence := default (PyInt 0) (ip_confidence intent_payload) in
  match py_ge_float confidence confidence_threshold with
  | inl e => inl e
  | inr high =>
      let '(base_steps, level) :=
        if high then
          (Nat.min (base_steps + 1) 8,
           if String.eqb level "standard" then "comprehensive" else level)
        else (base_steps, level) in
      inr {| dc_steps := base_steps;
             dc_level := level;
             dc_reflection_prompts :=
               if negb (String.eqb level "standard") then 2 else 1 |}
  end.

(** ** Drafting *)

Definition scaffolding : list string :=
  ["Clarify success criteria"; "Research constraints"; "Design approach";
   "Prototype or pilot"; "Measure outcomes"; "Iterate and scale";
   "Document learnings"; "Share results"].

Definition draft_step (goal : string) (idx : nat) : PlanStep :=
  let scaffold := nth (idx mod length scaffolding) scaffolding "" in
  {| ps_step := idx + 1;
     ps_action := scaffold +:+ " for the goal: " +:+ goal +:+ ".";
     ps_success := "Evidence of progress captured in notes and metrics.";
     ps_status := "planned" |}.

(** [PlannerAgent._draft_plan]: one entry per [idx] in [range(steps)]. *)
Definition _draft_plan (goal : string) (depth_cfg : DepthCfg) : list PlanStep :=
  map (draft_step goal) (seq 0 (dc_steps depth_cfg)).

(** ** Reflection and reply *)

(** [PlannerAgent._reflect] *)
Definition _reflect (plan_steps : list PlanStep) (depth_cfg : DepthCfg) : string :=
  let focus := if (1 <? dc_reflection_prompts depth_cfg)%nat
               then "comprehensive" else "quick" in
  "Completed " +:+ PyStr.of_nat (length plan_steps) +:+ " steps with " +:+ focus
  +:+ " reflection. "
  +:+ "Key takeaway: keep tracking metrics after each iteration to detect risks early.".

(** The first characters of the reply, byte for byte as in the source. *)
Definition reply_badge : string :=
  string_of_list_ascii (map ascii_of_nat [195; 176; 197; 184; 194; 167; 194; 173]).

(** [PlannerAgent._format_response] *)
Definition _format_response (p : PlanState) : string :=
  let bullet_lines :=
    map (fun s => PyStr.of_nat (ps_step s) +:+ ". " +:+ ps_action s) (take 4 (steps p)) in
  let bullets := PyStr.join PyStr.newline bullet_lines in
  reply_badge +:+ " **Multi-Step Plan Created**" +:+ PyStr.newline +:+ PyStr.newline
  +:+ "Goal: " +:+ goal p +:+ PyStr.newline
  +:+ "Depth: " +:+ dc_level (depth p) +:+ " (" +:+ PyStr.of_nat (dc_steps (depth p))
  +:+ " steps)" +:+ PyStr.newline +:+ PyStr.newline
  +:+ "First steps:" +:+ PyStr.newline +:+ bullets +:+ PyStr.newline +:+ PyStr.newline
  +:+ "Reflection: " +:+ reflection p.

Section WithHost.
Variable host : Host.
Variable docs : list Tools.DocRecord.

(** [self.tools] *)
Definition tools : Tools.ToolRegistry := Tools.build_default_registry host docs.

Definition planner_ns : string := "planner_runs".

(** [PlannerAgent._timeline_entry] *)
Definition _timeline_entry (stage summary : string) : M TimelineEntry :=
  now ← read_clock host;
  mret {| tl_stage := stage; tl_summary := summary; tl_timestamp := now |}.

(** The tool a step asks for, if any: name and arguments. *)
Definition tool_intent (step : PlanStep) (goal : string)
    : exn + option (string * gmap string json) :=
  let action_text := PyStr.lower (ps_action step) in
  let goal_text := PyStr.lower goal in
  if PyStr.contains "research" action_text || PyStr.contains "document" action_text then
    inr (Some ("docs.lookup", {["query" := JStr (PyStr.take 160 goal)]}))
  else if PyStr.any_in ["measure"; "monitor"; "scan"] action_text then
    match PyStr.split goal with
    | [] => inl (IndexError "list index out of range")
    | first :: _ =>
        inr (Some ("web.search", <["query" := JStr first]> {["tag" := JStr "metrics"]}))
    end
  else if PyStr.any_in ["schedule"; "calendar"; "onboard"] goal_text then
    inr (Some ("calendar.manage",
               <["action" := JStr "add_hold"]> {["title" := JStr (PyStr.take 60 goal)]}))
  else inr None.

(** [PlannerAgent._maybe_call_tool] *)
Definition _maybe_call_tool (step : PlanStep) (goal user_id session_id trace_id : string)
    : M (option ToolEntry) :=
  intent ← lift_exn (tool_intent step goal);
  match intent with
  | None => mret None
  | Some (name, arguments) =>
      result ← Tools.call host tools name user_id session_id
                 (trace_id +:+ ":" +:+ PyStr.of_nat (ps_step step)) (Some arguments);
      let diagnostics :=
        if negb (Tools.tr_success result) then
          assoc_set "warning"
            (default (JStr "guardrail or runtime failure")
               (assoc_get "warning" (Tools.tr_diagnostics result)))
            (Tools.tr_diagnostics result)
        else Tools.tr_diagnostics result in
      mret (Some {| te_step := ps_step step;
                    te_tool := Tools.tr_name result;
                    te_success := Tools.tr_success result;
                    te_output := Tools.tr_output result;
                    te_diagnostics := diagnostics |})
  end.

Definition exec_entry (step : PlanStep) : ExecEntry :=
  {| ee_step := ps_step step;
     ee_action := ps_action step;
     ee_result := "Validated step " +:+ PyStr.of_nat (ps_step step)
                  +:+ " by defining deliverables and aligning them with the goal.";
     ee_status := "completed" |}.

(** The loop of [PlannerAgent._execute_plan], with the two lists it
    appends to. *)
Fixpoint execute_loop (plan_steps : list PlanStep) (goal user_id session_id trace_id : string)
    (execution_log : list ExecEntry) (tool_calls : list ToolEntry)
    : M (list ExecEntry * list ToolEntry) :=
  match plan_steps with
  | [] => mret (execution_log, tool_calls)
  | step :: rest =>
      let execution_log := execution_log ++ [exec_entry step] in
      tool_entry ← _maybe_call_tool step goal user_id session_id trace_id;
      let tool_calls := match tool_entry with
                        | Some entry => tool_calls ++ [entry]
                        | None => tool_calls
                        end in
      execute_loop rest goal user_id session_id trace_id execution_log tool_calls
  end.

(** [PlannerAgent._execute_plan] *)
Definition _execute_plan (plan_steps : list PlanStep)
    (trace_id user_id session_id goal : string) : M (list ExecEntry * list ToolEntry) :=
  execute_loop plan_steps goal user_id session_id trace_id [] [].

(** [checkpoint.get('goal', 'your goal')], formatted into the reply. *)
Definition checkpoint_goal_text (checkpoint : json) : exn + string :=
  match checkpoint with
  | JObj kvs =>
      match default (JStr "your goal") (assoc_get "goal" kvs) with
      | JStr s => inr s
      | other => inr (py_str host other)
      end
  | _ => inl (AttributeError "object has no attribute 'get'")
  end.

(** [envelope.get("meta", {}).get("trace_id") or str(uuid.uuid4())] *)
Definition trace_id_of (envelope : Envelope) : M string :=
  match env_meta envelope ≫= meta_trace_id with
  | Some t => if PyStr.is_empty t then draw_uuid host else mret t
  | None => draw_uuid host
  end.

(** [PlannerAgent.handle] *)
Definition handle (envelope : Envelope) : M Result :=
  let payload := default empty_payload (env_payload envelope) in
  let user_id := default "user" (pl_user_id payload) in
  let session_id := default "session" (pl_session_id payload) in
  let goal := PyStr.strip (default "" (pl_text payload)) in
  let intent_payload := default empty_intent (pl_intent payload) in
  trace_id ← trace_id_of envelope;
  if PyStr.is_empty goal then
    mret (RError "missing_goal" "Please describe what you want to plan.")
  else
    checkpoint ← memory_get planner_ns user_id JNull;
    if json_truthy checkpoint then
      stored_goal ← lift_exn (checkpoint_goal_text checkpoint);
      mret (RResumed checkpoint
              ("Resuming your most recent plan for " +:+ PyStr.dquote +:+ stored_goal
               +:+ PyStr.dquote +:+ ". "
               +:+ "You can start from any step or ask for adjustments."))
    else
      depth_cfg ← lift_exn (_determine_depth intent_payload goal);
      t_depth ← _timeline_entry "depth"
                  ("level=" +:+ dc_level depth_cfg +:+ " steps="
                   +:+ PyStr.of_nat (dc_steps depth_cfg));
      let plan_steps := _draft_plan goal depth_cfg in
      t_plan ← _timeline_entry "plan"
                 ("drafted " +:+ PyStr.of_nat (length plan_steps) +:+ " steps");
      '(execution_log, tool_calls) ←
         _execute_plan plan_steps trace_id user_id session_id goal;
      t_exec ← _timeline_entry "execute"
                 ("logged " +:+ PyStr.of_nat (length execution_log) +:+ " execution notes");
      let reflection := _reflect plan_steps depth_cfg in
      t_reflect ← _timeline_entry "reflect" (PyStr.take 160 reflection);
      new_id ← draw_uuid host;
      now ← read_clock host;
      let plan_state :=
        {| plan_id := new_id; user_id := user_id; session_id := session_id;
           goal := goal; depth := depth_cfg; steps := plan_steps;
           execution_log := execution_log; tool_calls := tool_calls;
           reflection := reflection;
           timeline := [t_depth; t_plan; t_exec; t_reflect];
           done := true; timestamp := now |} in
      memory_set host planner_ns user_id (plan_json plan_state) (Some trace_id);;
      mret (RCompleted plan_state (_format_response plan_state)).

End WithHost.

End Planner.

(* ================================================================== *)
(** * Router ([agents/router.py]) *)
(* ================================================================== *)

Module Router.

(** What a handler hands back to the router. *)
Inductive HandlerResult :=
| HPlanner (r : Planner.Result)
| HExternal (j : json)
| HEcho (reply : string).

Record RouteResult := {
  envelope : Envelope;
  result : HandlerResult;
}.

Definition pyval_json (v : pyval) : json :=
  match v with
  | PyNone => JNull
  | PyBool b => JBool b
  | PyInt z => JInt z
  | PyFloat q => JFloat q
  | PyStr s => JStr s
  end.

Definition intent_json (i : Intent.IntentPrediction) : json :=
  JObj [("intent", JStr (Intent.intent i));
        ("confidence", pyval_json (Intent.confidence i))].

(** The envelope [route] builds around the classified text. *)
Definition make_envelope (user_id session_id text trace_id : string)
    (intent : Intent.IntentPrediction) : Envelope :=
  {| env_meta := Some {| meta_from := Some "router";
                         meta_to := Some (Intent.intent intent);
                         meta_trace_id := Some trace_id |};
     env_payload := Some {| pl_user_id := Some user_id;
                            pl_session_id := Some session_id;
                            pl_text := Some text;
                            pl_intent :=
                              Some {| ip_intent := Some (Intent.intent intent);
                                      ip_confidence := Some (Intent.confidence intent) |} |} |}.

Section WithHost.
Variable host : Host.
Variable docs : list Tools.DocRecord.
(** [GeneralAgent.handle] and [BestFriendAgent.handle], external
    collaborators of the router. *)
Variable general_handle : Envelope -> M json.
Variable bestfriend_handle : Envelope -> M json.
(** Whether the router was given a [MemoryBank] ([if self.memory]). *)
Variable has_memory : bool.

(** [RouterAgent.route] *)
Definition route (user_id session_id text : string) : M RouteResult :=
  trace_id ← draw_uuid host;
  let intent := Intent.classify text in
  let envelope := make_envelope user_id session_id text trace_id intent in
  let to := Intent.intent intent in
  result ←
    (if String.eqb to "task" then
       j ← general_handle envelope; mret (HExternal j)
     else if String.eqb to "planner" then
       r ← Planner.handle host docs envelope; mret (HPlanner r)
     else if String.eqb to "emotion" then
       j ← bestfriend_handle envelope; mret (HExternal j)
     else mret (HEcho ("Handled by general router: " +:+ PyStr.take 120 text)));
  try_except
    (if has_memory then
       memory_set host "sessions" session_id
         (JObj [("user_id", JStr user_id); ("intent", intent_json intent)])
         (Some trace_id)
     else mret tt)
    (fun _ => mret tt);;
  mret {| envelope := envelope; result := result |}.

End WithHost.

End Router.

(* ================================================================== *)
(** * Hybrid retrieval ([rag.py]) *)
(* ================================================================== *)

Module Rag.

Record DocumentChunk := {
  doc_id : string;
  chunk_id : string;
  title : string;
  source : string;
  content : string;
  updated_at : Q;
  embedding : list Q;
  (** a [Counter]: token to number of occurrences *)
  keywords : gmap string nat;
}.

(** One entry of the list [search] returns. *)
Record Hit := {
  hit_score : Q;
  hit_content : string;
  hit_citation : string;
  hit_source : string;
  hit_title : string;
  hit_updated_at : Q;
}.

Definition STOPWORDS : list string :=
  ["the"; "and"; "you"; "for"; "that"; "with"; "are"; "this"; "was"; "but";
   "have"; "not"; "your"; "from"; "will"; "then"; "been"; "into"; "about";
   "when"; "what"; "will"; "their"; "there"].

(** The separator of a citation, byte for byte as in the source. *)
Definition citation_bullet : string :=
  string_of_list_ascii (map ascii_of_nat [195; 162; 226; 130; 172; 194; 162]).

(** [DocumentChunk.citation] *)
Definition citation (rec : DocumentChunk) : string :=
  title rec +:+ " (" +:+ source rec +:+ ") " +:+ citation_bullet +:+ " chunk "
  +:+ chunk_id rec.

(** A character of the class [[a-z0-9]]. *)
Definition is_token_char (c : ascii) : bool :=
  let n := nat_of_ascii c in
  ((97 <=? n)%nat && (n <=? 122)%nat) || ((48 <=? n)%nat && (n <=? 57)%nat).

(** [re.findall(r"[a-z0-9]+", s)]; [cur] is the token being read, reversed. *)
Fixpoint findall_go (cur : string) (s : string) : list string :=
  match s with
  | EmptyString =>
      match cur with EmptyString => [] | _ => [PyStr.rev cur] end
  | String c s' =>
      if is_token_char c then findall_go (String c cur) s'
      else match cur with
           | EmptyString => findall_go EmptyString s'
           | _ => PyStr.rev cur :: findall_go EmptyString s'
           end
  end.

Definition findall_tokens (s : string) : list string := findall_go EmptyString s.

(** [Counter(tokens)] *)
Definition Counter (tokens : list string) : gmap string nat :=
  fold_left (fun m tok => <[tok := S (default 0%nat (m !! tok))]> m) tokens ∅.

(** The list [filtered] of [_keywords]: the tokens of the lower-cased
    text that are no stop words and longer than two characters. *)
Definition keyword_tokens (text : string) : list string :=
  let tokens := findall_tokens (PyStr.lower text) in
  List.filter (fun tok => negb (PyStr.mem tok STOPWORDS) && (2 <? String.length tok)%nat)
              tokens.

(** [RAGKnowledgeBase._keywords] *)
Definition _keywords (text : string) : gmap string nat :=
  Counter (keyword_tokens text).

(** [d.get(token, 0)] *)
Definition count_of (d : gmap string nat) (token : string) : nat :=
  default 0%nat (d !! token).

Definition Qnat (n : nat) : Q := inject_Z (Z.of_nat n).

(** [RAGKnowledgeBase._keyword_overlap] *)
Definition _keyword_overlap (q d : gmap string nat) : Q :=
  let numerator :=
    map_fold (fun token c acc => (acc + Nat.min c (count_of d token))%nat) 0%nat q in
  let total := map_fold (fun _ c acc => (acc + c)%nat) 0%nat q in
  let denominator := if (total =? 0)%nat then 1%nat else total in
  (Qnat numerator / Qnat denominator)%Q.

(** [x > y] on floats *)
Definition Qgtb (x y : Q) : bool := negb (Qle_bool x y).

(** [max(a, b)]: the first argument unless the second is greater. *)
Definition py_max (a b : Q) : Q := if Qgtb b a then b else a.

Definition Qsum (l : list Q) : Q := fold_left Qplus l 0%Q.

(** [any(v)] on a vector *)
Definition any_nonzero (a : list Q) : bool := existsb (fun x => negb (Qeq_bool x 0)) a.

Definition dot (a b : list Q) : Q :=
  Qsum (map (fun p => (fst p * snd p)%Q) (combine a b)).

Section WithMath.
(** Whether [numpy] could be imported. *)
Variable NUMPY_AVAILABLE : bool.
(** The square root of [math] and [numpy]. *)
Variable sqrtQ : Q -> Q.
(** [self.encoder.encode([text])[0]] *)
Variable encode : string -> list Q.

Definition norm (a : list Q) : Q := sqrtQ (Qsum (map (fun x => (x * x)%Q) a)).

(** [RAGKnowledgeBase._cosine]: the [numpy] branch refuses vectors of
    different lengths, the fallback cuts both to the shorter one. *)
Definition _cosine (a b : list Q) : exn + Q :=
  if NUMPY_AVAILABLE then
    if negb (any_nonzero a) || negb (any_nonzero b) then inr 0%Q
    else
      let denom := (norm a * norm b)%Q in
      if Qeq_bool denom 0 then inr 0%Q
      else if negb (length a =? length b)%nat then
        inl (ValueError "shapes not aligned")
      else inr (dot a b / denom)%Q
  else
    match a, b with
    | [], _ | _, [] => inr 0%Q
    | _, _ =>
        let limit := Nat.min (length a) (length b) in
        let a' := take limit a in
        let b' := take limit b in
        let dot_ab := dot a' b' in
        let norm_a := norm a' in
        let norm_b := norm b' in
        if Qeq_bool norm_a 0 || Qeq_bool norm_b 0 then inr 0%Q
        else inr (dot_ab / (norm_a * norm_b))%Q
    end.

(** [max(0.2, 1 - (recency_days / freshness_window_days))] with
    [recency_days = max(0.0, (now - rec.updated_at) / 86_400)] *)
Definition freshness_of (now : Q) (freshness_window_days : Z) (rec : DocumentChunk)
    : exn + Q :=
  let recency_days := py_max 0 ((now - updated_at rec) / 86400) in
  if (freshness_window_days =? 0)%Z then inl (ZeroDivisionError "float division by zero")
  else inr (py_max (2 # 10) (1 - recency_days / inject_Z freshness_window_days))%Q.

(** The body of the scoring loop of [search] for one record. *)
Definition score_of (query_emb : list Q) (query_keywords : gmap string nat)
    (now : Q) (freshness_window_days : Z) (rec : DocumentChunk) : exn + Q :=
  match _cosine query_emb (embedding rec) with
  | inl e => inl e
  | inr vector_score =>
      let keyword_score := _keyword_overlap query_keywords (keywords rec) in
      match freshness_of now freshness_window_days rec with
      | inl e => inl e
      | inr freshness =>
          inr ((6 # 10) * vector_score + (3 # 10) * keyword_score + (1 # 10) * freshness)%Q
      end
  end.

(** The scoring loop: stops at the first exception. *)
Fixpoint score_all (query_emb : list Q) (query_keywords : gmap string nat)
    (now : Q) (freshness_window_days : Z) (records : list DocumentChunk)
    : exn + list (Q * DocumentChunk) :=
  match records with
  | [] => inr []
  | rec :: rest =>
      match score_of query_emb query_keywords now freshness_window_days rec with
      | inl e => inl e
      | inr total =>
          match score_all query_emb query_keywords now freshness_window_days rest with
          | inl e => inl e
          | inr scored => inr ((total, rec) :: scored)
          end
      end
  end.

End WithMath.

(** ** [list.sort(key=..., reverse=True)]

    A stable sort into descending key order: an element is placed
    after the elements with a greater key and before the first element
    whose key is not greater, so equal keys keep their order. *)
Section Sort.
Context {A : Type}.
Variable key : A -> Q.

Fixpoint insert_desc (x : A) (l : list A) : list A :=
  match l with
  | [] => [x]
  | y :: rest => if Qgtb (key y) (key x) then y :: insert_desc x rest else x :: y :: rest
  end.

Definition sort_reverse (l : list A) : list A := foldr insert_desc [] l.

End Sort.

(** [l[:k]] for an [int] [k]: a negative [k] counts from the end. *)
Definition slice_to {A} (k : Z) (l : list A) : list A :=
  if (0 <=? k)%Z then take (Z.to_nat k) l
  else take (length l - Z.to_nat (- k)) l.

Definition make_hit (p : Q * DocumentChunk) : Hit :=
  {| hit_score := fst p;
     hit_content := content (snd p);
     hit_citation := citation (snd p);
     hit_source := source (snd p);
     hit_title := title (snd p);
     hit_updated_at := updated_at (snd p) |}.

(** [RAGKnowledgeBase.search]; [now] is the reading of [time.time()]. *)
Definition search (NUMPY_AVAILABLE : bool) (sqrtQ : Q -> Q) (encode : string -> list Q)
    (now : Q) (records : list DocumentChunk)
    (query : string) (top_k : Z) (freshness_window_days : Z) : exn + list Hit :=
  if PyStr.is_empty (PyStr.strip query) then inr []
  else
    let query_emb := encode query in
    let query_keywords := _keywords query in
    match score_all NUMPY_AVAILABLE sqrtQ query_emb query_keywords now
            freshness_window_days records with
    | inl e => inl e
    | inr scored =>
        let scored := sort_reverse fst scored in
        inr (map make_hit (slice_to top_k scored))
    end.

(** ** The store and its maintenance *)

Record Store := {
  (** [self.records] *)
  records : list DocumentChunk;
  (** the records last written to [storage_path], if any *)
  persisted : option (list DocumentChunk);
  (** ghost: how many times the storage file was written *)
  writes : nat;
}.

(** [RAGKnowledgeBase._save] *)
Definition _save (st : Store) : Store :=
  {| records := records st; persisted := Some (records st); writes := S (writes st) |}.

(** [RAGKnowledgeBase.apply_freshness_policy]; [now] is the reading of
    [time.time()].  Returns the count and the store afterwards. *)
Definition apply_freshness_policy (now : Q) (max_age_days : Z) (st : Store)
    : nat * Store :=
  let cutoff := (now - inject_Z max_age_days * 86400)%Q in
  let before := length (records st) in
  let kept := List.filter (fun rec => Qle_bool cutoff (updated_at rec)) (records st) in
  let st := {| records := kept; persisted := persisted st; writes := writes st |} in
  let removed := (before - length kept)%nat in
  let st := if (removed =? 0)%nat then st else _save st in
  (removed, st).

(** ** Chunking and ingestion *)

Definition is_cr (c : ascii) : bool := (nat_of_ascii c =? 13)%nat.
Definition is_nl (c : ascii) : bool := (nat_of_ascii c =? 10)%nat.

(** [text.replace("\r", "")] *)
Fixpoint remove_cr (s : string) : string :=
  match s with
  | EmptyString => EmptyString
  | String c s' => if is_cr c then remove_cr s' else String c (remove_cr s')
  end.

(** [s.split("\n\n")]: the pieces between the occurrences of the
    separator, found from the left without overlap.  [cur] is the
    piece being read, reversed. *)
Fixpoint split_blank_go (cur : string) (s : string) : list string :=
  match s with
  | EmptyString => [PyStr.rev cur]
  | String c s' =>
      match s' with
      | String c' s'' =>
          if is_nl c && is_nl c' then PyStr.rev cur :: split_blank_go EmptyString s''
          else split_blank_go (String c cur) s'
      | EmptyString => split_blank_go (String c cur) s'
      end
  end.

Definition split_blank (s : string) : list string := split_blank_go EmptyString s.

(** [[p.strip() for p in cleaned.split("\n\n") if p.strip()]] *)
Definition paragraphs_of (cleaned : string) : list string :=
  map PyStr.strip
      (List.filter (fun p => negb (PyStr.is_empty (PyStr.strip p))) (split_blank cleaned)).

(** [range(0, stop, step)] for a positive [step] *)
Definition range_step (stop step : nat) : list nat :=
  map (fun j => (j * step)%nat) (seq 0 ((stop + step - 1) / step)).

(** The inner loop of [_chunk] for one paragraph *)
Definition chunk_paragraph (max_words : nat) (para : string) : list string :=
  let words := PyStr.split para in
  List.filter (fun chunk => negb (PyStr.is_empty chunk))
    (map (fun i => PyStr.join " " (take max_words (drop i words)))
         (range_step (length words) max_words)).

(** [RAGKnowledgeBase._chunk]; [range] refuses a step of 0 as soon as
    there is a paragraph to cut. *)
Definition _chunk (text : string) (max_words : nat) : exn + list string :=
  let cleaned := remove_cr text in
  let paragraphs := paragraphs_of cleaned in
  match max_words, paragraphs with
  | O, _ :: _ => inl (ValueError "range() arg 3 must not be zero")
  | _, _ =>
      let chunks := concat (map (chunk_paragraph max_words) paragraphs) in
      match chunks with
      | [] => if negb (PyStr.is_empty (PyStr.strip text))
              then inr [PyStr.strip text] else inr chunks
      | _ => inr chunks
      end
  end.

(** The default of [max_words] *)
Definition default_max_words : nat := 180.

(** A document handed to [ingest_documents]; a key that is absent is
    [None]. *)
Record Document := {
  d_id : option string;
  d_title : option string;
  d_source : option string;
  d_content : option string;
  d_updated_at : option Q;
}.

(** [a or b] on an optional string *)
Definition or_else (a : option string) (b : string) : string :=
  match a with
  | Some s => if PyStr.is_empty s then b else s
  | None => b
  end.

Section Ingest.
(** [self.encoder.encode([text])[0]], as a list of floats *)
Variable encode : string -> list Q.
(** The built-in [hash] on strings *)
Variable str_hash : string -> Z.

(** The chunks the body of the outer loop of [ingest_documents] makes
    of one document. *)
Definition chunks_of_document (now : Q) (doc : Document) : exn + list DocumentChunk :=
  let title := or_else (d_title doc) (or_else (d_id doc) "Untitled") in
  let source := default "local" (d_source doc) in
  let doc_id := or_else (d_id doc)
                  ("doc-" +:+ PyStr.of_nat (Z.to_nat (str_hash title mod 10000))) in
  let updated_at := default now (d_updated_at doc) in
  match _chunk (default "" (d_content doc)) default_max_words with
  | inl e => inl e
  | inr chunk_texts =>
      inr (imap (fun idx chunk_text =>
                   {| doc_id := doc_id;
                      chunk_id := PyStr.of_nat (idx + 1);
                      title := title;
                      source := source;
                      content := chunk_text;
                      updated_at := updated_at;
                      embedding := encode chunk_text;
                      keywords := _keywords chunk_text |})
                chunk_texts)
  end.

(** The outer loop: stops at the first exception. *)
Fixpoint new_records_of (now : Q) (documents : list Document) (new_records : list DocumentChunk)
    : exn + list DocumentChunk :=
  match documents with
  | [] => inr new_records
  | doc :: rest =>
      match chunks_of_document now doc with
      | inl e => inl e
      | inr chunks => new_records_of now rest (new_records ++ chunks)
      end
  end.

(** [RAGKnowledgeBase.ingest_documents]; [now] is the reading of
    [time.time()].  Returns the count and the store afterwards. *)
Definition ingest_documents (now : Q) (documents : list Document) (st : Store)
    : exn + nat * Store :=
  match new_records_of now documents [] with
  | inl e => inl e
  | inr new_records =>
      let st := match new_records with
                | [] => st
                | _ => _save {| records := records st ++ new_records;
                                persisted := persisted st; writes := writes st |}
                end in
      inr (length new_records, st)
  end.

End Ingest.

End Rag.

(* ================================================================== *)
(** * Definitions used to state the properties *)
(* ================================================================== *)

(** The event [AuditTrail.record] builds in world [w]. *)
Definition audit_event_at (host : Host) (event_type : string) (trace_id : option string)
    (severity : string) (payload : AuditPayload) (w : World) : AuditEvent :=
  {| ev_id := audit_next_id w; ev_event_type := event_type;
     ev_trace_id := match trace_id with
                    | Some t => if PyStr.is_empty t then "unknown" else t
                    | None => "unknown"
                    end;
     ev_severity := severity; ev_payload := payload;
     ev_timestamp := time_time host (clock_reads w);
     ev_status := "open"; ev_notes := [] |}.

(** The world after [AuditTrail.record] appended [ev]. *)
Definition after_audit (ev : AuditEvent) (w : World) : World :=
  with_audit (take audit_max_events (ev :: audit_events w)) (S (audit_next_id w))
    (with_clock (S (clock_reads w)) w).

(** The [ToolRequest] that [ToolRegistry.call] builds. *)
Definition request_of (name user_id session_id trace_id : string)
    (arguments : option (gmap string json)) : Tools.ToolRequest :=
  {| Tools.rq_name := name; Tools.rq_arguments := default ∅ arguments;
     Tools.rq_user_id := user_id; Tools.rq_session_id := session_id;
     Tools.rq_trace_id := trace_id |}.

(** Whether a value is of a type that cannot be hashed: a list or a
    dictionary. *)
Definition unhashable (v : json) : bool :=
  match v with
  | JArr _ | JObj _ => true
  | _ => false
  end.

(** The depth configuration in closed form, as the specification words it. *)
Definition depth_spec (complex high : bool) : Planner.DepthCfg :=
  {| Planner.dc_steps := (if complex then 6 else 4) + (if high then 1 else 0);
     Planner.dc_level := if complex then "deep"
                         else if high then "comprehensive" else "standard";
     Planner.dc_reflection_prompts := if complex || high then 2 else 1 |}.

(** Whether a string has a character that is not white space. *)
Fixpoint has_word_char (s : string) : bool :=
  match s with
  | EmptyString => false
  | String c s' => negb (PyStr.is_space c) || has_word_char s'
  end.

(** The fields of an envelope as [PlannerAgent.handle] reads them. *)
Definition envelope_user (envelope : Envelope) : string :=
  default "user" (pl_user_id (default empty_payload (env_payload envelope))).

Definition envelope_session (envelope : Envelope) : string :=
  default "session" (pl_session_id (default empty_payload (env_payload envelope))).

Definition envelope_goal (envelope : Envelope) : string :=
  PyStr.strip (default "" (pl_text (default empty_payload (env_payload envelope)))).

Definition envelope_intent (envelope : Envelope) : IntentPayload :=
  default empty_intent (pl_intent (default empty_payload (env_payload envelope))).

(** The value [MemoryBank.get(namespace, key, default)] yields in [w]. *)
Definition stored_value (w : World) (namespace key : string) (default_value : json) : json :=
  match kv w !! (namespace, key) with
  | Some (value, _) => value
  | None => default_value
  end.

(** The value [MemoryBank.get("planner_runs", user_id)] yields in [w]. *)
Definition stored_checkpoint (w : World) (user_id : string) : json :=
  stored_value w Planner.planner_ns user_id JNull.




(** A chunk is too old when it was updated more than [max_age_days]
    days before [now]. *)
Definition too_oldb (now : Q) (max_age_days : Z) (rec : Rag.DocumentChunk) : bool :=
  Rag.Qgtb (now - Rag.updated_at rec) (inject_Z max_age_days * 86400).

(** ** Sample inputs *)

Definition sample_host : Host :=
  {| time_time := fun n => inject_Z (1700000000 + Z.of_nat n);
     uuid4 := fun n => "uuid-" +:+ PyStr.of_nat n;
     py_str := fun _ => "{...}";
     fromisoformat := fun _ => None;
     utc_tomorrow := fun _ => "2025-01-02T00:00:00" |}.

(** An envelope for user "u1" as a direct caller of the planner builds it. *)
Definition sample_envelope (text : string) (intent : option IntentPayload) : Envelope :=
  {| env_meta := None;
     env_payload := Some {| pl_user_id := Some "u1"; pl_session_id := None;
                            pl_text := Some text; pl_intent := intent |} |}.

Definition sample_intent : IntentPayload :=
  {| ip_intent := Some "planner"; ip_confidence := Some (PyFloat (9 # 10)) |}.

(** A stand-in for the handlers outside the core. *)
Definition sample_handler (envelope : Envelope) : M json :=
  mret (JObj [("status", JStr "ok")]).

Definition delete_all_arguments : gmap string json := {["action" := JStr "delete_all"]}.
Definition secrets_arguments : gmap string json := {["tag" := JStr "secrets"]}.

(** An action that is a list: [{"action": ["delete_all"]}]. *)
Definition list_action_arguments : gmap string json :=
  {["action" := JArr [JStr "delete_all"]]}.

Definition sample_sqrt (x : Q) : Q := x.
Definition sample_encode (text : string) : list Q := [inject_Z (Z.of_nat (String.length text)); 1%Q].
Definition sample_now : Q := 1700000000.

Definition sample_records : list Rag.DocumentChunk :=
  [ {| Rag.doc_id := "b"; Rag.chunk_id := "1"; Rag.title := "b"; Rag.source := "docs/b.md";
       Rag.content := "gardening tips"; Rag.updated_at := 1700000000;
       Rag.embedding := sample_encode "gardening tips";
       Rag.keywords := Rag._keywords "gardening tips" |};
    {| Rag.doc_id := "a"; Rag.chunk_id := "1"; Rag.title := "a"; Rag.source := "docs/a.md";
       Rag.content := "weekly AI roadmap"; Rag.updated_at := 1700000000;
       Rag.embedding := sample_encode "weekly AI roadmap";
       Rag.keywords := Rag._keywords "weekly AI roadmap" |} ].

(** ** Invariants of the world *)

(** [preserves P m]: whatever [m] returns or raises, it leads from a
    world with [P] to a world with [P]. *)
Definition preserves {A} (P : World → Prop) (m : M A) : Prop :=
  ∀ w r w', P w → m w = (r, w') → P w'.

(** A property of the world that the clock, the uuid counter and the
    ghost logs do not affect, that appending an audit event keeps, and
    that writing the store keeps for the keys in [writable]. *)
Record Invariant (P : World → Prop) (writable : string → string → Prop) : Prop := {
  inv_clock : ∀ w n, P w → P (with_clock n w);
  inv_uuid : ∀ w n, P w → P (with_uuid n w);
  inv_kv_log : ∀ w l, P w → P (with_kv_log l w);
  inv_invoke_log : ∀ w l, P w → P (with_invoke_log l w);
  inv_audit : ∀ w ev, P w → ev_id ev = audit_next_id w →
                P (with_audit (take audit_max_events (ev :: audit_events w))
                              (S (audit_next_id w)) w);
  inv_kv : ∀ w namespace key entry, writable namespace key → P w →
             P (with_kv (insert (namespace, key) entry) w);
}.

(** The audit trail is well formed: at most 500 events, newest first
    with strictly decreasing ids, all below the next id. *)
Definition audit_wf (w : World) : Prop :=
  (length (audit_events w) ≤ audit_max_events)%nat
  ∧ StronglySorted (fun a b => (ev_id b < ev_id a)%nat) (audit_events w)
  ∧ Forall (fun ev => (ev_id ev < audit_next_id w)%nat) (audit_events w).

(** The store entry under [k] is [entry] (or absent). *)
Definition kv_entry_is (k : string * string) (entry : option (json * Q)) (w : World) : Prop :=
  kv w !! k = entry.

(** ** Words *)

(** Whether a string has no white space in it. *)
Fixpoint no_space (s : string) : bool :=
  match s with
  | EmptyString => true
  | String c s' => negb (PyStr.is_space c) && no_space s'
  end.

(** A word: not empty and without white space. *)
Definition is_word (s : string) : Prop := s ≠ "" ∧ no_space s = true.

(* ================================================================== *)
(** * Checks on concrete inputs *)
(* ================================================================== *)

Example split_sample : PyStr.split "  plan   a  launch " = ["plan"; "a"; "launch"].
Proof. reflexivity. Qed.

Example strip_sample : PyStr.strip "  Create a plan  " = "Create a plan".
Proof. reflexivity. Qed.

Example classify_priority :
  Intent.intent (Intent.classify "Plan my calendar, I feel stuck") = "planner"
  ∧ Intent.intent (Intent.classify "Add task: finish unit tests") = "task"
  ∧ Intent.intent (Intent.classify "I feel down") = "emotion"
  ∧ Intent.intent (Intent.classify "tl;dr please") = "summary"
  ∧ Intent.intent (Intent.classify "hello") = "general".
Proof. repeat split; reflexivity. Qed.

Example depth_for_roadmap_with_high_confidence :
  Planner._determine_depth sample_intent "Create a detailed architecture roadmap"
  = inr {| Planner.dc_steps := 7; Planner.dc_level := "deep";
           Planner.dc_reflection_prompts := 2 |}.
Proof. reflexivity. Qed.

Example depth_without_intent :
  Planner._determine_depth empty_intent "Create a plan"
  = inr {| Planner.dc_steps := 4; Planner.dc_level := "standard";
           Planner.dc_reflection_prompts := 1 |}.
Proof. reflexivity. Qed.

Example draft_wraps_around_the_scaffold :
  map Planner.ps_action
    (drop 8 (Planner._draft_plan "g" {| Planner.dc_steps := 10; Planner.dc_level := "deep";
                                        Planner.dc_reflection_prompts := 2 |}))
  = ["Clarify success criteria for the goal: g."; "Research constraints for the goal: g."].
Proof. reflexivity. Qed.

(** The planner run of the test suite: a goal that mentions a schedule
    and research calls a tool in every step. *)
Example planner_emits_tool_calls :
  match fst (Planner.handle sample_host []
               (sample_envelope "Schedule onboarding workshops and research deployment guardrails"
                                None) empty_world) with
  | inr (Planner.RCompleted plan _) =>
      length (Planner.tool_calls plan) = 6%nat ∧ Planner.dc_steps (Planner.depth plan) = 6%nat
  | _ => False
  end.
Proof. vm_compute. split; reflexivity. Qed.

(** A blank goal is an input error and leaves the world alone. *)
Example blank_goal_is_refused :
  Planner.handle sample_host [] (sample_envelope "   " None) empty_world
  = (inr (Planner.RError "missing_goal" "Please describe what you want to plan."),
     with_uuid 1 empty_world).
Proof. reflexivity. Qed.

(** Any non-empty dictionary stored for the user counts as a checkpoint. *)
Example partial_checkpoint_is_resumed :
  let partial := JObj [("progress", JInt 1); ("done", JBool false)] in
  let w := with_kv (insert ("planner_runs", "u1") (partial, 0%Q)) empty_world in
  match fst (Planner.handle sample_host [] (sample_envelope "continue" None) w) with
  | inr (Planner.RResumed checkpoint _) => checkpoint = partial
  | _ => False
  end.
Proof. vm_compute. reflexivity. Qed.

(** A text without cues is answered by the router itself, and the
    session footprint is stored. *)
Example route_echoes_general_text :
  let run := Router.route sample_host [] sample_handler sample_handler true
               "u1" "s1" "hello" empty_world in
  match fst run with
  | inr r => Router.result r = Router.HEcho "Handled by general router: hello"
  | inl _ => False
  end
  ∧ fst <$> kv (snd run) !! ("sessions", "s1")
    = Some (JObj [("user_id", JStr "u1");
                  ("intent", JObj [("intent", JStr "general"); ("confidence", JStr "0.6")])]).
Proof. vm_compute. split; reflexivity. Qed.

(** An empty action is read as [list_upcoming] and passes the guardrail. *)
Example calendar_empty_action_lists :
  Tools.calendar_is_allowed
    (request_of Tools.calendar_name "u1" "s1" "t1" (Some {["action" := JStr ""]})) = inr true.
Proof. reflexivity. Qed.

(** A hold added through the registry is stored under ("events", user). *)
Example calendar_add_hold_stores_event :
  let run := Tools.call sample_host (Tools.build_default_registry sample_host [])
               "calendar.manage" "u1" "s1" "t1"
               (Some (<["action" := JStr "add_hold"]> {["title" := JStr "Kickoff"]}))
               empty_world in
  match fst run with inr result => Tools.tr_success result = true | inl _ => False end
  ∧ fst <$> kv (snd run) !! ("events", "u1")
    = Some (JArr [JObj [("title", JStr "Kickoff"); ("date", JStr "2025-01-02T00:00:00");
                        ("time", JStr "09:00"); ("source", JStr "tool_bus")]])
  ∧ invoke_log (snd run) = ["calendar.manage"].
Proof. vm_compute. repeat split; reflexivity. Qed.

(** With a query that matches no curated result, the tag is never
    looked at: the search succeeds with no hits. *)
Example web_search_unmatched_query_skips_tag_check :
  fst (Tools.web_invoke sample_host
         (request_of Tools.web_name "u1" "s1" "t1"
            (Some (<["query" := JStr "zebra"]> {["tag" := JStr "secrets"]}))) empty_world)
  = inr {| Tools.tr_name := "web.search"; Tools.tr_success := true;
           Tools.tr_output := JObj [("hits", JArr [])];
           Tools.tr_diagnostics := [("query", JStr "zebra"); ("tag", JStr "secrets");
                                    ("hit_count", JInt 0)] |}.
Proof. reflexivity. Qed.

(** The ranking example of the specification: only one document has
    the keywords of the query, and it is the top hit although it was
    ingested second. *)
Example search_ranks_matching_document_first :
  match Rag.search false sample_sqrt sample_encode sample_now sample_records
          "weekly AI roadmap" 1 45 with
  | inr hits => map Rag.hit_source hits = ["docs/a.md"]
  | inl _ => False
  end.
Proof. vm_compute. reflexivity. Qed.

(** Equal scores keep the order of insertion. *)
Example sort_reverse_is_stable :
  Rag.sort_reverse fst [(1 # 2, "a"); (3 # 4, "b"); (2 # 4, "c"); (3 # 4, "d")]
  = [(3 # 4, "b"); (3 # 4, "d"); (1 # 2, "a"); (2 # 4, "c")].
Proof. reflexivity. Qed.

Example slice_to_negative : Rag.slice_to (-1) [1; 2; 3]%nat = [1; 2]%nat.
Proof. reflexivity. Qed.

Example freshness_policy_sample :
  let old := {| Rag.doc_id := "o"; Rag.chunk_id := "1"; Rag.title := "o";
                Rag.source := "docs/o.md"; Rag.content := "old";
                Rag.updated_at := 1700000000 - 86400 * 400;
                Rag.embedding := []; Rag.keywords := ∅ |} in
  let st := {| Rag.records := old :: sample_records; Rag.persisted := None;
               Rag.writes := 0 |} in
  fst (Rag.apply_freshness_policy sample_now 365 st) = 1%nat
  ∧ Rag.records (snd (Rag.apply_freshness_policy sample_now 365 st)) = sample_records
  ∧ Rag.writes (snd (Rag.apply_freshness_policy sample_now 365 st)) = 1%nat
  ∧ Rag.writes (snd (Rag.apply_freshness_policy sample_now 365 (snd
        (Rag.apply_freshness_policy sample_now 365 st)))) = 1%nat.
Proof. vm_compute. repeat split; reflexivity. Qed.

(* ================================================================== *)
(** * Properties of the intent classifier *)
(* ================================================================== *)

Lemma classify_cases (text : string) :
  Intent.classify text = {| Intent.intent := "planner"; Intent.confidence := PyStr "0.9" |}
  ∨ Intent.classify text = {| Intent.intent := "task"; Intent.confidence := PyStr "0.9" |}
  ∨ Intent.classify text = {| Intent.intent := "emotion"; Intent.confidence := PyStr "0.9" |}
  ∨ Intent.classify text = {| Intent.intent := "summary"; Intent.confidence := PyStr "0.8" |}
  ∨ Intent.classify text = {| Intent.intent := "general"; Intent.confidence := PyStr "0.6" |}.
Proof.
  unfold Intent.classify.
  destruct (PyStr.any_in Intent.planner_cues _); [tauto|].
  destruct (PyStr.any_in Intent.task_cues _); [tauto|].
  destruct (PyStr.any_in Intent.emotion_cues _); [tauto|].
  destruct (PyStr.any_in Intent.summary_cues _); tauto.
Qed.

Lemma classify_confidence_cases (text : string) :
  ∃ s, Intent.confidence (Intent.classify text) = PyStr s.
Proof.
  destruct (classify_cases text) as [H|[H|[H|[H|H]]]]; rewrite H; eexists; reflexivity.
Qed.

(** C5: for every text the label [classify] returns is one of the five
    intents, but the confidence it returns is a string ("0.9", "0.8" or
    "0.6") and never a float of the unit interval. *)
Theorem classify_confidence_is_a_string (text : string) :
  In (Intent.intent (Intent.classify text)) Intent.labels
  ∧ (∃ s, Intent.confidence (Intent.classify text) = PyStr s ∧ In s ["0.9"; "0.8"; "0.6"])
  ∧ ¬ Intent.is_unit_float (Intent.confidence (Intent.classify text)).
Proof.
  destruct (classify_cases text) as [H|[H|[H|[H|H]]]]; rewrite H; simpl;
    (split; [tauto | split; [eexists; split; [reflexivity | simpl; tauto] | tauto]]).
Qed.

(* ================================================================== *)
(** * Properties of the planner's depth heuristic *)
(* ================================================================== *)

Lemma py_ge_float_numeric (v : pyval) (c : Q) :
  numeric v = Some c → py_ge_float v confidence_threshold = inr (Qle_bool confidence_threshold c).
Proof.
  destruct v as [|b|z|q|s]; simpl; intros H; try discriminate;
    injection H as <-; reflexivity.
Qed.

Lemma determine_depth_numeric (ip : IntentPayload) (goal : string) (c : Q) :
  numeric (default (PyInt 0) (ip_confidence ip)) = Some c →
  Planner._determine_depth ip goal
  = inr (depth_spec (Planner.is_complex goal) (Qle_bool confidence_threshold c)).
Proof.
  intros Hc. unfold Planner._determine_depth.
  rewrite (py_ge_float_numeric _ _ Hc).
  destruct (Planner.is_complex goal), (Qle_bool confidence_threshold c); reflexivity.
Qed.


(* ================================================================== *)
(** * Properties of the audit trail and the store primitives *)
(* ================================================================== *)

Lemma audit_record_run host event_type trace_id severity payload w :
  audit_record host event_type trace_id severity payload w
  = (inr (audit_event_at host event_type trace_id severity payload w),
     after_audit (audit_event_at host event_type trace_id severity payload w) w).
Proof. reflexivity. Qed.

Lemma bind_run {A B} (m : M A) (f : A → M B) (w : World) :
  (m ≫= f) w = match m w with
               | (inl e, w') => (inl e, w')
               | (inr a, w') => f a w'
               end.
Proof. reflexivity. Qed.

Lemma bind_inv {A B} (m : M A) (f : A → M B) (w w' : World) (b : B) :
  (m ≫= f) w = (inr b, w') → ∃ a w1, m w = (inr a, w1) ∧ f a w1 = (inr b, w').
Proof.
  rewrite bind_run. destruct (m w) as [[e|a] w1]; [discriminate|]. eauto.
Qed.

(* ================================================================== *)
(** * Properties of the tool registry *)
(* ================================================================== *)

Section RegistryFacts.
Variable host : Host.

Lemma call_unknown (reg : Tools.ToolRegistry) name user_id session_id trace_id arguments w :
  reg !! name = None →
  Tools.call host reg name user_id session_id trace_id arguments w
  = (inl (ValueError ("Unknown tool: " +:+ name)), w).
Proof. intros H. unfold Tools.call. rewrite H. reflexivity. Qed.

(** A call whose guardrail predicate raises: the exception leaves
    [call], and nothing has been recorded. *)
Lemma call_guardrail_raised (reg : Tools.ToolRegistry) tool name user_id session_id trace_id
    arguments w exc :
  reg !! name = Some tool →
  Tools.tool_is_allowed tool (request_of name user_id session_id trace_id arguments) = inl exc →
  Tools.call host reg name user_id session_id trace_id arguments w = (inl exc, w).
Proof.
  intros Hreg Hraise. unfold Tools.call. rewrite Hreg.
  fold (request_of name user_id session_id trace_id arguments).
  rewrite bind_run. unfold lift_exn. rewrite Hraise. reflexivity.
Qed.

(** A call that the guardrail refuses: the result, the audit event and
    the world afterwards. *)
Lemma call_blocked (reg : Tools.ToolRegistry) tool name user_id session_id trace_id arguments w :
  reg !! name = Some tool →
  Tools.tool_is_allowed tool (request_of name user_id session_id trace_id arguments)
  = inr false →
  Tools.call host reg name user_id session_id trace_id arguments w
  = (inr (Tools.guardrail_result name),
     after_audit (audit_event_at host "tool_call" (Some trace_id) "warn"
                    (ApToolBlocked name user_id session_id (default ∅ arguments)) w) w).
Proof.
  intros Hreg Hno. unfold Tools.call. rewrite Hreg.
  fold (request_of name user_id session_id trace_id arguments).
  rewrite bind_run. unfold lift_exn. rewrite Hno. reflexivity.
Qed.

(** A call that passes the guardrail and whose [invoke] returns. *)
Lemma call_invoked (reg : Tools.ToolRegistry) tool name user_id session_id trace_id arguments
    w result w1 :
  reg !! name = Some tool →
  Tools.tool_is_allowed tool (request_of name user_id session_id trace_id arguments)
  = inr true →
  Tools.tool_invoke tool (request_of name user_id session_id trace_id arguments)
    (with_invoke_log (invoke_log w ++ [name]) w) = (inr result, w1) →
  Tools.call host reg name user_id session_id trace_id arguments w
  = (inr result,
     after_audit (audit_event_at host "tool_call" (Some trace_id)
                    (if Tools.tr_success result then "info" else "warn")
                    (ApToolCall name user_id session_id (default ∅ arguments)
                       (Tools.tr_success result) (Tools.tr_diagnostics result)) w1) w1).
Proof.
  intros Hreg Hok Hinv. unfold Tools.call. rewrite Hreg.
  fold (request_of name user_id session_id trace_id arguments).
  rewrite bind_run. unfold lift_exn. rewrite Hok. simpl.
  unfold try_except. rewrite bind_run. simpl. rewrite bind_run, Hinv. reflexivity.
Qed.

(** A call that passes the guardrail and whose [invoke] raises. *)
Lemma call_invoke_raised (reg : Tools.ToolRegistry) tool name user_id session_id trace_id
    arguments w exc w1 :
  reg !! name = Some tool →
  Tools.tool_is_allowed tool (request_of name user_id session_id trace_id arguments)
  = inr true →
  Tools.tool_invoke tool (request_of name user_id session_id trace_id arguments)
    (with_invoke_log (invoke_log w ++ [name]) w) = (inl exc, w1) →
  Tools.call host reg name user_id session_id trace_id arguments w
  = (inr (Tools.exception_result name exc),
     after_audit (audit_event_at host "tool_call" (Some trace_id) "error"
                    (ApToolCall name user_id session_id (default ∅ arguments)
                       false [("error", JStr (exn_msg exc))]) w1) w1).
Proof.
  intros Hreg Hok Hinv. unfold Tools.call. rewrite Hreg.
  fold (request_of name user_id session_id trace_id arguments).
  rewrite bind_run. unfold lift_exn. rewrite Hok. simpl.
  unfold try_except. rewrite bind_run. simpl. rewrite bind_run, Hinv. reflexivity.
Qed.

(** Every call on a registered name whose guardrail predicate returns
    yields a result, also when [invoke] raises. *)
Lemma call_registered_returns (reg : Tools.ToolRegistry) tool name user_id session_id trace_id
    arguments w allowed :
  reg !! name = Some tool →
  Tools.tool_is_allowed tool (request_of name user_id session_id trace_id arguments)
  = inr allowed →
  ∃ result w', Tools.call host reg name user_id session_id trace_id arguments w
               = (inr result, w').
Proof.
  intros Hreg Hok. destruct allowed.
  - destruct (Tools.tool_invoke tool (request_of name user_id session_id trace_id arguments)
                (with_invoke_log (invoke_log w ++ [name]) w)) as [[exc|result] w1] eqn:Hinv.
    + do 2 eexists. eapply call_invoke_raised; eauto.
    + do 2 eexists. eapply call_invoked; eauto.
  - do 2 eexists. eapply call_blocked; eauto.
Qed.

(** What [call] lets through to its caller: the [ValueError] for a
    name that is not registered, and whatever the guardrail predicate
    of a registered tool raises. *)
Lemma call_raises_inv (reg : Tools.ToolRegistry) name user_id session_id trace_id arguments
    w exc w' :
  Tools.call host reg name user_id session_id trace_id arguments w = (inl exc, w') →
  w' = w
  ∧ match reg !! name with
    | None => exc = ValueError ("Unknown tool: " +:+ name)
    | Some tool =>
        Tools.tool_is_allowed tool (request_of name user_id session_id trace_id arguments)
        = inl exc
    end.
Proof.
  destruct (reg !! name) as [tool|] eqn:Hreg.
  - destruct (Tools.tool_is_allowed tool
                (request_of name user_id session_id trace_id arguments)) as [e|allowed] eqn:Hok.
    + rewrite (call_guardrail_raised _ _ _ _ _ _ _ _ _ Hreg Hok). intros [= <- <-]. auto.
    + destruct (call_registered_returns _ _ _ user_id session_id trace_id arguments w _
                  Hreg Hok) as (result & w1 & Hrun).
      rewrite Hrun. discriminate.
  - rewrite (call_unknown _ _ _ _ _ _ _ Hreg). intros [= <- <-]. auto.
Qed.

End RegistryFacts.

(* ================================================================== *)
(** * Properties of the default tools *)
(* ================================================================== *)

Section DefaultTools.
Variable host : Host.
Variable docs : list Tools.DocRecord.

Lemma default_registry_calendar :
  Tools.build_default_registry host docs !! Tools.calendar_name = Some (Tools.CalendarTool host).
Proof. reflexivity. Qed.

Lemma default_registry_docs :
  Tools.build_default_registry host docs !! Tools.docs_name
  = Some (Tools.DocumentLookupTool host docs).
Proof. reflexivity. Qed.

Lemma default_registry_web :
  Tools.build_default_registry host docs !! Tools.web_name
  = Some (Tools.CuratedWebSearchTool host).
Proof. reflexivity. Qed.

(** The action the calendar tool acts on is the [action] argument
    whenever that argument is a non-empty string. *)
Lemma calendar_action_given name user_id session_id trace_id (arguments : gmap string json)
    (a : string) :
  arguments !! "action" = Some (JStr a) → a ≠ "" →
  Tools.calendar_action (request_of name user_id session_id trace_id (Some arguments))
  = JStr a.
Proof.
  intros Ha Hne. unfold Tools.calendar_action, Tools.arg_or. simpl. rewrite Ha.
  destruct a; [congruence | reflexivity].
Qed.

(** An action that cannot be hashed stops the guardrail predicate of
    the calendar tool. *)
Lemma calendar_is_allowed_unhashable (request : Tools.ToolRequest) (action : json) :
  (size (Tools.rq_arguments request) ≤ Tools.calendar_max_args)%nat →
  Tools.rq_arguments request !! "action" = Some action →
  json_truthy action = true →
  unhashable action = true →
  ∃ exc, Tools.calendar_is_allowed request = inl exc ∧ exn_class exc = "TypeError".
Proof.
  intros Hsize Ha Htruthy Hun. unfold Tools.calendar_is_allowed, Tools.base_is_allowed.
  apply Nat.leb_le in Hsize. rewrite Hsize. cbn [negb].
  unfold Tools.calendar_action, Tools.arg_or. rewrite Ha, Htruthy.
  destruct action; try discriminate Hun; eexists; split; reflexivity.
Qed.

(** On an action that is a string, the predicate returns. *)
Lemma calendar_is_allowed_string (request : Tools.ToolRequest) (a : string) :
  Tools.rq_arguments request !! "action" = Some (JStr a) →
  ∃ allowed, Tools.calendar_is_allowed request = inr allowed.
Proof.
  intros Ha. unfold Tools.calendar_is_allowed.
  destruct (negb _); [eauto|].
  unfold Tools.calendar_action, Tools.arg_or. rewrite Ha.
  destruct (json_truthy (JStr a)); eexists; reflexivity.
Qed.

(** C6: a call of [calendar.manage] whose action is outside
    [{list_upcoming, add_hold}] returns [success = false] with
    [diagnostics.error = "guardrail_violation"], puts one "warn" event
    of type [tool_call] at the head of the audit trail, and never
    enters [invoke]: the invocation log, the store and the log of store
    operations are as before.  The action is the value the tool reads,
    [arguments.get("action") or "list_upcoming"]; it is outside the set
    when looking it up there yields [False], as it does for every
    string that is none of the two names. *)
Theorem calendar_guardrail_blocks_unknown_action
    (user_id session_id trace_id : string) (arguments : option (gmap string json))
    (w : World) :
  Tools.in_str_set (Tools.calendar_action
                      (request_of Tools.calendar_name user_id session_id trace_id arguments))
                   Tools.allowed_actions = inr false →
  ∃ result w' ev,
    Tools.call host (Tools.build_default_registry host docs) "calendar.manage"
      user_id session_id trace_id arguments w = (inr result, w')
    ∧ Tools.tr_success result = false
    ∧ Tools.tr_diagnostics result = [("error", JStr "guardrail_violation")]
    ∧ audit_events w' = take audit_max_events (ev :: audit_events w)
    ∧ ev_severity ev = "warn" ∧ ev_event_type ev = "tool_call"
    ∧ invoke_log w' = invoke_log w
    ∧ kv w' = kv w
    ∧ kv_log w' = kv_log w.
Proof.
  intros Hout.
  assert (Hno : Tools.tool_is_allowed (Tools.CalendarTool host)
                  (request_of Tools.calendar_name user_id session_id trace_id arguments)
                = inr false).
  { simpl. unfold Tools.calendar_is_allowed. rewrite Hout.
    destruct (negb _); reflexivity. }
  do 3 eexists. split.
  - apply (call_blocked host _ _ _ _ _ _ _ w default_registry_calendar Hno).
  - repeat split; reflexivity.
Qed.

(** How the search tool treats a tag outside its whitelist: when some
    curated result gets past the query filter, [invoke] returns the
    failure "unsafe_tag". *)
Lemma web_scan_unsafe_tag (query tag : string) (results hits : list Tools.CuratedResult) :
  tag ≠ "" → PyStr.mem tag Tools.allowed_tags = false →
  Exists (fun r => Tools.query_skips query r = false) results →
  Tools.web_scan query tag results hits = None.
Proof.
  intros Hne Hout Hex. revert hits.
  induction Hex as [r rest Hr | r rest Hex IH]; intros hits; cbn [Tools.web_scan].
  - rewrite Hr, Hout. destruct tag; [congruence | reflexivity].
  - destruct (Tools.query_skips query r); [apply IH|].
    rewrite Hout. destruct tag; [congruence | reflexivity].
Qed.

Lemma web_invoke_unsafe_tag (request : Tools.ToolRequest) (w : World) :
  PyStr.lower (Tools.arg_str host "tag" "" (Tools.rq_arguments request)) ≠ "" →
  PyStr.mem (PyStr.lower (Tools.arg_str host "tag" "" (Tools.rq_arguments request)))
            Tools.allowed_tags = false →
  Exists (fun r => Tools.query_skips
                     (PyStr.lower (Tools.arg_str host "query" "" (Tools.rq_arguments request))) r
                   = false) Tools.CURATED_RESULTS →
  Tools.web_invoke host request w
  = (inr {| Tools.tr_name := Tools.web_name; Tools.tr_success := false;
            Tools.tr_output := JObj [];
            Tools.tr_diagnostics := [("error", JStr "unsafe_tag")] |}, w).
Proof.
  intros Hne Hout Hex. unfold Tools.web_invoke.
  rewrite (web_scan_unsafe_tag _ _ _ _ Hne Hout Hex). reflexivity.
Qed.

(** C7, as the code has it: a call of [web.search] with at most four
    arguments, a tag that is non-empty and outside
    [{metrics, tools, education}] once lower-cased, and a query that is
    empty or occurs in the summary or title of some curated result, is
    refused inside [invoke], which is entered: the call returns
    [success = false] with [diagnostics.error = "unsafe_tag"] and puts a
    "warn" event at the head of the audit trail; the store is
    untouched.  The tag and the query are the strings the tool reads,
    [str(arguments.get("tag") or "")] and
    [str(arguments.get("query") or "")]. *)
Theorem web_search_rejects_unsafe_tag_inside_invoke
    (user_id session_id trace_id : string) (arguments : gmap string json) (w : World) :
  (size arguments ≤ Tools.web_max_args)%nat →
  PyStr.lower (Tools.arg_str host "tag" "" arguments) ≠ "" →
  PyStr.mem (PyStr.lower (Tools.arg_str host "tag" "" arguments)) Tools.allowed_tags = false →
  Exists (fun r => Tools.query_skips (PyStr.lower (Tools.arg_str host "query" "" arguments)) r
                   = false)
         Tools.CURATED_RESULTS →
  ∃ result w' ev,
    Tools.call host (Tools.build_default_registry host docs) "web.search"
      user_id session_id trace_id (Some arguments) w = (inr result, w')
    ∧ Tools.tr_success result = false
    ∧ Tools.tr_diagnostics result = [("error", JStr "unsafe_tag")]
    ∧ invoke_log w' = invoke_log w ++ ["web.search"]
    ∧ audit_events w' = take audit_max_events (ev :: audit_events w)
    ∧ ev_severity ev = "warn" ∧ ev_event_type ev = "tool_call"
    ∧ kv w' = kv w.
Proof.
  intros Hsize Hne Hout Hex.
  assert (Hok : Tools.tool_is_allowed (Tools.CuratedWebSearchTool host)
                  (request_of Tools.web_name user_id session_id trace_id (Some arguments))
                = inr true).
  { simpl. unfold Tools.base_is_allowed. simpl. f_equal. apply Nat.leb_le. exact Hsize. }
  pose (failure := {| Tools.tr_name := Tools.web_name; Tools.tr_success := false;
                      Tools.tr_output := JObj [];
                      Tools.tr_diagnostics := [("error", JStr "unsafe_tag")] |}).
  assert (Hinv : Tools.tool_invoke (Tools.CuratedWebSearchTool host)
                   (request_of Tools.web_name user_id session_id trace_id (Some arguments))
                   (with_invoke_log (invoke_log w ++ [Tools.web_name]) w)
                 = (inr failure, with_invoke_log (invoke_log w ++ [Tools.web_name]) w)).
  { apply (web_invoke_unsafe_tag
             (request_of Tools.web_name user_id session_id trace_id (Some arguments)));
      assumption. }
  do 3 eexists. split.
  - apply (call_invoked host _ _ _ _ _ _ _ w _ _ default_registry_web Hok Hinv).
  - repeat split; reflexivity.
Qed.

(** C10, as the code has it: [call] evaluates the guardrail predicate
    of a registered tool before it enters its [try] block, so what the
    predicate raises leaves [call].  The predicate of [calendar.manage]
    looks the action up in a set of strings; for an action that is a
    non-empty list or dictionary (with at most six arguments) the lookup
    raises [TypeError], and [call] on this registered name raises it to
    its caller: it returns no [ToolResult], records no audit event and
    does not enter [invoke]. *)
Theorem call_propagates_guardrail_exception
    (user_id session_id trace_id : string) (arguments : gmap string json) (action : json)
    (w : World) :
  (size arguments ≤ Tools.calendar_max_args)%nat →
  arguments !! "action" = Some action →
  json_truthy action = true →
  unhashable action = true →
  is_Some (Tools.build_default_registry host docs !! "calendar.manage")
  ∧ ∃ exc,
      Tools.call host (Tools.build_default_registry host docs) "calendar.manage"
        user_id session_id trace_id (Some arguments) w = (inl exc, w)
      ∧ exn_class exc = "TypeError"
      ∧ exc ≠ ValueError ("Unknown tool: " +:+ "calendar.manage").
Proof.
  intros Hsize Ha Htruthy Hun. split; [eexists; apply default_registry_calendar|].
  destruct (calendar_is_allowed_unhashable
              (request_of Tools.calendar_name user_id session_id trace_id (Some arguments))
              action Hsize Ha Htruthy Hun) as (exc & Hraise & Hclass).
  exists exc. split; [|split; [exact Hclass|]].
  - apply (call_guardrail_raised host _ _ _ _ _ _ _ w _ default_registry_calendar Hraise).
  - intros ->. discriminate Hclass.
Qed.

End DefaultTools.

(* ================================================================== *)
(** * Properties of the string primitives *)
(* ================================================================== *)

Lemma split_go_nonempty (cur s : string) :
  cur ≠ "" ∨ has_word_char s = true → PyStr.split_go cur s ≠ [].
Proof.
  revert cur. induction s as [|c s IH]; intros cur H; simpl in *.
  - destruct H as [H|H]; [|discriminate]. destruct cur; [congruence | discriminate].
  - destruct (PyStr.is_space c); simpl in H.
    + destruct cur; [|discriminate]. apply IH. destruct H as [H|H]; [congruence | auto].
    + apply IH. left. discriminate.
Qed.

Lemma lstrip_head (s : string) :
  PyStr.lstrip s = "" ∨ ∃ c s', PyStr.lstrip s = String c s' ∧ PyStr.is_space c = false.
Proof.
  induction s as [|c s IH]; simpl; [auto|].
  destruct (PyStr.is_space c) eqn:Hc; [exact IH | right; eauto].
Qed.

Lemma has_word_char_rev_onto (s acc : string) :
  has_word_char (PyStr.rev_onto s acc) = has_word_char s || has_word_char acc.
Proof.
  revert acc. induction s as [|c s IH]; intros acc; simpl; [reflexivity|].
  rewrite IH. simpl. destruct (PyStr.is_space c), (has_word_char s), (has_word_char acc);
    reflexivity.
Qed.

Lemma strip_has_word_char (s : string) :
  PyStr.strip s ≠ "" → has_word_char (PyStr.strip s) = true.
Proof.
  unfold PyStr.strip, PyStr.rev. intros Hne. rewrite has_word_char_rev_onto.
  destruct (lstrip_head (PyStr.rev_onto (PyStr.lstrip s) "")) as [H|(c & s' & H & Hc)];
    rewrite H in *; simpl in *; [congruence|].
  rewrite Hc. reflexivity.
Qed.

(** A goal that survives [strip()] has a first word. *)
Lemma split_strip_nonempty (s : string) :
  PyStr.strip s ≠ "" → PyStr.split (PyStr.strip s) ≠ [].
Proof.
  intros H. apply split_go_nonempty. right. apply strip_has_word_char, H.
Qed.

(* ================================================================== *)
(** * Properties of the planner *)
(* ================================================================== *)

Section PlannerFacts.
Variable host : Host.
Variable docs : list Tools.DocRecord.

Lemma tool_intent_returns (step : Planner.PlanStep) (goal : string) :
  PyStr.split goal ≠ [] → ∃ intent, Planner.tool_intent step goal = inr intent.
Proof.
  intros Hs. unfold Planner.tool_intent.
  destruct (_ || _); [eauto|].
  destruct (PyStr.any_in _ _).
  - destruct (PyStr.split goal); [congruence | eauto].
  - destruct (PyStr.any_in _ _); eauto.
Qed.

(** The planner only asks for tools of the default registry, with
    arguments on which the guardrail predicate returns. *)
Lemma tool_intent_registered (step : Planner.PlanStep) (goal name : string)
    (arguments : gmap string json) (user_id session_id trace_id : string) :
  Planner.tool_intent step goal = inr (Some (name, arguments)) →
  ∃ tool allowed,
    Planner.tools host docs !! name = Some tool
    ∧ Tools.tool_is_allowed tool
        (request_of name user_id session_id trace_id (Some arguments)) = inr allowed.
Proof.
  unfold Planner.tool_intent, Planner.tools.
  destruct (_ || _).
  { intros [= <- _]. do 2 eexists. split; [apply (default_registry_docs host docs)|].
    reflexivity. }
  destruct (PyStr.any_in _ _).
  { destruct (PyStr.split goal); [discriminate|].
    intros [= <- _]. do 2 eexists. split; [apply (default_registry_web host docs)|].
    reflexivity. }
  destruct (PyStr.any_in _ _); [|discriminate].
  intros [= <- <-].
  destruct (calendar_is_allowed_string
              (request_of "calendar.manage" user_id session_id trace_id
                 (Some (<["action" := JStr "add_hold"]>
                          {["title" := JStr (PyStr.take 60 goal)]})))
              "add_hold") as [allowed Hallowed].
  { apply lookup_insert_eq. }
  exists (Tools.CalendarTool host), allowed.
  split; [apply (default_registry_calendar host docs) | exact Hallowed].
Qed.

Lemma maybe_call_tool_returns (step : Planner.PlanStep)
    (goal user_id session_id trace_id : string) (w : World) :
  PyStr.split goal ≠ [] →
  ∃ entry w', Planner._maybe_call_tool host docs step goal user_id session_id trace_id w
              = (inr entry, w').
Proof.
  intros Hs. unfold Planner._maybe_call_tool. rewrite bind_run. unfold lift_exn.
  destruct (tool_intent_returns step goal Hs) as [intent Hi]. rewrite Hi.
  destruct intent as [[name arguments]|]; [|eauto].
  destruct (tool_intent_registered _ _ _ _ user_id session_id
              (trace_id +:+ ":" +:+ PyStr.of_nat (Planner.ps_step step)) Hi)
    as (tool & allowed & Htool & Hallowed).
  destruct (call_registered_returns host _ _ name user_id session_id
              (trace_id +:+ ":" +:+ PyStr.of_nat (Planner.ps_step step))
              (Some arguments) w _ Htool Hallowed) as (result & w' & Hcall).
  rewrite bind_run, Hcall. eauto.
Qed.

(** The execution loop returns, and logs exactly one entry per step,
    in order. *)
Lemma execute_loop_returns (plan_steps : list Planner.PlanStep)
    (goal user_id session_id trace_id : string) :
  PyStr.split goal ≠ [] →
  ∀ execution_log tool_calls w,
  ∃ tool_calls' w',
    Planner.execute_loop host docs plan_steps goal user_id session_id trace_id
      execution_log tool_calls w
    = (inr (execution_log ++ map Planner.exec_entry plan_steps, tool_calls'), w').
Proof.
  intros Hs. induction plan_steps as [|step rest IH]; intros execution_log tool_calls w.
  - simpl. rewrite app_nil_r. eauto.
  - cbn [Planner.execute_loop]. rewrite bind_run.
    destruct (maybe_call_tool_returns step goal user_id session_id trace_id w Hs)
      as (entry & w1 & Hcall).
    rewrite Hcall.
    destruct (IH (execution_log ++ [Planner.exec_entry step])
                (match entry with Some e => tool_calls ++ [e] | None => tool_calls end) w1)
      as (tc & w' & Hloop).
    rewrite Hloop. cbn [map]. rewrite <- app_assoc. simpl. eauto.
Qed.

(** Whatever the loop returns has one log entry per step. *)
Lemma execute_loop_log (plan_steps : list Planner.PlanStep)
    (goal user_id session_id trace_id : string) :
  ∀ execution_log tool_calls w log' tool_calls' w',
    Planner.execute_loop host docs plan_steps goal user_id session_id trace_id
      execution_log tool_calls w = (inr (log', tool_calls'), w') →
    log' = execution_log ++ map Planner.exec_entry plan_steps.
Proof.
  induction plan_steps as [|step rest IH]; intros execution_log tool_calls w log' tc' w' H.
  - simpl in H. injection H as <- _ _. rewrite app_nil_r. reflexivity.
  - cbn [Planner.execute_loop] in H. apply bind_inv in H as (entry & w1 & _ & H).
    apply IH in H. rewrite H, <- app_assoc. reflexivity.
Qed.

Lemma draft_plan_length (goal : string) (depth_cfg : Planner.DepthCfg) :
  length (Planner._draft_plan goal depth_cfg) = Planner.dc_steps depth_cfg.
Proof. unfold Planner._draft_plan. rewrite length_map, length_seq. reflexivity. Qed.

Lemma draft_plan_lookup (goal : string) (depth_cfg : Planner.DepthCfg) (i : nat) :
  (i < Planner.dc_steps depth_cfg)%nat →
  Planner._draft_plan goal depth_cfg !! i = Some (Planner.draft_step goal i).
Proof.
  intros Hi. unfold Planner._draft_plan.
  rewrite list_lookup_fmap, lookup_seq_lt by exact Hi. reflexivity.
Qed.

End PlannerFacts.

Section HandleFacts.
Variable host : Host.
Variable docs : list Tools.DocRecord.

Lemma memory_get_run (namespace key : string) (default_value : json) (w : World) :
  memory_get namespace key default_value w
  = (inr (stored_value w namespace key default_value),
     with_kv_log (kv_log w ++ [KvGet namespace key]) w).
Proof.
  unfold memory_get, stored_value. rewrite bind_run. simpl. rewrite bind_run. simpl.
  destruct (kv w !! (namespace, key)) as [[value t]|]; reflexivity.
Qed.

Lemma memory_set_run (namespace key : string) (value : json) (trace_id : option string)
    (w : World) :
  ∃ w', memory_set host namespace key value trace_id w = (inr tt, w')
        ∧ kv w' = <[(namespace, key) := (value, time_time host (clock_reads w))]> (kv w)
        ∧ invoke_log w' = invoke_log w.
Proof. eexists. split; [reflexivity|]. split; reflexivity. Qed.

(** Choosing the trace id draws at most one uuid and touches nothing else. *)
Lemma trace_id_of_run (envelope : Envelope) (w : World) :
  ∃ trace_id n, Planner.trace_id_of host envelope w = (inr trace_id, with_uuid n w).
Proof.
  unfold Planner.trace_id_of.
  destruct (env_meta envelope ≫= meta_trace_id) as [t|].
  - destruct (PyStr.is_empty t).
    + do 2 eexists. reflexivity.
    + exists t, (uuid_draws w). destruct w; reflexivity.
  - do 2 eexists. reflexivity.
Qed.

(** The common start of a run of [handle] with a goal: the trace id is
    chosen, the goal is there, and the checkpoint has been read. *)
Ltac enter_handle envelope w Hgoal :=
  unfold Planner.handle;
  fold (envelope_goal envelope); fold (envelope_user envelope);
  fold (envelope_session envelope); fold (envelope_intent envelope);
  let trace_id := fresh "trace_id" in
  let n := fresh "n" in
  let Htrace := fresh "Htrace" in
  let He := fresh "He" in
  destruct (trace_id_of_run envelope w) as (trace_id & n & Htrace);
  rewrite bind_run, Htrace;
  destruct (PyStr.is_empty (envelope_goal envelope)) eqn:He;
  [destruct (envelope_goal envelope); [congruence | discriminate] |];
  rewrite bind_run, memory_get_run;
  change (stored_value (with_uuid n w) Planner.planner_ns (envelope_user envelope) JNull)
    with (stored_checkpoint w (envelope_user envelope)).

(** The resume path: a truthy checkpoint is handed back as it is, and
    the only effects are the read of the store and at most one uuid. *)
Lemma handle_resumes (envelope : Envelope) (w : World) (stored_goal : string) :
  envelope_goal envelope ≠ "" →
  json_truthy (stored_checkpoint w (envelope_user envelope)) = true →
  Planner.checkpoint_goal_text host (stored_checkpoint w (envelope_user envelope))
  = inr stored_goal →
  ∃ reply w',
    Planner.handle host docs envelope w
    = (inr (Planner.RResumed (stored_checkpoint w (envelope_user envelope)) reply), w')
    ∧ kv w' = kv w
    ∧ audit_events w' = audit_events w
    ∧ clock_reads w' = clock_reads w
    ∧ invoke_log w' = invoke_log w
    ∧ kv_log w' = kv_log w ++ [KvGet Planner.planner_ns (envelope_user envelope)].
Proof.
  intros Hgoal Htruthy Htext. enter_handle envelope w Hgoal.
  rewrite Htruthy, bind_run. unfold lift_exn. rewrite Htext.
  do 2 eexists. split; [reflexivity|]. repeat split; reflexivity.
Qed.


Lemma timeline_entry_run (stage summary : string) (w : World) :
  Planner._timeline_entry host stage summary w
  = (inr {| Planner.tl_stage := stage; Planner.tl_summary := summary;
            Planner.tl_timestamp := time_time host (clock_reads w) |},
     with_clock (S (clock_reads w)) w).
Proof. reflexivity. Qed.

Lemma draw_uuid_run (w : World) :
  draw_uuid host w = (inr (uuid4 host (uuid_draws w)), with_uuid (S (uuid_draws w)) w).
Proof. reflexivity. Qed.

Lemma read_clock_run (w : World) :
  read_clock host w = (inr (time_time host (clock_reads w)), with_clock (S (clock_reads w)) w).
Proof. reflexivity. Qed.

(** The first call for a user: with a goal, no stored checkpoint and a
    numeric (or absent) confidence, [handle] drafts, executes, stores
    and returns the plan. *)
Lemma handle_completes (envelope : Envelope) (w : World) (c : Q) :
  envelope_goal envelope ≠ "" →
  json_truthy (stored_checkpoint w (envelope_user envelope)) = false →
  numeric (default (PyInt 0) (ip_confidence (envelope_intent envelope))) = Some c →
  ∃ plan reply w' t,
    Planner.handle host docs envelope w = (inr (Planner.RCompleted plan reply), w')
    ∧ Planner.goal plan = envelope_goal envelope
    ∧ Planner.user_id plan = envelope_user envelope
    ∧ Planner.depth plan
      = depth_spec (Planner.is_complex (envelope_goal envelope))
                   (Qle_bool confidence_threshold c)
    ∧ Planner.steps plan = Planner._draft_plan (envelope_goal envelope) (Planner.depth plan)
    ∧ Planner.execution_log plan = map Planner.exec_entry (Planner.steps plan)
    ∧ Planner.done plan = true
    ∧ kv w' !! (Planner.planner_ns, envelope_user envelope) = Some (Planner.plan_json plan, t).
Proof.
  intros Hgoal Hnone Hconf. enter_handle envelope w Hgoal.
  rewrite Hnone, bind_run. unfold lift_exn.
  rewrite (determine_depth_numeric _ _ _ Hconf).
  set (depth_cfg := depth_spec _ _).
  rewrite bind_run, timeline_entry_run.
  rewrite bind_run, timeline_entry_run.
  rewrite bind_run. unfold Planner._execute_plan.
  match goal with
  | |- context [Planner.execute_loop host docs ?ps ?g ?u ?s ?t [] [] ?w0] =>
      destruct (execute_loop_returns host docs ps g u s t
                  (split_strip_nonempty _ Hgoal) [] [] w0) as (tool_calls & w1 & Hloop);
      rewrite Hloop
  end.
  rewrite bind_run, timeline_entry_run.
  rewrite bind_run, timeline_entry_run.
  rewrite bind_run, draw_uuid_run.
  rewrite bind_run, read_clock_run.
  rewrite bind_run.
  match goal with
  | |- context [memory_set host ?ns ?k ?v ?t ?w0] =>
      destruct (memory_set_run ns k v t w0) as (w' & Hset & Hkv & _);
      rewrite Hset
  end.
  do 4 eexists. split; [reflexivity|].
  repeat split; try reflexivity.
  rewrite Hkv. apply lookup_insert_eq.
Qed.

(** What a completed run looks like, whatever the world it ran in. *)
Lemma handle_completed_inv (envelope : Envelope) (w w' : World)
    (plan : Planner.PlanState) (reply : string) :
  Planner.handle host docs envelope w = (inr (Planner.RCompleted plan reply), w') →
  Planner._determine_depth (envelope_intent envelope) (envelope_goal envelope)
  = inr (Planner.depth plan)
  ∧ Planner.goal plan = envelope_goal envelope
  ∧ Planner.steps plan = Planner._draft_plan (envelope_goal envelope) (Planner.depth plan)
  ∧ Planner.execution_log plan = map Planner.exec_entry (Planner.steps plan)
  ∧ stored_checkpoint w' (envelope_user envelope) = Planner.plan_json plan.
Proof.
  unfold Planner.handle.
  fold (envelope_goal envelope). fold (envelope_user envelope).
  fold (envelope_session envelope). fold (envelope_intent envelope).
  intros H. apply bind_inv in H as (trace_id & w1 & _ & H).
  destruct (PyStr.is_empty (envelope_goal envelope)); [discriminate H|].
  apply bind_inv in H as (checkpoint & w2 & _ & H).
  destruct (json_truthy checkpoint).
  { apply bind_inv in H as (g & w3 & _ & H). discriminate H. }
  apply bind_inv in H as (depth_cfg & w3 & Hdepth & H).
  unfold lift_exn in Hdepth. injection Hdepth as Hdepth _.
  apply bind_inv in H as (t_depth & w4 & _ & H).
  apply bind_inv in H as (t_plan & w5 & _ & H).
  apply bind_inv in H as ([execution_log tool_calls] & w6 & Hloop & H).
  unfold Planner._execute_plan in Hloop. apply execute_loop_log in Hloop.
  rewrite app_nil_l in Hloop.
  apply bind_inv in H as (t_exec & w7 & _ & H).
  apply bind_inv in H as (t_reflect & w8 & _ & H).
  apply bind_inv in H as (new_id & w9 & _ & H).
  apply bind_inv in H as (now & w10 & _ & H).
  apply bind_inv in H as (u & w11 & Hset & H).
  match type of Hset with
  | memory_set host ?ns ?k ?v ?t ?w0 = _ =>
      destruct (memory_set_run ns k v t w0) as (w12 & Hset' & Hkv & _);
      assert (w12 = w11) as -> by congruence
  end.
  injection H as <- _ <-. cbn [Planner.depth Planner.goal Planner.steps Planner.execution_log].
  subst execution_log. repeat split; try reflexivity; try assumption.
  unfold stored_checkpoint, stored_value. rewrite Hkv, lookup_insert_eq. reflexivity.
Qed.

(** A string where a number is expected stops the first call. *)
Lemma handle_raises_on_string_confidence (envelope : Envelope) (w : World) (s : string) :
  envelope_goal envelope ≠ "" →
  json_truthy (stored_checkpoint w (envelope_user envelope)) = false →
  ip_confidence (envelope_intent envelope) = Some (PyStr s) →
  ∃ w', Planner.handle host docs envelope w
        = (inl (TypeError "'>=' not supported between instances of 'str' and 'float'"), w')
        ∧ kv w' = kv w.
Proof.
  intros Hgoal Hnone Hconf. enter_handle envelope w Hgoal.
  rewrite Hnone, bind_run. unfold lift_exn, Planner._determine_depth.
  rewrite Hconf. cbn [default from_option id py_ge_float].
  destruct (Planner.is_complex (envelope_goal envelope)); eexists; split; reflexivity.
Qed.

(** The resume protocol for envelopes whose intent confidence is a
    number or absent: with a non-empty goal and no checkpoint stored for
    the user, [handle] returns status "completed" and stores under
    ("planner_runs", user) a checkpoint whose [goal] field is the
    submitted goal; and in every world where that checkpoint is the
    stored one, a call for the same user with any non-empty goal returns
    status "resumed" with that checkpoint, leaves the store, the audit
    trail and the clock as they were, enters no tool, and only reads the
    store once. *)
Lemma resume_protocol_with_numeric_confidence (envelope : Envelope) (w : World) (c : Q) :
  envelope_goal envelope ≠ "" →
  json_truthy (stored_checkpoint w (envelope_user envelope)) = false →
  numeric (default (PyInt 0) (ip_confidence (envelope_intent envelope))) = Some c →
  ∃ plan reply w' t,
    Planner.handle host docs envelope w = (inr (Planner.RCompleted plan reply), w')
    ∧ Planner.status (Planner.RCompleted plan reply) = "completed"
    ∧ kv w' !! (Planner.planner_ns, envelope_user envelope) = Some (Planner.plan_json plan, t)
    ∧ json_get "goal" (Planner.plan_json plan) = Some (JStr (envelope_goal envelope))
    ∧ ∀ envelope2 w2,
        envelope_user envelope2 = envelope_user envelope →
        envelope_goal envelope2 ≠ "" →
        stored_checkpoint w2 (envelope_user envelope) = Planner.plan_json plan →
        ∃ reply2 w3,
          Planner.handle host docs envelope2 w2
          = (inr (Planner.RResumed (Planner.plan_json plan) reply2), w3)
          ∧ Planner.status (Planner.RResumed (Planner.plan_json plan) reply2) = "resumed"
          ∧ kv w3 = kv w2
          ∧ stored_checkpoint w3 (envelope_user envelope) = Planner.plan_json plan
          ∧ audit_events w3 = audit_events w2
          ∧ clock_reads w3 = clock_reads w2
          ∧ invoke_log w3 = invoke_log w2
          ∧ kv_log w3 = kv_log w2 ++ [KvGet Planner.planner_ns (envelope_user envelope)].
Proof.
  intros Hgoal Hnone Hconf.
  destruct (handle_completes envelope w c Hgoal Hnone Hconf)
    as (plan & reply & w' & t & Hrun & Hg & _ & _ & _ & _ & _ & Hkv).
  exists plan, reply, w', t. split; [exact Hrun|]. split; [reflexivity|].
  split; [exact Hkv|]. split; [simpl; rewrite Hg; reflexivity|].
  intros envelope2 w2 Huser Hgoal2 Hstored.
  destruct (handle_resumes envelope2 w2 (Planner.goal plan)) as (reply2 & w3 & H).
  - exact Hgoal2.
  - rewrite Huser, Hstored. reflexivity.
  - rewrite Huser, Hstored. reflexivity.
  - rewrite Huser, Hstored in H. destruct H as (Hrun2 & Hkv2 & Ha & Hc & Hi & Hl).
    exists reply2, w3. repeat split; try assumption.
    unfold stored_checkpoint, stored_value in *. rewrite Hkv2. exact Hstored.
Qed.

(** C9: a plan [handle] returns as completed is the checkpoint stored
    for the user, and it has as many execution notes as steps and as
    many steps as its depth asks for; step [i]
    (from 0) carries the number [i + 1] and the action drafted from
    entry [i mod 8] of the scaffold, and the [i]-th execution note
    carries the same number and action. *)
Theorem completed_plan_has_step_log_parity (envelope : Envelope) (w w' : World)
    (plan : Planner.PlanState) (reply : string) :
  Planner.handle host docs envelope w = (inr (Planner.RCompleted plan reply), w') →
  stored_checkpoint w' (envelope_user envelope) = Planner.plan_json plan
  ∧ length (Planner.execution_log plan) = length (Planner.steps plan)
  ∧ length (Planner.steps plan) = Planner.dc_steps (Planner.depth plan)
  ∧ ∀ i, (i < Planner.dc_steps (Planner.depth plan))%nat →
      ∃ step note,
        Planner.steps plan !! i = Some step
        ∧ Planner.execution_log plan !! i = Some note
        ∧ Planner.ps_step step = (i + 1)%nat
        ∧ Planner.ps_action step
          = nth (i mod 8) Planner.scaffolding "" +:+ " for the goal: "
            +:+ Planner.goal plan +:+ "."
        ∧ Planner.ps_status step = "planned"
        ∧ Planner.ee_step note = (i + 1)%nat
        ∧ Planner.ee_action note = Planner.ps_action step
        ∧ Planner.ee_status note = "completed".
Proof.
  intros H. apply handle_completed_inv in H as (_ & Hgoal & Hsteps & Hlog & Hstored).
  assert (Hlen : length (Planner.steps plan) = Planner.dc_steps (Planner.depth plan)).
  { rewrite Hsteps. apply draft_plan_length. }
  split; [exact Hstored|].
  split; [rewrite Hlog; apply length_map|]. split; [exact Hlen|].
  intros i Hi. exists (Planner.draft_step (Planner.goal plan) i).
  exists (Planner.exec_entry (Planner.draft_step (Planner.goal plan) i)).
  assert (Hstep : Planner.steps plan !! i = Some (Planner.draft_step (Planner.goal plan) i)).
  { rewrite Hsteps, Hgoal. apply draft_plan_lookup, Hi. }
  split; [exact Hstep|]. split.
  { rewrite Hlog, list_lookup_fmap, Hstep. reflexivity. }
  repeat split; reflexivity.
Qed.

End HandleFacts.

(* ================================================================== *)
(** * Properties of the router *)
(* ================================================================== *)

Lemma classify_planner_confidence (text : string) :
  Intent.intent (Intent.classify text) = "planner" →
  Intent.confidence (Intent.classify text) = PyStr "0.9".
Proof.
  destruct (classify_cases text) as [H|[H|[H|[H|H]]]]; rewrite H; simpl;
    intros Hi; try reflexivity; discriminate Hi.
Qed.

Section RouterFacts.
Variable host : Host.
Variable docs : list Tools.DocRecord.
Variable general_handle : Envelope → M json.
Variable bestfriend_handle : Envelope → M json.
Variable has_memory : bool.

(** A text that maps to no handler is answered by [route] itself. *)
Lemma route_default_returns (user_id session_id text : string) (w : World) :
  Intent.intent (Intent.classify text) ≠ "task" →
  Intent.intent (Intent.classify text) ≠ "planner" →
  Intent.intent (Intent.classify text) ≠ "emotion" →
  ∃ trace_id w',
    Router.route host docs general_handle bestfriend_handle has_memory
      user_id session_id text w
    = (inr {| Router.envelope :=
                Router.make_envelope user_id session_id text trace_id (Intent.classify text);
              Router.result :=
                Router.HEcho ("Handled by general router: " +:+ PyStr.take 120 text) |}, w').
Proof.
  intros Ht Hp He. unfold Router.route.
  rewrite bind_run, draw_uuid_run. cbv zeta. rewrite bind_run.
  destruct (String.eqb_spec (Intent.intent (Intent.classify text)) "task"); [congruence|].
  destruct (String.eqb_spec (Intent.intent (Intent.classify text)) "planner"); [congruence|].
  destruct (String.eqb_spec (Intent.intent (Intent.classify text)) "emotion"); [congruence|].
  destruct has_memory; do 2 eexists; reflexivity.
Qed.

(** [route] has no handler of its own for exceptions: what a
    dispatched handler raises reaches the caller of [route]. *)
Lemma route_propagates_handler_exception (user_id session_id text : string)
    (w : World) (exc : exn) :
  Intent.intent (Intent.classify text) = "task" →
  (∀ envelope w0, ∃ w1, general_handle envelope w0 = (inl exc, w1)) →
  ∃ w', Router.route host docs general_handle bestfriend_handle has_memory
          user_id session_id text w = (inl exc, w').
Proof.
  intros Ht Hraise. unfold Router.route.
  rewrite bind_run, draw_uuid_run. cbv zeta. rewrite bind_run, Ht.
  change (String.eqb "task" "task") with true. cbv iota. rewrite bind_run.
  match goal with
  | |- context [general_handle ?env ?w0] =>
      destruct (Hraise env w0) as (w1 & Hrun); rewrite Hrun
  end.
  eexists. reflexivity.
Qed.

(** C4, as the code has it: when the text is classified as "planner"
    and the user has no checkpoint yet, the planner compares the
    classifier's confidence, a string, with 0.85; the [TypeError] is not
    caught in the planner or in [route], so [route] raises it to its
    caller instead of returning [{envelope, result}]. *)
Theorem route_raises_planner_type_error (user_id session_id text : string) (w : World) :
  Intent.intent (Intent.classify text) = "planner" →
  PyStr.strip text ≠ "" →
  json_truthy (stored_checkpoint w user_id) = false →
  ∃ w', Router.route host docs general_handle bestfriend_handle has_memory
          user_id session_id text w
        = (inl (TypeError "'>=' not supported between instances of 'str' and 'float'"), w').
Proof.
  intros Hplanner Hgoal Hnone. unfold Router.route.
  rewrite bind_run, draw_uuid_run. cbv zeta. rewrite bind_run.
  rewrite Hplanner.
  change (String.eqb "planner" "task") with false.
  change (String.eqb "planner" "planner") with true. cbv iota.
  rewrite bind_run.
  match goal with
  | |- context [Planner.handle host docs ?env ?w0] =>
      destruct (handle_raises_on_string_confidence host docs env w0 "0.9")
        as (w1 & Hrun & _);
      [exact Hgoal | exact Hnone
       | exact (f_equal Some (classify_planner_confidence text Hplanner)) |];
      rewrite Hrun
  end.
  eexists. reflexivity.
Qed.

End RouterFacts.

(** C1, as the code has it on the envelopes the router builds: the
    classifier's confidence is a string, so for every text with a
    non-empty goal and a user without a checkpoint the first call of
    [handle] raises [TypeError] where the depth is determined; it
    returns no status "completed" and stores no checkpoint, so the next
    call for the user fails in the same way instead of resuming. *)
Theorem first_call_raises_on_router_envelope (host : Host) (docs : list Tools.DocRecord)
    (user_id session_id text trace_id : string) (w : World) :
  PyStr.strip text ≠ "" →
  json_truthy (stored_checkpoint w user_id) = false →
  ∃ w',
    Planner.handle host docs
      (Router.make_envelope user_id session_id text trace_id (Intent.classify text)) w
    = (inl (TypeError "'>=' not supported between instances of 'str' and 'float'"), w')
    ∧ kv w' = kv w
    ∧ json_truthy (stored_checkpoint w' user_id) = false.
Proof.
  intros Hgoal Hnone.
  destruct (classify_confidence_cases text) as (s & Hs).
  destruct (handle_raises_on_string_confidence host docs
              (Router.make_envelope user_id session_id text trace_id (Intent.classify text))
              w s Hgoal Hnone (f_equal Some Hs)) as (w' & Hrun & Hkv).
  exists w'. split; [exact Hrun|]. split; [exact Hkv|].
  unfold stored_checkpoint, stored_value in *. rewrite Hkv. exact Hnone.
Qed.

(* ================================================================== *)
(** * Properties of the descending stable sort *)
(* ================================================================== *)

Lemma Qgtb_true (x y : Q) : Rag.Qgtb x y = true ↔ (y < x)%Q.
Proof.
  unfold Rag.Qgtb. rewrite negb_true_iff. split.
  - intros H. apply Qnot_le_lt. intros Hle. apply Qle_bool_iff in Hle. congruence.
  - intros H. destruct (Qle_bool x y) eqn:E; [|reflexivity].
    apply Qle_bool_iff in E. exfalso. apply (Qlt_not_le _ _ H E).
Qed.


Section SortFacts.
Context {A : Type}.
Variable key : A → Q.
Variable idx : A → nat.





End SortFacts.






(* ================================================================== *)
(** * Properties of token counters *)
(* ================================================================== *)







(* ================================================================== *)
(** * Properties of the retrieval score *)
(* ================================================================== *)







Section ScoreFacts.
Variable NUMPY_AVAILABLE : bool.
Variable sqrtQ : Q → Q.




End ScoreFacts.


Section SearchFacts.
Variable NUMPY_AVAILABLE : bool.
Variable sqrtQ : Q → Q.
Variable encode : string → list Q.




End SearchFacts.

(* ================================================================== *)
(** * Properties of the freshness policy *)
(* ================================================================== *)

Lemma kept_iff_not_too_old (now : Q) (max_age_days : Z) (rec : Rag.DocumentChunk) :
  Qle_bool (now - inject_Z max_age_days * 86400) (Rag.updated_at rec)
  = negb (too_oldb now max_age_days rec).
Proof.
  unfold too_oldb, Rag.Qgtb. rewrite negb_involutive.
  destruct (Qle_bool (now - Rag.updated_at rec) _) eqn:E.
  - apply Qle_bool_iff. apply Qle_bool_iff in E. lra.
  - destruct (Qle_bool (now - inject_Z max_age_days * 86400) _) eqn:E'; [|reflexivity].
    apply Qle_bool_iff in E'. assert (E2 : Qle_bool (now - Rag.updated_at rec)
                                           (inject_Z max_age_days * 86400) = true).
    { apply Qle_bool_iff. lra. }
    congruence.
Qed.

Lemma too_oldb_spec (now : Q) (max_age_days : Z) (rec : Rag.DocumentChunk) :
  too_oldb now max_age_days rec = true
  ↔ (inject_Z max_age_days * 86400 < now - Rag.updated_at rec)%Q.
Proof. unfold too_oldb. apply Qgtb_true. Qed.

(** C8: the policy keeps, in their order, exactly the chunks that are
    not more than [max_age_days] days old, so a chunk of the store
    stays if and only if [now - updated_at <= max_age_days * 86400]; it
    returns the number of chunks it dropped, and it writes the storage
    file (once, with the records kept) if and only if that number is
    not zero. *)
Theorem freshness_policy_removes_exactly_the_old (now : Q) (max_age_days : Z)
    (st : Rag.Store) :
  let removed := fst (Rag.apply_freshness_policy now max_age_days st) in
  let st' := snd (Rag.apply_freshness_policy now max_age_days st) in
  Rag.records st'
  = List.filter (fun rec => negb (too_oldb now max_age_days rec)) (Rag.records st)
  ∧ (∀ rec, In rec (Rag.records st') ↔
            In rec (Rag.records st)
            ∧ ¬ (inject_Z max_age_days * 86400 < now - Rag.updated_at rec)%Q)
  ∧ removed = length (List.filter (too_oldb now max_age_days) (Rag.records st))
  ∧ (removed = 0%nat → Rag.writes st' = Rag.writes st ∧ Rag.persisted st' = Rag.persisted st)
  ∧ (removed ≠ 0%nat → Rag.writes st' = S (Rag.writes st)
                       ∧ Rag.persisted st' = Some (Rag.records st')).
Proof.
  cbv zeta. unfold Rag.apply_freshness_policy. cbn [fst snd].
  set (kept := List.filter _ (Rag.records st)).
  assert (Hkept : kept = List.filter (fun rec => negb (too_oldb now max_age_days rec))
                                     (Rag.records st)).
  { apply List.filter_ext. intros rec. apply kept_iff_not_too_old. }
  assert (Hlen : (length (Rag.records st) - length kept)%nat
                 = length (List.filter (too_oldb now max_age_days) (Rag.records st))).
  { rewrite Hkept. pose proof (List.filter_length (too_oldb now max_age_days) (Rag.records st)).
    lia. }
  assert (Hrec : Rag.records (if (length (Rag.records st) - length kept =? 0)%nat
                          then {| Rag.records := kept; Rag.persisted := Rag.persisted st;
                                  Rag.writes := Rag.writes st |}
                          else Rag._save {| Rag.records := kept;
                                            Rag.persisted := Rag.persisted st;
                                            Rag.writes := Rag.writes st |}) = kept).
  { destruct (_ =? _)%nat; reflexivity. }
  split; [rewrite Hrec; exact Hkept|]. split.
  { intros rec. rewrite Hrec, Hkept, List.filter_In, negb_true_iff.
    rewrite <- too_oldb_spec. destruct (too_oldb now max_age_days rec);
      intuition congruence. }
  split; [exact Hlen|]. split.
  - intros H0. rewrite H0. split; reflexivity.
  - intros Hn. destruct (_ =? _)%nat eqn:E; [apply Nat.eqb_eq in E; congruence|].
    split; reflexivity.
Qed.

(* ================================================================== *)
(** * The properties at concrete inputs *)
(* ================================================================== *)

(** The two calls of the checkpoint test: the second one resumes. *)
Example resume_after_completion :
  envelope_goal (sample_envelope "Create a plan" None) ≠ ""
  ∧ json_truthy (stored_checkpoint empty_world "u1") = false
  ∧ ∃ plan reply w',
      Planner.handle sample_host [] (sample_envelope "Create a plan" None) empty_world
      = (inr (Planner.RCompleted plan reply), w')
      ∧ stored_checkpoint w' "u1" = Planner.plan_json plan
      ∧ ∃ reply2 w3,
          Planner.handle sample_host [] (sample_envelope "Plan something else" None) w'
          = (inr (Planner.RResumed (Planner.plan_json plan) reply2), w3)
          ∧ kv w3 = kv w'.
Proof.
  assert (H1 : envelope_goal (sample_envelope "Create a plan" None) ≠ "")
    by (vm_compute; discriminate).
  assert (H2 : json_truthy (stored_checkpoint empty_world
                              (envelope_user (sample_envelope "Create a plan" None))) = false)
    by reflexivity.
  assert (H3 : numeric (default (PyInt 0)
                 (ip_confidence (envelope_intent (sample_envelope "Create a plan" None))))
               = Some (inject_Z 0)) by reflexivity.
  split; [exact H1|]. split; [exact H2|].
  destruct (resume_protocol_with_numeric_confidence sample_host []
              (sample_envelope "Create a plan" None) empty_world (inject_Z 0) H1 H2 H3)
    as (plan & reply & w' & t & Hrun & _ & Hkv & _ & Hresume).
  assert (Hstored : stored_checkpoint w' "u1" = Planner.plan_json plan).
  { unfold stored_checkpoint, stored_value.
    change (envelope_user (sample_envelope "Create a plan" None)) with "u1" in Hkv.
    rewrite Hkv. reflexivity. }
  exists plan, reply, w'. split; [exact Hrun|]. split; [exact Hstored|].
  destruct (Hresume (sample_envelope "Plan something else" None) w')
    as (reply2 & w3 & Hrun2 & _ & Hkv2 & _).
  - reflexivity.
  - vm_compute; discriminate.
  - exact Hstored.
  - exists reply2, w3. split; assumption.
Qed.



Lemma first_call_raises_on_router_envelope_witness :
  PyStr.strip "Create a short plan" ≠ ""
  ∧ json_truthy (stored_checkpoint empty_world "u1") = false
  ∧ ∃ w',
      Planner.handle sample_host []
        (Router.make_envelope "u1" "s1" "Create a short plan" "trace-1"
           (Intent.classify "Create a short plan")) empty_world
      = (inl (TypeError "'>=' not supported between instances of 'str' and 'float'"), w')
      ∧ kv w' = kv empty_world.
Proof.
  assert (H1 : PyStr.strip "Create a short plan" ≠ "") by (vm_compute; discriminate).
  assert (H2 : json_truthy (stored_checkpoint empty_world "u1") = false) by reflexivity.
  split; [exact H1|]. split; [exact H2|].
  destruct (first_call_raises_on_router_envelope sample_host [] "u1" "s1"
              "Create a short plan" "trace-1" empty_world H1 H2) as (w' & Hrun & Hkv & _).
  exists w'. split; assumption.
Defined.

Lemma route_raises_planner_type_error_witness :
  Intent.intent (Intent.classify "Create a short plan") = "planner"
  ∧ PyStr.strip "Create a short plan" ≠ ""
  ∧ json_truthy (stored_checkpoint empty_world "u1") = false
  ∧ ∃ w', Router.route sample_host [] sample_handler sample_handler true
            "u1" "s1" "Create a short plan" empty_world
          = (inl (TypeError "'>=' not supported between instances of 'str' and 'float'"), w').
Proof.
  assert (H1 : Intent.intent (Intent.classify "Create a short plan") = "planner")
    by reflexivity.
  assert (H2 : PyStr.strip "Create a short plan" ≠ "") by (vm_compute; discriminate).
  assert (H3 : json_truthy (stored_checkpoint empty_world "u1") = false) by reflexivity.
  split; [exact H1|]. split; [exact H2|]. split; [exact H3|].
  exact (route_raises_planner_type_error sample_host [] sample_handler sample_handler true
           "u1" "s1" "Create a short plan" empty_world H1 H2 H3).
Defined.

Lemma calendar_guardrail_blocks_unknown_action_witness :
  Tools.in_str_set (Tools.calendar_action
                      (request_of Tools.calendar_name "u1" "s1" "t1"
                         (Some delete_all_arguments)))
                   Tools.allowed_actions = inr false
  ∧ ∃ result w',
      Tools.call sample_host (Tools.build_default_registry sample_host []) "calendar.manage"
        "u1" "s1" "t1" (Some delete_all_arguments) empty_world = (inr result, w')
      ∧ Tools.tr_diagnostics result = [("error", JStr "guardrail_violation")]
      ∧ invoke_log w' = [].
Proof.
  assert (H : Tools.in_str_set (Tools.calendar_action
                 (request_of Tools.calendar_name "u1" "s1" "t1" (Some delete_all_arguments)))
              Tools.allowed_actions = inr false) by reflexivity.
  split; [exact H|].
  destruct (calendar_guardrail_blocks_unknown_action sample_host [] "u1" "s1" "t1"
              (Some delete_all_arguments) empty_world H)
    as (result & w' & ev & Hcall & _ & Hdiag & _ & _ & _ & Hlog & _).
  exists result, w'. split; [exact Hcall|]. split; [exact Hdiag | exact Hlog].
Defined.

(** C7 as stated fails: with the tag "secrets" the call enters
    [invoke] and the error it reports is "unsafe_tag", not
    "guardrail_violation". *)
Lemma web_search_unsafe_tag_is_not_a_guardrail_violation :
  let run := Tools.call sample_host (Tools.build_default_registry sample_host [])
               "web.search" "u1" "s1" "t1" (Some secrets_arguments) empty_world in
  ∃ result, fst run = inr result
    ∧ Tools.tr_success result = false
    ∧ assoc_get "error" (Tools.tr_diagnostics result) = Some (JStr "unsafe_tag")
    ∧ assoc_get "error" (Tools.tr_diagnostics result) ≠ Some (JStr "guardrail_violation")
    ∧ invoke_log (snd run) = ["web.search"]
    ∧ invoke_log (snd run) ≠ invoke_log empty_world.
Proof.
  cbv zeta. eexists. split; [vm_compute; reflexivity|].
  repeat split; try reflexivity; discriminate.
Qed.

Lemma web_search_rejects_unsafe_tag_inside_invoke_witness :
  (size secrets_arguments ≤ Tools.web_max_args)%nat
  ∧ PyStr.lower (Tools.arg_str sample_host "tag" "" secrets_arguments) ≠ ""
  ∧ PyStr.mem (PyStr.lower (Tools.arg_str sample_host "tag" "" secrets_arguments))
              Tools.allowed_tags = false
  ∧ ∃ result w',
      Tools.call sample_host (Tools.build_default_registry sample_host []) "web.search"
        "u1" "s1" "t1" (Some secrets_arguments) empty_world = (inr result, w')
      ∧ Tools.tr_diagnostics result = [("error", JStr "unsafe_tag")]
      ∧ invoke_log w' = ["web.search"].
Proof.
  assert (H1 : (size secrets_arguments ≤ Tools.web_max_args)%nat)
    by (vm_compute; lia).
  assert (H2 : PyStr.lower (Tools.arg_str sample_host "tag" "" secrets_arguments) ≠ "")
    by (vm_compute; discriminate).
  assert (H3 : PyStr.mem (PyStr.lower (Tools.arg_str sample_host "tag" "" secrets_arguments))
                 Tools.allowed_tags = false) by reflexivity.
  assert (H4 : Exists (fun r => Tools.query_skips
                                  (PyStr.lower
                                     (Tools.arg_str sample_host "query" "" secrets_arguments)) r
                                = false) Tools.CURATED_RESULTS)
    by (apply Exists_cons_hd; reflexivity).
  split; [exact H1|]. split; [exact H2|]. split; [exact H3|].
  destruct (web_search_rejects_unsafe_tag_inside_invoke sample_host [] "u1" "s1" "t1"
              secrets_arguments empty_world H1 H2 H3 H4)
    as (result & w' & ev & Hcall & _ & Hdiag & Hlog & _).
  exists result, w'. split; [exact Hcall|]. split; [exact Hdiag | exact Hlog].
Defined.

(** The call [call("calendar.manage", arguments={"action": ["delete_all"]})]
    raises [TypeError] and leaves the world as it was. *)
Lemma call_propagates_guardrail_exception_witness :
  (size list_action_arguments ≤ Tools.calendar_max_args)%nat
  ∧ list_action_arguments !! "action" = Some (JArr [JStr "delete_all"])
  ∧ ∃ exc,
      Tools.call sample_host (Tools.build_default_registry sample_host []) "calendar.manage"
        "u1" "s1" "t1" (Some list_action_arguments) empty_world = (inl exc, empty_world)
      ∧ exn_class exc = "TypeError".
Proof.
  assert (H1 : (size list_action_arguments ≤ Tools.calendar_max_args)%nat)
    by (vm_compute; lia).
  assert (H2 : list_action_arguments !! "action" = Some (JArr [JStr "delete_all"]))
    by reflexivity.
  split; [exact H1|]. split; [exact H2|].
  destruct (call_propagates_guardrail_exception sample_host [] "u1" "s1" "t1"
              list_action_arguments (JArr [JStr "delete_all"]) empty_world H1 H2
              eq_refl eq_refl)
    as (_ & exc & Hcall & Hclass & _).
  exists exc. split; [exact Hcall | exact Hclass].
Defined.

Lemma completed_plan_has_step_log_parity_witness :
  ∃ plan reply w',
    Planner.handle sample_host [] (sample_envelope "Create a plan" None) empty_world
    = (inr (Planner.RCompleted plan reply), w')
    ∧ length (Planner.execution_log plan) = length (Planner.steps plan)
    ∧ length (Planner.steps plan) = Planner.dc_steps (Planner.depth plan).
Proof.
  destruct (handle_completes sample_host [] (sample_envelope "Create a plan" None)
              empty_world (inject_Z 0))
    as (plan & reply & w' & t & Hrun & _).
  - vm_compute; discriminate.
  - reflexivity.
  - reflexivity.
  - exists plan, reply, w'. split; [exact Hrun|].
    destruct (completed_plan_has_step_log_parity sample_host [] _ _ _ _ _ Hrun)
      as (_ & H1 & H2 & _).
    split; assumption.
Defined.

(* ================================================================== *)
(** * Invariants kept by the stateful operations *)
(* ================================================================== *)

Lemma preserves_ret {A} (P : World → Prop) (a : A) : preserves P (mret a).
Proof. intros w r w' HP [= _ <-]. exact HP. Qed.

Lemma preserves_raise {A} (P : World → Prop) (e : exn) : preserves P (raise (A := A) e).
Proof. intros w r w' HP [= _ <-]. exact HP. Qed.

Lemma preserves_lift_exn {A} (P : World → Prop) (r : exn + A) : preserves P (lift_exn r).
Proof. intros w r' w' HP [= _ <-]. exact HP. Qed.

Lemma preserves_get_world (P : World → Prop) : preserves P get_world.
Proof. intros w r w' HP [= _ <-]. exact HP. Qed.

Lemma preserves_modify (P : World → Prop) (f : World → World) :
  (∀ w, P w → P (f w)) → preserves P (modify f).
Proof. intros Hf w r w' HP [= _ <-]. apply Hf, HP. Qed.

Lemma preserves_bind {A B} (P : World → Prop) (m : M A) (f : A → M B) :
  preserves P m → (∀ a, preserves P (f a)) → preserves P (m ≫= f).
Proof.
  intros Hm Hf w r w' HP. rewrite bind_run.
  destruct (m w) as [[e|a] w1] eqn:Hrun.
  - intros [= _ <-]. exact (Hm _ _ _ HP Hrun).
  - intros H. exact (Hf a _ _ _ (Hm _ _ _ HP Hrun) H).
Qed.

Lemma preserves_try_except {A} (P : World → Prop) (body : M A) (handler : exn → M A) :
  preserves P body → (∀ e, preserves P (handler e)) → preserves P (try_except body handler).
Proof.
  intros Hb Hh w r w' HP. unfold try_except.
  destruct (body w) as [[e|a] w1] eqn:Hrun.
  - intros H. exact (Hh e _ _ _ (Hb _ _ _ HP Hrun) H).
  - intros [= _ <-]. exact (Hb _ _ _ HP Hrun).
Qed.

Section Preservation.
Context {P : World → Prop} {writable : string → string → Prop}.
Hypothesis HP : Invariant P writable.
Variable host : Host.

Lemma read_clock_preserves : preserves P (read_clock host).
Proof. intros w r w' Hw [= _ <-]. apply (inv_clock _ _ HP), Hw. Qed.

Lemma draw_uuid_preserves : preserves P (draw_uuid host).
Proof. intros w r w' Hw [= _ <-]. apply (inv_uuid _ _ HP), Hw. Qed.

Lemma audit_record_preserves event_type trace_id severity payload :
  preserves P (audit_record host event_type trace_id severity payload).
Proof.
  intros w r w' Hw. rewrite audit_record_run. intros [= _ <-].
  unfold after_audit.
  apply (inv_audit _ _ HP (with_clock (S (clock_reads w)) w)
           (audit_event_at host event_type trace_id severity payload w)).
  - apply (inv_clock _ _ HP), Hw.
  - reflexivity.
Qed.

Lemma memory_get_preserves namespace key default_value :
  preserves P (memory_get namespace key default_value).
Proof.
  intros w r w' Hw. unfold memory_get. rewrite bind_run. simpl. rewrite bind_run. simpl.
  destruct (kv w !! (namespace, key)) as [[v t]|]; intros [= _ <-];
    apply (inv_kv_log _ _ HP), Hw.
Qed.

Lemma memory_set_preserves namespace key value trace_id :
  writable namespace key → preserves P (memory_set host namespace key value trace_id).
Proof.
  intros Hwr. unfold memory_set.
  apply preserves_bind; [apply read_clock_preserves|]. intros now.
  apply preserves_bind.
  { apply preserves_modify. intros w Hw. apply (inv_kv _ _ HP); assumption. }
  intros _. apply preserves_bind.
  { apply preserves_modify. intros w Hw. apply (inv_kv_log _ _ HP), Hw. }
  intros _. apply preserves_bind; [apply audit_record_preserves|].
  intros _. apply preserves_ret.
Qed.

Lemma memory_append_to_list_preserves namespace key item trace_id :
  writable namespace key →
  preserves P (memory_append_to_list host namespace key item trace_id).
Proof.
  intros Hwr. unfold memory_append_to_list.
  apply preserves_bind; [apply memory_get_preserves|]. intros stored.
  apply memory_set_preserves, Hwr.
Qed.

(** A registry call keeps what the [invoke] of the tool called keeps. *)
Lemma call_preserves (reg : Tools.ToolRegistry) name user_id session_id trace_id arguments :
  (∀ tool, reg !! name = Some tool →
           preserves P (Tools.tool_invoke tool
                          (request_of name user_id session_id trace_id arguments))) →
  preserves P (Tools.call host reg name user_id session_id trace_id arguments).
Proof.
  intros Hinv. unfold Tools.call. destruct (reg !! name) as [tool|]; [|apply preserves_raise].
  fold (request_of name user_id session_id trace_id arguments).
  apply preserves_bind; [apply preserves_lift_exn|]. intros allowed.
  destruct (negb _).
  - apply preserves_bind; [apply audit_record_preserves|]. intros _. apply preserves_ret.
  - apply preserves_try_except.
    + apply preserves_bind.
      { apply preserves_modify. intros w Hw. apply (inv_invoke_log _ _ HP), Hw. }
      intros _. apply preserves_bind; [apply Hinv; reflexivity|].
      intros result. apply preserves_bind; [apply audit_record_preserves|].
      intros _. apply preserves_ret.
    + intros exc. apply preserves_bind; [apply audit_record_preserves|].
      intros _. apply preserves_ret.
Qed.

Lemma calendar_invoke_preserves (request : Tools.ToolRequest) :
  writable Tools.calendar_namespace (Tools.rq_user_id request) →
  preserves P (Tools.calendar_invoke host request).
Proof.
  intros Hwr. unfold Tools.calendar_invoke. destruct (Tools.eq_str _ _).
  - unfold Tools.calendar_add_hold. destruct (PyStr.is_empty _); [apply preserves_ret|].
    apply preserves_bind.
    { destruct (fromisoformat host _); [apply preserves_ret|].
      intros w r w' Hw [= _ <-]. apply (inv_clock _ _ HP), Hw. }
    intros date. apply preserves_bind; [apply memory_get_preserves|].
    intros stored. apply preserves_bind; [apply preserves_lift_exn|].
    intros events. apply preserves_bind; [apply memory_set_preserves, Hwr|].
    intros _. apply preserves_ret.
  - unfold Tools.calendar_list_upcoming.
    apply preserves_bind; [apply memory_get_preserves|].
    intros stored. apply preserves_bind; [apply preserves_lift_exn|].
    intros upcoming. apply preserves_ret.
Qed.

Lemma docs_invoke_preserves records request :
  preserves P (Tools.docs_invoke host records request).
Proof. unfold Tools.docs_invoke. destruct (_ || _); apply preserves_ret. Qed.

Lemma web_invoke_preserves request : preserves P (Tools.web_invoke host request).
Proof. unfold Tools.web_invoke. destruct (Tools.web_scan _ _ _ _); apply preserves_ret. Qed.

(** The tools of the default registry write the store only under
    ("events", user). *)
Lemma default_call_preserves docs name user_id session_id trace_id arguments :
  writable Tools.calendar_namespace user_id →
  preserves P (Tools.call host (Tools.build_default_registry host docs)
                 name user_id session_id trace_id arguments).
Proof.
  intros Hwr. apply call_preserves. intros tool Htool.
  destruct (decide (name = Tools.calendar_name)) as [->|Hc].
  { rewrite default_registry_calendar in Htool. injection Htool as <-.
    apply calendar_invoke_preserves, Hwr. }
  destruct (decide (name = Tools.docs_name)) as [->|Hd].
  { rewrite default_registry_docs in Htool. injection Htool as <-.
    apply docs_invoke_preserves. }
  destruct (decide (name = Tools.web_name)) as [->|Hw].
  { rewrite default_registry_web in Htool. injection Htool as <-.
    apply web_invoke_preserves. }
  exfalso. unfold Tools.build_default_registry, Tools.make_registry, Tools.register in Htool.
  simpl in Htool.
  rewrite !lookup_insert_ne, lookup_empty in Htool by (simpl; congruence).
  discriminate.
Qed.

End Preservation.

Section PlannerPreservation.
Context {P : World → Prop} {writable : string → string → Prop}.
Hypothesis HP : Invariant P writable.
Variable host : Host.
Variable docs : list Tools.DocRecord.

Lemma maybe_call_tool_preserves step goal user_id session_id trace_id :
  writable Tools.calendar_namespace user_id →
  preserves P (Planner._maybe_call_tool host docs step goal user_id session_id trace_id).
Proof.
  intros Hwr. unfold Planner._maybe_call_tool.
  apply preserves_bind; [apply preserves_lift_exn|].
  intros [[name arguments]|]; [|apply preserves_ret].
  apply preserves_bind; [apply (default_call_preserves HP), Hwr|].
  intros result. apply preserves_ret.
Qed.

Lemma execute_loop_preserves plan_steps goal user_id session_id trace_id :
  writable Tools.calendar_namespace user_id →
  ∀ execution_log tool_calls,
    preserves P (Planner.execute_loop host docs plan_steps goal user_id session_id trace_id
                   execution_log tool_calls).
Proof.
  intros Hwr. induction plan_steps as [|step rest IH]; intros execution_log tool_calls.
  - apply preserves_ret.
  - cbn [Planner.execute_loop].
    apply preserves_bind; [apply maybe_call_tool_preserves, Hwr|].
    intros entry. apply IH.
Qed.

Lemma timeline_entry_preserves stage summary :
  preserves P (Planner._timeline_entry host stage summary).
Proof.
  unfold Planner._timeline_entry.
  apply preserves_bind; [apply (read_clock_preserves HP)|]. intros now. apply preserves_ret.
Qed.

Lemma trace_id_of_preserves envelope : preserves P (Planner.trace_id_of host envelope).
Proof.
  unfold Planner.trace_id_of. destruct (env_meta envelope ≫= meta_trace_id) as [t|].
  - destruct (PyStr.is_empty t); [apply (draw_uuid_preserves HP) | apply preserves_ret].
  - apply (draw_uuid_preserves HP).
Qed.

(** [handle] keeps every invariant that allows writing the user's
    checkpoint and the user's calendar events, whether it returns or
    raises. *)
Lemma handle_preserves (envelope : Envelope) :
  writable Planner.planner_ns (envelope_user envelope) →
  writable Tools.calendar_namespace (envelope_user envelope) →
  preserves P (Planner.handle host docs envelope).
Proof.
  intros Hplan Hcal. unfold Planner.handle.
  fold (envelope_goal envelope). fold (envelope_user envelope).
  fold (envelope_session envelope). fold (envelope_intent envelope).
  apply preserves_bind; [apply trace_id_of_preserves|]. intros trace_id.
  destruct (PyStr.is_empty _); [apply preserves_ret|].
  apply preserves_bind; [apply (memory_get_preserves HP)|]. intros checkpoint.
  destruct (json_truthy checkpoint).
  { apply preserves_bind; [apply preserves_lift_exn|]. intros g. apply preserves_ret. }
  apply preserves_bind; [apply preserves_lift_exn|]. intros depth_cfg.
  apply preserves_bind; [apply timeline_entry_preserves|]. intros t_depth.
  apply preserves_bind; [apply timeline_entry_preserves|]. intros t_plan.
  apply preserves_bind; [apply execute_loop_preserves, Hcal|].
  intros [execution_log tool_calls].
  apply preserves_bind; [apply timeline_entry_preserves|]. intros t_exec.
  apply preserves_bind; [apply timeline_entry_preserves|]. intros t_reflect.
  apply preserves_bind; [apply (draw_uuid_preserves HP)|]. intros new_id.
  apply preserves_bind; [apply (read_clock_preserves HP)|]. intros now.
  apply preserves_bind; [apply (memory_set_preserves HP), Hplan|]. intros _.
  apply preserves_ret.
Qed.

Variable general_handle : Envelope → M json.
Variable bestfriend_handle : Envelope → M json.
Variable has_memory : bool.

(** [route] keeps every invariant that its two outside handlers keep
    and that allows writing the user's checkpoint and events and the
    session's footprint. *)
Lemma route_preserves (user_id session_id text : string) :
  (∀ envelope, preserves P (general_handle envelope)) →
  (∀ envelope, preserves P (bestfriend_handle envelope)) →
  writable Planner.planner_ns user_id →
  writable Tools.calendar_namespace user_id →
  writable "sessions" session_id →
  preserves P (Router.route host docs general_handle bestfriend_handle has_memory
                 user_id session_id text).
Proof.
  intros Hg Hb Hplan Hcal Hsess. unfold Router.route.
  apply preserves_bind; [apply (draw_uuid_preserves HP)|]. intros trace_id. cbv zeta.
  apply preserves_bind.
  { destruct (String.eqb _ "task").
    { apply preserves_bind; [apply Hg|]. intros j. apply preserves_ret. }
    destruct (String.eqb _ "planner").
    { apply preserves_bind; [apply handle_preserves; assumption|].
      intros r. apply preserves_ret. }
    destruct (String.eqb _ "emotion").
    { apply preserves_bind; [apply Hb|]. intros j. apply preserves_ret. }
    apply preserves_ret. }
  intros result. apply preserves_bind.
  { apply preserves_try_except; [|intros e; apply preserves_ret].
    destruct has_memory; [apply (memory_set_preserves HP), Hsess | apply preserves_ret]. }
  intros _. apply preserves_ret.
Qed.

End PlannerPreservation.

(** ** The two invariants *)

Lemma take_strongly_sorted {A} (R : A → A → Prop) (n : nat) (l : list A) :
  StronglySorted R l → StronglySorted R (take n l).
Proof.
  intros H. revert n. induction H as [|x l Hs IH Hx]; intros [|n]; simpl; try constructor.
  - apply IH.
  - apply Forall_take, Hx.
Qed.

Lemma audit_wf_invariant : Invariant audit_wf (fun _ _ => True).
Proof.
  split; try (intros; assumption).
  intros w ev (Hlen & Hsorted & Hbelow) Hid. unfold audit_wf.
  cbn [with_audit audit_events audit_next_id].
  split; [rewrite length_take; lia|]. split.
  - apply take_strongly_sorted. constructor; [exact Hsorted|].
    rewrite Hid. exact Hbelow.
  - apply Forall_take. constructor; [lia|].
    eapply Forall_impl; [exact Hbelow|]. cbn beta. intros; lia.
Qed.

Lemma kv_entry_invariant (k : string * string) (entry : option (json * Q)) :
  Invariant (kv_entry_is k entry) (fun namespace key => (namespace, key) ≠ k).
Proof.
  split; try (intros; assumption).
  intros w namespace key e Hne H. unfold kv_entry_is in *. simpl.
  rewrite lookup_insert_ne by exact Hne. exact H.
Qed.

(* ================================================================== *)
(** * Properties of splitting, stripping and joining *)
(* ================================================================== *)

Lemma append_cons (c : ascii) (s t : string) : String c s +:+ t = String c (s +:+ t).
Proof. reflexivity. Qed.

Lemma append_nil_r (s : string) : s +:+ "" = s.
Proof. induction s as [|c s IH]; [reflexivity|]. rewrite append_cons, IH. reflexivity. Qed.

Lemma append_assoc (s t u : string) : (s +:+ t) +:+ u = s +:+ (t +:+ u).
Proof. induction s as [|c s IH]; [reflexivity|]. rewrite !append_cons, IH. reflexivity. Qed.

Lemma rev_onto_app (s acc acc' : string) :
  PyStr.rev_onto s (acc +:+ acc') = PyStr.rev_onto s acc +:+ acc'.
Proof.
  revert acc. induction s as [|c s IH]; intros acc; simpl; [reflexivity|].
  rewrite <- IH. reflexivity.
Qed.

Lemma rev_onto_rev (s acc : string) : PyStr.rev_onto s acc = PyStr.rev s +:+ acc.
Proof. unfold PyStr.rev. rewrite <- rev_onto_app. reflexivity. Qed.

Lemma rev_cons (c : ascii) (s : string) : PyStr.rev (String c s) = PyStr.rev s +:+ String c "".
Proof. unfold PyStr.rev at 1. simpl. apply rev_onto_rev. Qed.

Lemma rev_app (s t : string) : PyStr.rev (s +:+ t) = PyStr.rev t +:+ PyStr.rev s.
Proof.
  induction s as [|c s IH].
  - rewrite append_nil_r. reflexivity.
  - rewrite append_cons, !rev_cons, IH, append_assoc. reflexivity.
Qed.

Lemma rev_involutive (s : string) : PyStr.rev (PyStr.rev s) = s.
Proof.
  induction s as [|c s IH]; [reflexivity|].
  rewrite rev_cons, rev_app, IH. reflexivity.
Qed.

Lemma rev_empty (s : string) : PyStr.rev s = "" → s = "".
Proof. intros H. rewrite <- (rev_involutive s), H. reflexivity. Qed.

Lemma has_word_char_rev (s : string) : has_word_char (PyStr.rev s) = has_word_char s.
Proof. unfold PyStr.rev. rewrite has_word_char_rev_onto. simpl. apply orb_false_r. Qed.

Lemma no_space_app (s t : string) : no_space (s +:+ t) = no_space s && no_space t.
Proof.
  induction s as [|c s IH]; [reflexivity|].
  rewrite append_cons. simpl. rewrite IH, andb_assoc. reflexivity.
Qed.

Lemma no_space_rev (s : string) : no_space (PyStr.rev s) = no_space s.
Proof.
  induction s as [|c s IH]; [reflexivity|].
  rewrite rev_cons, no_space_app, IH. simpl. rewrite andb_true_r. apply andb_comm.
Qed.

(** A space where two strings meet separates their words. *)
Lemma split_go_app_space (a b cur : string) (c : ascii) :
  PyStr.is_space c = true →
  PyStr.split_go cur (a +:+ String c b) = PyStr.split_go cur a ++ PyStr.split b.
Proof.
  intros Hc. revert cur. induction a as [|x a IH]; intros cur.
  - change ("" +:+ String c b) with (String c b). simpl. rewrite Hc.
    destruct cur; reflexivity.
  - rewrite append_cons. simpl. destruct (PyStr.is_space x).
    + destruct cur; rewrite IH; reflexivity.
    + apply IH.
Qed.

Lemma split_space_head (c : ascii) (s : string) :
  PyStr.is_space c = true → PyStr.split (String c s) = PyStr.split s.
Proof. intros Hc. unfold PyStr.split. simpl. rewrite Hc. reflexivity. Qed.

(** White space at the end adds no word. *)
Lemma split_go_spaces (ws cur : string) :
  has_word_char ws = false → PyStr.split_go cur ws = PyStr.split_go cur "".
Proof.
  revert cur. induction ws as [|c ws IH]; intros cur H; [reflexivity|].
  simpl in H. apply orb_false_iff in H as [Hc Hws]. apply negb_false_iff in Hc.
  simpl. rewrite Hc. rewrite (IH "" Hws). destruct cur; reflexivity.
Qed.

Lemma split_go_app_spaces (a ws cur : string) :
  has_word_char ws = false → PyStr.split_go cur (a +:+ ws) = PyStr.split_go cur a.
Proof.
  intros H. revert cur. induction a as [|x a IH]; intros cur.
  - apply split_go_spaces, H.
  - rewrite append_cons. simpl. destruct (PyStr.is_space x).
    + destruct cur; rewrite IH; reflexivity.
    + apply IH.
Qed.

Lemma split_no_word_char (s : string) : has_word_char s = false → PyStr.split s = [].
Proof. intros H. unfold PyStr.split. rewrite split_go_spaces by exact H. reflexivity. Qed.

Lemma split_empty_no_word_char (s : string) : PyStr.split s = [] → has_word_char s = false.
Proof.
  intros H. destruct (has_word_char s) eqn:E; [|reflexivity].
  exfalso. apply (split_go_nonempty "" s); [right; exact E | exact H].
Qed.

Lemma lstrip_decompose (s : string) :
  ∃ ws, s = ws +:+ PyStr.lstrip s ∧ has_word_char ws = false.
Proof.
  induction s as [|c s (ws & Hs & Hws)]; [exists ""; split; reflexivity|].
  simpl. destruct (PyStr.is_space c) eqn:Hc.
  - exists (String c ws). rewrite append_cons, <- Hs. split; [reflexivity|].
    simpl. rewrite Hc, Hws. reflexivity.
  - exists "". split; reflexivity.
Qed.

Lemma split_lstrip (s : string) : PyStr.split (PyStr.lstrip s) = PyStr.split s.
Proof.
  induction s as [|c s IH]; [reflexivity|].
  simpl. destruct (PyStr.is_space c) eqn:Hc; [|reflexivity].
  rewrite IH. symmetry. apply split_space_head, Hc.
Qed.

(** [strip] removes no word. *)
Lemma split_strip (s : string) : PyStr.split (PyStr.strip s) = PyStr.split s.
Proof.
  unfold PyStr.strip. rewrite <- (split_lstrip s).
  destruct (lstrip_decompose (PyStr.rev (PyStr.lstrip s))) as (ws & Hr & Hws).
  rewrite <- (rev_involutive (PyStr.lstrip s)) at 2. rewrite Hr at 2.
  rewrite rev_app. unfold PyStr.split. rewrite split_go_app_spaces; [reflexivity|].
  rewrite has_word_char_rev. exact Hws.
Qed.

Lemma has_word_char_lstrip (s : string) : has_word_char (PyStr.lstrip s) = has_word_char s.
Proof.
  induction s as [|c s IH]; [reflexivity|].
  simpl. destruct (PyStr.is_space c) eqn:Hc; simpl; rewrite ?Hc; [exact IH | reflexivity].
Qed.

Lemma has_word_char_strip (s : string) : has_word_char (PyStr.strip s) = has_word_char s.
Proof.
  unfold PyStr.strip.
  rewrite has_word_char_rev, has_word_char_lstrip, has_word_char_rev, has_word_char_lstrip.
  reflexivity.
Qed.

(** A string is blank for [strip] exactly when it has no word. *)
Lemma strip_empty_iff (s : string) : PyStr.strip s = "" ↔ has_word_char s = false.
Proof.
  split.
  - intros H. rewrite <- has_word_char_strip, H. reflexivity.
  - intros H. destruct (PyStr.strip s) eqn:E; [reflexivity|].
    assert (Hs : PyStr.strip s ≠ "") by (rewrite E; discriminate).
    apply strip_has_word_char in Hs. rewrite has_word_char_strip in Hs. congruence.
Qed.

(** Reading a word only extends the word being read. *)
Lemma split_go_word (w s cur : string) :
  no_space w = true → PyStr.split_go cur (w +:+ s) = PyStr.split_go (PyStr.rev_onto w cur) s.
Proof.
  revert cur. induction w as [|c w IH]; intros cur H; [reflexivity|].
  simpl in H. apply andb_true_iff in H as [Hc Hw]. apply negb_true_iff in Hc.
  rewrite append_cons. simpl. rewrite Hc. apply IH, Hw.
Qed.

Lemma split_word (w : string) : is_word w → PyStr.split w = [w].
Proof.
  intros [Hne Hns]. unfold PyStr.split.
  rewrite <- (append_nil_r w) at 1. rewrite split_go_word by exact Hns. simpl.
  fold (PyStr.rev w). destruct (PyStr.rev w) eqn:E.
  - apply rev_empty in E. congruence.
  - rewrite <- E. fold (PyStr.rev (PyStr.rev w)). rewrite rev_involutive. reflexivity.
Qed.

(** What [split] returns are words. *)
Lemma split_go_words (s cur : string) :
  no_space cur = true → Forall is_word (PyStr.split_go cur s).
Proof.
  assert (Hw : ∀ c w, no_space (String c w) = true → is_word (PyStr.rev (String c w))).
  { intros c w H. split; [|rewrite no_space_rev; exact H].
    intros E. apply rev_empty in E. discriminate. }
  revert cur. induction s as [|c s IH]; intros cur H; simpl.
  - destruct cur; constructor; [apply Hw, H | constructor].
  - destruct (PyStr.is_space c) eqn:Hc.
    + destruct cur; [apply IH; reflexivity|].
      constructor; [apply Hw, H | apply IH; reflexivity].
    + apply IH. simpl. rewrite Hc, H. reflexivity.
Qed.

Lemma split_words (s : string) : Forall is_word (PyStr.split s).
Proof. apply split_go_words. reflexivity. Qed.

Lemma join_cons2 (x y : string) (rest : list string) :
  PyStr.join " " (x :: y :: rest) = x +:+ String " " (PyStr.join " " (y :: rest)).
Proof. reflexivity. Qed.

(** Joining words with single spaces and splitting again is the identity. *)
Lemma split_join (ws : list string) :
  Forall is_word ws → PyStr.split (PyStr.join " " ws) = ws.
Proof.
  induction 1 as [|x ws Hx Hws IH]; [reflexivity|].
  destruct ws as [|y rest]; [apply split_word, Hx|].
  rewrite join_cons2. unfold PyStr.split at 1.
  rewrite split_go_app_space by reflexivity.
  fold (PyStr.split x). rewrite (split_word x Hx), IH. reflexivity.
Qed.

Lemma join_nonempty (ws : list string) :
  Forall is_word ws → ws ≠ [] → PyStr.join " " ws ≠ "".
Proof.
  intros H Hne E. apply (f_equal PyStr.split) in E.
  rewrite split_join in E by exact H. exact (Hne E).
Qed.

(* ================================================================== *)
(** * Properties of chunking *)
(* ================================================================== *)

Lemma is_nl_space (c : ascii) : Rag.is_nl c = true → PyStr.is_space c = true.
Proof.
  unfold Rag.is_nl, PyStr.is_space. intros H. apply Nat.eqb_eq in H. rewrite H. reflexivity.
Qed.

Lemma is_cr_space (c : ascii) : Rag.is_cr c = true → PyStr.is_space c = true.
Proof.
  unfold Rag.is_cr, PyStr.is_space. intros H. apply Nat.eqb_eq in H. rewrite H. reflexivity.
Qed.

Lemma has_word_char_remove_cr (s : string) :
  has_word_char (Rag.remove_cr s) = has_word_char s.
Proof.
  induction s as [|c s IH]; [reflexivity|].
  simpl. destruct (Rag.is_cr c) eqn:Hc.
  - rewrite (is_cr_space c Hc). exact IH.
  - simpl. rewrite IH. reflexivity.
Qed.

Lemma length_String (c : ascii) (s : string) :
  String.length (String c s) = S (String.length s).
Proof. reflexivity. Qed.

Lemma split_blank_go_cons2 (cur : string) (c c' : ascii) (s : string) :
  Rag.split_blank_go cur (String c (String c' s))
  = if Rag.is_nl c && Rag.is_nl c' then PyStr.rev cur :: Rag.split_blank_go "" s
    else Rag.split_blank_go (String c cur) (String c' s).
Proof. reflexivity. Qed.

(** Cutting at blank lines cuts no word. *)
Lemma split_blank_go_words (n : nat) :
  ∀ s cur, (String.length s ≤ n)%nat →
    concat (map PyStr.split (Rag.split_blank_go cur s)) = PyStr.split (PyStr.rev cur +:+ s).
Proof.
  induction n as [|n IH]; intros s cur Hlen.
  - destruct s; [|rewrite length_String in Hlen; lia].
    simpl. rewrite app_nil_r, append_nil_r. reflexivity.
  - destruct s as [|c [|c' s'']].
    + simpl. rewrite app_nil_r, append_nil_r. reflexivity.
    + simpl. rewrite app_nil_r, rev_cons. reflexivity.
    + rewrite !length_String in Hlen.
      rewrite split_blank_go_cons2. destruct (Rag.is_nl c && Rag.is_nl c') eqn:E.
      * apply andb_true_iff in E as [Hc Hc']. cbn [map concat].
        rewrite IH by lia.
        unfold PyStr.split at 3. rewrite split_go_app_space by (apply is_nl_space, Hc).
        rewrite (split_space_head c' s'' (is_nl_space c' Hc')). reflexivity.
      * rewrite IH by (rewrite length_String; lia).
        rewrite rev_cons, append_assoc. reflexivity.
Qed.

Lemma split_blank_words (s : string) :
  concat (map PyStr.split (Rag.split_blank s)) = PyStr.split s.
Proof. apply (split_blank_go_words (String.length s)). lia. Qed.

Lemma is_empty_true (s : string) : PyStr.is_empty s = true ↔ s = "".
Proof. destruct s; simpl; split; congruence. Qed.

Lemma paragraphs_words (cleaned : string) :
  concat (map PyStr.split (Rag.paragraphs_of cleaned)) = PyStr.split cleaned.
Proof.
  rewrite <- split_blank_words. unfold Rag.paragraphs_of.
  induction (Rag.split_blank cleaned) as [|p ps IH]; [reflexivity|].
  cbn [List.filter map concat].
  destruct (PyStr.is_empty (PyStr.strip p)) eqn:E; cbn [negb map concat].
  - rewrite IH. apply is_empty_true in E.
    rewrite <- (split_strip p), E. reflexivity.
  - rewrite IH, split_strip. reflexivity.
Qed.

(** The groups [range] cuts a list into: together they are the list,
    none is empty and none is longer than the step. *)
Lemma range_step_groups {A} (l : list A) (step : nat) :
  (0 < step)%nat →
  let groups := map (fun i => take step (drop i l)) (Rag.range_step (length l) step) in
  concat groups = l
  ∧ Forall (fun g => g ≠ [] ∧ (length g ≤ step)%nat) groups.
Proof.
  intros Hstep. cbv zeta. unfold Rag.range_step. rewrite <- list_fmap_compose.
  set (k := ((length l + step - 1) / step)%nat).
  assert (Hk1 : (length l ≤ k * step)%nat).
  { pose proof (Nat.div_mod_eq (length l + step - 1) step) as Hdm.
    pose proof (Nat.mod_upper_bound (length l + step - 1) step ltac:(lia)) as Hub.
    fold k in Hdm. nia. }
  assert (Hk2 : ∀ j, (j < k)%nat → (j * step < length l)%nat).
  { intros j Hj.
    pose proof (Nat.div_mod_eq (length l + step - 1) step) as Hdm. fold k in Hdm. nia. }
  split.
  - assert (H : ∀ m, concat ((fun i => take step (drop i l)) ∘ (fun j => (j * step)%nat)
                               <$> seq 0 m) = take (m * step) l).
    { induction m as [|m IHm]; [reflexivity|].
      rewrite seq_S, fmap_app, concat_app, IHm. cbn [fmap list_fmap concat compose].
      rewrite app_nil_r, take_take_drop. f_equal. simpl. lia. }
    rewrite H. apply take_ge. exact Hk1.
  - apply Forall_fmap, Forall_forall. intros j Hj.
    apply elem_of_seq in Hj. specialize (Hk2 j ltac:(lia)). cbn [compose].
    split.
    + intros E. apply (f_equal length) in E. rewrite length_take, length_drop in E.
      simpl in E. lia.
    + rewrite length_take. lia.
Qed.

Lemma join_groups (groups : list (list string)) (max_words : nat) :
  Forall (fun g => g ≠ [] ∧ (length g ≤ max_words)%nat) groups →
  Forall (Forall is_word) groups →
  concat (map PyStr.split
            (List.filter (fun chunk => negb (PyStr.is_empty chunk))
                         (map (PyStr.join " ") groups)))
  = concat groups
  ∧ Forall (fun chunk => ∃ ws, chunk = PyStr.join " " ws ∧ ws ≠ [] ∧ Forall is_word ws
                               ∧ (length ws ≤ max_words)%nat)
           (List.filter (fun chunk => negb (PyStr.is_empty chunk))
                        (map (PyStr.join " ") groups)).
Proof.
  induction groups as [|g groups IH]; intros Hgroups Hwords.
  - split; [reflexivity | constructor].
  - apply Forall_cons in Hgroups as [[Hne Hlen] Hgroups].
    apply Forall_cons in Hwords as [Hg Hwords].
    destruct (IH Hgroups Hwords) as [IH1 IH2].
    cbn [map List.filter].
    destruct (PyStr.is_empty (PyStr.join " " g)) eqn:E.
    { apply is_empty_true in E. exfalso. exact (join_nonempty g Hg Hne E). }
    cbn [negb map concat]. split.
    + rewrite split_join by exact Hg. f_equal. exact IH1.
    + constructor; [|exact IH2]. exists g. auto.
Qed.

(** A paragraph is cut into chunks of at most [max_words] words each,
    which together have the paragraph's words. *)
Lemma chunk_paragraph_spec (max_words : nat) (para : string) :
  (0 < max_words)%nat →
  concat (map PyStr.split (Rag.chunk_paragraph max_words para)) = PyStr.split para
  ∧ Forall (fun chunk => ∃ ws, chunk = PyStr.join " " ws ∧ ws ≠ [] ∧ Forall is_word ws
                               ∧ (length ws ≤ max_words)%nat)
           (Rag.chunk_paragraph max_words para).
Proof.
  intros Hn. unfold Rag.chunk_paragraph. cbv zeta.
  destruct (range_step_groups (PyStr.split para) max_words Hn) as [Hcat Hgroups].
  cbv zeta in Hcat, Hgroups.
  rewrite <- (List.map_map (fun i => take max_words (drop i (PyStr.split para)))
                (PyStr.join " ")).
  destruct (join_groups _ max_words Hgroups) as [H1 H2].
  { apply Forall_fmap, Forall_forall. intros i _. simpl.
    apply Forall_take, Forall_drop, split_words. }
  rewrite Hcat in H1. split; assumption.
Qed.

Lemma chunk_paragraphs_spec (max_words : nat) (paragraphs : list string) :
  (0 < max_words)%nat →
  concat (map PyStr.split (concat (map (Rag.chunk_paragraph max_words) paragraphs)))
  = concat (map PyStr.split paragraphs)
  ∧ Forall (fun chunk => ∃ ws, chunk = PyStr.join " " ws ∧ ws ≠ [] ∧ Forall is_word ws
                               ∧ (length ws ≤ max_words)%nat)
           (concat (map (Rag.chunk_paragraph max_words) paragraphs)).
Proof.
  intros Hn. induction paragraphs as [|p ps [IH1 IH2]]; [split; [reflexivity | constructor]|].
  destruct (chunk_paragraph_spec max_words p Hn) as [H1 H2].
  cbn [map concat]. split.
  - rewrite map_app, concat_app, H1, IH1. reflexivity.
  - apply Forall_app. split; assumption.
Qed.

(** With a positive [max_words], [_chunk] returns the chunks of the
    paragraphs; the text is blank exactly when there are none, so the
    branch that keeps the whole text as one chunk is never taken. *)
Lemma chunk_run (text : string) (max_words : nat) :
  (0 < max_words)%nat →
  Rag._chunk text max_words
  = inr (concat (map (Rag.chunk_paragraph max_words)
                     (Rag.paragraphs_of (Rag.remove_cr text))))
  ∧ (concat (map (Rag.chunk_paragraph max_words) (Rag.paragraphs_of (Rag.remove_cr text))) = []
     ↔ PyStr.strip text = "").
Proof.
  intros Hn.
  destruct (chunk_paragraphs_spec max_words (Rag.paragraphs_of (Rag.remove_cr text)) Hn)
    as [Hwords _].
  rewrite paragraphs_words in Hwords.
  assert (Hiff : concat (map (Rag.chunk_paragraph max_words)
                             (Rag.paragraphs_of (Rag.remove_cr text))) = []
                 ↔ PyStr.strip text = "").
  { rewrite strip_empty_iff, <- has_word_char_remove_cr. split.
    - intros E. rewrite E in Hwords. simpl in Hwords.
      apply split_empty_no_word_char. symmetry. exact Hwords.
    - intros E. apply split_no_word_char in E. rewrite E in Hwords.
      destruct (chunk_paragraphs_spec max_words (Rag.paragraphs_of (Rag.remove_cr text)) Hn)
        as [_ Hshape].
      destruct (concat (map (Rag.chunk_paragraph max_words) _)) as [|c cs]; [reflexivity|].
      apply Forall_cons in Hshape as [(ws & -> & Hne & Hw & _) _].
      cbn [map concat] in Hwords. rewrite split_join in Hwords by exact Hw.
      destruct ws; [congruence | discriminate]. }
  split; [|exact Hiff].
  unfold Rag._chunk. cbv zeta. destruct max_words as [|m]; [lia|].
  destruct (concat (map (Rag.chunk_paragraph (S m)) _)) as [|c cs] eqn:E; [|reflexivity].
  destruct Hiff as [Hblank _]. rewrite (Hblank eq_refl). reflexivity.
Qed.

(** X7: for a positive [max_words], [_chunk] returns chunks that carry
    the words of the text without its carriage returns, all of them
    and in their order. *)
Theorem chunk_keeps_every_word (text : string) (max_words : nat) :
  (0 < max_words)%nat →
  ∃ chunks, Rag._chunk text max_words = inr chunks
            ∧ concat (map PyStr.split chunks) = PyStr.split (Rag.remove_cr text).
Proof.
  intros Hn. destruct (chunk_run text max_words Hn) as [Hrun _].
  eexists. split; [exact Hrun|].
  destruct (chunk_paragraphs_spec max_words (Rag.paragraphs_of (Rag.remove_cr text)) Hn)
    as [Hwords _].
  rewrite Hwords. apply paragraphs_words.
Qed.

(** X8: for a positive [max_words], every chunk [_chunk] returns is
    not empty, has at least one and at most [max_words] words, and is
    these words joined by single spaces; there is no chunk exactly
    when the text is blank. *)
Theorem chunk_shape (text : string) (max_words : nat) (chunks : list string) :
  (0 < max_words)%nat →
  Rag._chunk text max_words = inr chunks →
  Forall (fun chunk => chunk ≠ ""
                       ∧ chunk = PyStr.join " " (PyStr.split chunk)
                       ∧ (1 ≤ length (PyStr.split chunk) ≤ max_words)%nat) chunks
  ∧ (chunks = [] ↔ PyStr.strip text = "").
Proof.
  intros Hn Hrun. destruct (chunk_run text max_words Hn) as [Hrun' Hiff].
  rewrite Hrun' in Hrun. injection Hrun as <-. split; [|exact Hiff].
  destruct (chunk_paragraphs_spec max_words (Rag.paragraphs_of (Rag.remove_cr text)) Hn)
    as [_ Hshape].
  eapply Forall_impl; [exact Hshape|]. cbn beta.
  intros chunk (ws & -> & Hne & Hw & Hlen).
  rewrite split_join by exact Hw. split; [apply join_nonempty; assumption|].
  split; [reflexivity|]. destruct ws; [congruence | simpl in *; lia].
Qed.

(* ================================================================== *)
(** * Properties of ingestion *)
(* ================================================================== *)

Section IngestFacts.
Variable encode : string → list Q.
Variable str_hash : string → Z.

Lemma imap_content (f : nat → string → Rag.DocumentChunk) (texts : list string) :
  (∀ i t, Rag.content (f i t) = t) → map Rag.content (imap f texts) = texts.
Proof.
  revert f. induction texts as [|t texts IH]; intros f Hf; [reflexivity|].
  cbn [imap map]. rewrite Hf, IH; [reflexivity|]. intros i t'. apply Hf.
Qed.

Lemma imap_Forall {A B} (f : nat → A → B) (P : B → Prop) (l : list A) :
  (∀ i x, P (f i x)) → Forall P (imap f l).
Proof.
  revert f. induction l as [|x l IH]; intros f Hf; [constructor|].
  cbn [imap]. constructor; [apply Hf | apply IH; intros i y; apply Hf].
Qed.

(** The chunks made of one document: one per chunk of its content. *)
Lemma chunks_of_document_run (now : Q) (doc : Rag.Document) :
  ∃ chunks texts,
    Rag.chunks_of_document encode str_hash now doc = inr chunks
    ∧ Rag._chunk (default "" (Rag.d_content doc)) Rag.default_max_words = inr texts
    ∧ map Rag.content chunks = texts
    ∧ Forall (fun rec => Rag.keywords rec = Rag._keywords (Rag.content rec)
                         ∧ Rag.embedding rec = encode (Rag.content rec)
                         ∧ Rag.updated_at rec = default now (Rag.d_updated_at doc)
                         ∧ Rag.source rec = default "local" (Rag.d_source doc)) chunks.
Proof.
  destruct (chunk_run (default "" (Rag.d_content doc)) Rag.default_max_words) as [Hrun _].
  { unfold Rag.default_max_words. lia. }
  unfold Rag.chunks_of_document. cbv zeta. rewrite Hrun.
  do 2 eexists. split; [reflexivity|]. split; [reflexivity|]. split.
  - apply imap_content. reflexivity.
  - apply imap_Forall. intros i t. repeat split.
Qed.

Lemma new_records_of_run (now : Q) (documents : list Rag.Document) :
  ∀ acc, ∃ groups,
    Forall2 (fun doc chunks => Rag.chunks_of_document encode str_hash now doc = inr chunks)
            documents groups
    ∧ Rag.new_records_of encode str_hash now documents acc = inr (acc ++ concat groups).
Proof.
  induction documents as [|doc rest IH]; intros acc.
  - exists []. split; [constructor|]. simpl. rewrite app_nil_r. reflexivity.
  - destruct (chunks_of_document_run now doc) as (chunks & texts & Hrun & _).
    destruct (IH (acc ++ chunks)) as (groups & HF & Hrest).
    exists (chunks :: groups). split; [constructor; assumption|].
    cbn [Rag.new_records_of concat]. rewrite Hrun, Hrest, app_assoc. reflexivity.
Qed.

(** X9: [ingest_documents] never raises.  It appends the chunks
    of the documents, document after document, to the records it has,
    which stay as they are (nothing is replaced, so a document ingested
    twice is stored twice), and returns their number; every new record
    holds one chunk of its document's content with the keywords and
    the embedding of that chunk, the document's [updated_at] or else
    the time of the call, and its source or else "local".  The storage
    file is written, once and with all records, exactly when there is a
    new record, and there is none exactly when the content of every
    document is blank. *)
Theorem ingest_appends_the_chunks (now : Q) (documents : list Rag.Document) (st : Rag.Store) :
  ∃ (groups : list (list Rag.DocumentChunk)) (st' : Rag.Store),
    Rag.ingest_documents encode str_hash now documents st
    = inr (length (concat groups), st')
    ∧ Rag.records st' = Rag.records st ++ concat groups
    ∧ Forall2 (fun doc chunks =>
                 Rag._chunk (default "" (Rag.d_content doc)) 180 = inr (map Rag.content chunks)
                 ∧ Forall (fun rec =>
                             Rag.keywords rec = Rag._keywords (Rag.content rec)
                             ∧ Rag.embedding rec = encode (Rag.content rec)
                             ∧ Rag.updated_at rec = default now (Rag.d_updated_at doc)
                             ∧ Rag.source rec = default "local" (Rag.d_source doc)) chunks)
              documents groups
    ∧ (concat groups = [] ↔
       Forall (fun doc => PyStr.strip (default "" (Rag.d_content doc)) = "") documents)
    ∧ (concat groups = [] → st' = st)
    ∧ (concat groups ≠ [] →
       Rag.writes st' = S (Rag.writes st) ∧ Rag.persisted st' = Some (Rag.records st')).
Proof.
  destruct (new_records_of_run now documents []) as (groups & HF & Hrun).
  rewrite app_nil_l in Hrun.
  assert (HF2 : Forall2 (fun doc chunks =>
                 Rag._chunk (default "" (Rag.d_content doc)) 180 = inr (map Rag.content chunks)
                 ∧ Forall (fun rec =>
                             Rag.keywords rec = Rag._keywords (Rag.content rec)
                             ∧ Rag.embedding rec = encode (Rag.content rec)
                             ∧ Rag.updated_at rec = default now (Rag.d_updated_at doc)
                             ∧ Rag.source rec = default "local" (Rag.d_source doc)) chunks)
              documents groups).
  { eapply Forall2_impl; [exact HF|]. cbn beta. intros doc chunks Hdoc.
    destruct (chunks_of_document_run now doc) as (chunks' & texts & Hrun' & Htexts & Hc & Hall).
    rewrite Hdoc in Hrun'. injection Hrun' as <-. rewrite Hc. split; [exact Htexts | exact Hall]. }
  assert (Hblank : concat groups = [] ↔
            Forall (fun doc => PyStr.strip (default "" (Rag.d_content doc)) = "") documents).
  { clear Hrun HF. induction HF2 as [|doc chunks documents groups [Hdoc _] _ IH].
    - split; [constructor | reflexivity].
    - destruct (chunk_run (default "" (Rag.d_content doc)) 180 ltac:(lia)) as [Hrun Hiff].
      rewrite Hrun in Hdoc. injection Hdoc as Hdoc. rewrite Hdoc in Hiff.
      cbn [concat]. rewrite Forall_cons, <- IH, <- Hiff. split.
      + intros E. apply app_eq_nil in E as [-> ->]. split; reflexivity.
      + intros [E ->]. destruct chunks; [reflexivity | discriminate]. }
  unfold Rag.ingest_documents. rewrite Hrun.
  destruct (concat groups) as [|rec recs] eqn:E.
  - exists groups, st. rewrite E. split; [reflexivity|].
    split; [rewrite app_nil_r; reflexivity|]. split; [exact HF2|].
    split; [exact Hblank|]. split; [reflexivity | congruence].
  - eexists groups, _. rewrite E. split; [reflexivity|].
    split; [reflexivity|]. split; [exact HF2|]. split; [exact Hblank|].
    split; [discriminate|]. intros _. split; reflexivity.
Qed.

End IngestFacts.

(* ================================================================== *)
(** * What the planner and the registry leave as it is *)
(* ================================================================== *)

(** X3: from a world whose audit trail is well formed (at most
    500 events, newest first with strictly decreasing ids, all below
    the next id), a run of [PlannerAgent.handle], a call of any name on
    the default registry and a write of the store lead to a world whose
    audit trail is well formed, whether they return or raise. *)
Theorem audit_trail_stays_well_formed (host : Host) (docs : list Tools.DocRecord) (w : World) :
  audit_wf w →
  (∀ envelope r w', Planner.handle host docs envelope w = (r, w') → audit_wf w')
  ∧ (∀ name user_id session_id trace_id arguments r w',
       Tools.call host (Tools.build_default_registry host docs)
         name user_id session_id trace_id arguments w = (r, w') → audit_wf w')
  ∧ (∀ namespace key value trace_id r w',
       memory_set host namespace key value trace_id w = (r, w') → audit_wf w').
Proof.
  intros Hw. split; [|split].
  - intros envelope r w' Hrun.
    exact (handle_preserves audit_wf_invariant host docs envelope I I w r w' Hw Hrun).
  - intros name user_id session_id trace_id arguments r w' Hrun.
    exact (default_call_preserves audit_wf_invariant host docs name user_id session_id
             trace_id arguments I w r w' Hw Hrun).
  - intros namespace key value trace_id r w' Hrun.
    exact (memory_set_preserves audit_wf_invariant host namespace key value trace_id I
             w r w' Hw Hrun).
Qed.

(** X4: whatever [PlannerAgent.handle] does, the only
    entries of the store it can change are the checkpoint
    ("planner_runs", user) and the calendar ("events", user) of the
    envelope's user: every other entry is afterwards what it was,
    whether [handle] returns or raises. *)
Theorem handle_writes_only_the_users_entries (host : Host) (docs : list Tools.DocRecord)
    (envelope : Envelope) (k : string * string) (w w' : World) (r : exn + Planner.Result) :
  k ≠ (Planner.planner_ns, envelope_user envelope) →
  k ≠ (Tools.calendar_namespace, envelope_user envelope) →
  Planner.handle host docs envelope w = (r, w') →
  kv w' !! k = kv w !! k.
Proof.
  intros Hplan Hcal Hrun.
  apply (handle_preserves (kv_entry_invariant k (kv w !! k)) host docs envelope
           ltac:(congruence) ltac:(congruence) w r w' eq_refl Hrun).
Qed.

Lemma determine_depth_raises (ip : IntentPayload) (goal : string) (e : exn) :
  Planner._determine_depth ip goal = inl e → exn_class e = "TypeError".
Proof.
  destruct (numeric (default (PyInt 0) (ip_confidence ip))) as [c|] eqn:Hnum.
  { rewrite (determine_depth_numeric ip goal c Hnum). discriminate. }
  unfold Planner._determine_depth.
  destruct (Planner.is_complex goal);
    destruct (default (PyInt 0) (ip_confidence ip)) as [|b|z|q|s]; try discriminate Hnum;
    simpl; intros [= <-]; reflexivity.
Qed.

(** X5: [PlannerAgent.handle] raises in two places only, both
    before it has done anything: where it reads the goal of a stored
    checkpoint that is no dictionary ([AttributeError]) and where it
    compares the confidence with 0.85 ([TypeError]).  When it raises,
    the store and the audit trail are as before and no tool has been
    entered; in particular no failure of a tool makes [handle] raise. *)
Theorem handle_raises_before_any_effect (host : Host) (docs : list Tools.DocRecord)
    (envelope : Envelope) (w w' : World) (e : exn) :
  Planner.handle host docs envelope w = (inl e, w') →
  (exn_class e = "AttributeError" ∨ exn_class e = "TypeError")
  ∧ kv w' = kv w
  ∧ audit_events w' = audit_events w
  ∧ invoke_log w' = invoke_log w.
Proof.
  unfold Planner.handle.
  fold (envelope_goal envelope). fold (envelope_user envelope).
  fold (envelope_session envelope). fold (envelope_intent envelope).
  destruct (trace_id_of_run host envelope w) as (trace_id & n & Htrace).
  rewrite bind_run, Htrace.
  destruct (PyStr.is_empty (envelope_goal envelope)) eqn:He; [discriminate|].
  assert (Hgoal : envelope_goal envelope ≠ "").
  { intros E. rewrite E in He. discriminate. }
  rewrite bind_run, memory_get_run.
  destruct (json_truthy _).
  { rewrite bind_run. unfold lift_exn.
    destruct (Planner.checkpoint_goal_text host _) as [e'|g] eqn:Hcp; [|discriminate].
    intros [= <- <-]. split; [|repeat split; reflexivity].
    left. unfold Planner.checkpoint_goal_text in Hcp.
    destruct (stored_value _ _ _ _); try (injection Hcp as <-; reflexivity).
    destruct (default _ _); discriminate. }
  rewrite bind_run. unfold lift_exn.
  destruct (Planner._determine_depth _ _) as [e'|depth_cfg] eqn:Hdepth.
  { intros [= <- <-]. split; [|repeat split; reflexivity].
    right. exact (determine_depth_raises _ _ _ Hdepth). }
  rewrite bind_run, timeline_entry_run.
  rewrite bind_run, timeline_entry_run.
  rewrite bind_run. unfold Planner._execute_plan.
  match goal with
  | |- context [Planner.execute_loop host docs ?ps ?g ?u ?s ?t [] [] ?w0] =>
      destruct (execute_loop_returns host docs ps g u s t
                  (split_strip_nonempty _ Hgoal) [] [] w0) as (tool_calls & w1 & Hloop);
      rewrite Hloop
  end.
  rewrite bind_run, timeline_entry_run.
  rewrite bind_run, timeline_entry_run.
  rewrite bind_run, draw_uuid_run.
  rewrite bind_run, read_clock_run.
  rewrite bind_run.
  match goal with
  | |- context [memory_set host ?ns ?k ?v ?t ?w0] =>
      destruct (memory_set_run host ns k v t w0) as (w2 & Hset & _);
      rewrite Hset
  end.
  discriminate.
Qed.

(** X6: a goal that is empty or white space only is refused
    with the error "missing_goal"; nothing is read from or written to
    the store, no audit event is recorded and no tool is entered. *)
Theorem handle_refuses_blank_goal (host : Host) (docs : list Tools.DocRecord)
    (envelope : Envelope) (w : World) :
  envelope_goal envelope = "" →
  ∃ w', Planner.handle host docs envelope w
        = (inr (Planner.RError "missing_goal" "Please describe what you want to plan."), w')
        ∧ kv w' = kv w
        ∧ kv_log w' = kv_log w
        ∧ audit_events w' = audit_events w
        ∧ invoke_log w' = invoke_log w.
Proof.
  intros Hgoal. unfold Planner.handle.
  fold (envelope_goal envelope).
  destruct (trace_id_of_run host envelope w) as (trace_id & n & Htrace).
  rewrite bind_run, Htrace, Hgoal.
  eexists. split; [reflexivity|]. repeat split; reflexivity.
Qed.

(** X1: [MemoryBank.set] followed by [MemoryBank.get] of the
    same key yields the value written, whatever the default; the
    entries under all other keys are what they were; [get] changes no
    entry; and the write is put on record in one "memory_write" audit
    event, the newest of the trail. *)
Theorem memory_set_then_get (host : Host) (namespace key : string) (value default_value : json)
    (trace_id : option string) (w : World) :
  ∃ w1 w2 ev,
    memory_set host namespace key value trace_id w = (inr tt, w1)
    ∧ memory_get namespace key default_value w1 = (inr value, w2)
    ∧ kv w2 = kv w1
    ∧ (∀ k, k ≠ (namespace, key) → kv w1 !! k = kv w !! k)
    ∧ audit_events w1 = take audit_max_events (ev :: audit_events w)
    ∧ ev_event_type ev = "memory_write"
    ∧ ev_id ev = audit_next_id w.
Proof.
  destruct (memory_set_run host namespace key value trace_id w) as (w1 & Hset & Hkv & _).
  exists w1. eexists. eexists. split; [exact Hset|]. split.
  { rewrite memory_get_run. unfold stored_value. rewrite Hkv, lookup_insert_eq. reflexivity. }
  split; [reflexivity|]. split.
  { intros k Hk. rewrite Hkv. apply lookup_insert_ne. congruence. }
  injection Hset as <-. repeat split; reflexivity.
Qed.

(** X2: [MemoryBank.append_to_list] stores the old list with
    the item at its end; a key that is absent or holds a falsy value
    starts the list, and a truthy value that is no list becomes the
    first element. *)
Theorem append_to_list_appends (host : Host) (namespace key : string) (item : json)
    (trace_id : option string) (w : World) :
  ∃ w',
    memory_append_to_list host namespace key item trace_id w = (inr tt, w')
    ∧ (∀ l, stored_value w namespace key (JArr []) = JArr l →
            stored_value w' namespace key JNull = JArr (l ++ [item]))
    ∧ (json_truthy (stored_value w namespace key (JArr [])) = false →
       stored_value w' namespace key JNull = JArr [item])
    ∧ (json_truthy (stored_value w namespace key (JArr [])) = true →
       (∀ l, stored_value w namespace key (JArr []) ≠ JArr l) →
       stored_value w' namespace key JNull
       = JArr [stored_value w namespace key (JArr []); item])
    ∧ (∀ k, k ≠ (namespace, key) → kv w' !! k = kv w !! k).
Proof.
  unfold memory_append_to_list. rewrite bind_run, memory_get_run.
  set (stored := stored_value w namespace key (JArr [])).
  match goal with
  | |- context [memory_set host ?ns ?k ?v ?t ?w0] =>
      destruct (memory_set_run host ns k v t w0) as (w' & Hset & Hkv & _)
  end.
  exists w'. split; [exact Hset|].
  assert (Hget : ∀ v, kv w' !! (namespace, key) = Some v →
                      stored_value w' namespace key JNull = fst v).
  { intros [v t] Hv. unfold stored_value. rewrite Hv. reflexivity. }
  rewrite lookup_insert_eq in Hkv || idtac.
  split; [|split; [|split]].
  - intros l Hl. unfold stored_value at 1. rewrite Hkv, lookup_insert_eq.
    rewrite Hl. destruct l; reflexivity.
  - intros Hfalsy. unfold stored_value at 1. rewrite Hkv, lookup_insert_eq, Hfalsy.
    reflexivity.
  - intros Htruthy Hnolist. unfold stored_value at 1. rewrite Hkv, lookup_insert_eq, Htruthy.
    destruct stored; try reflexivity. exfalso. exact (Hnolist _ eq_refl).
  - intros k Hk. rewrite Hkv. simpl. apply lookup_insert_ne. congruence.
Qed.

(* ================================================================== *)
(** * The further properties at concrete inputs *)
(* ================================================================== *)

Lemma chunk_keeps_every_word_witness :
  (0 < 2)%nat
  ∧ ∃ chunks, Rag._chunk "a b c" 2 = inr chunks
              ∧ concat (map PyStr.split chunks) = PyStr.split (Rag.remove_cr "a b c").
Proof.
  assert (H : (0 < 2)%nat) by lia.
  split; [exact H|]. exact (chunk_keeps_every_word "a b c" 2 H).
Defined.

Lemma chunk_shape_witness :
  (0 < 2)%nat
  ∧ Rag._chunk "a b c" 2 = inr ["a b"; "c"]
  ∧ Forall (fun chunk => chunk ≠ ""
                         ∧ chunk = PyStr.join " " (PyStr.split chunk)
                         ∧ (1 ≤ length (PyStr.split chunk) ≤ 2)%nat) ["a b"; "c"].
Proof.
  assert (H1 : (0 < 2)%nat) by lia.
  assert (H2 : Rag._chunk "a b c" 2 = inr ["a b"; "c"]) by reflexivity.
  split; [exact H1|]. split; [exact H2|].
  exact (proj1 (chunk_shape "a b c" 2 ["a b"; "c"] H1 H2)).
Defined.

Lemma audit_trail_stays_well_formed_witness :
  audit_wf empty_world
  ∧ ∀ r w', Planner.handle sample_host [] (sample_envelope "Create a plan" None) empty_world
            = (r, w') → audit_wf w'.
Proof.
  assert (H : audit_wf empty_world).
  { split; [apply Nat.le_0_l|]. split; constructor. }
  split; [exact H|].
  exact (proj1 (audit_trail_stays_well_formed sample_host [] empty_world H)
           (sample_envelope "Create a plan" None)).
Defined.

Lemma handle_writes_only_the_users_entries_witness :
  ("sessions", "s1") ≠ (Planner.planner_ns, envelope_user (sample_envelope "Create a plan" None))
  ∧ ("sessions", "s1")
    ≠ (Tools.calendar_namespace, envelope_user (sample_envelope "Create a plan" None))
  ∧ ∀ r w', Planner.handle sample_host [] (sample_envelope "Create a plan" None) empty_world
            = (r, w') →
            kv w' !! ("sessions", "s1") = kv empty_world !! ("sessions", "s1").
Proof.
  assert (H1 : ("sessions", "s1")
               ≠ (Planner.planner_ns, envelope_user (sample_envelope "Create a plan" None)))
    by discriminate.
  assert (H2 : ("sessions", "s1")
               ≠ (Tools.calendar_namespace,
                  envelope_user (sample_envelope "Create a plan" None)))
    by discriminate.
  split; [exact H1|]. split; [exact H2|].
  intros r w'.
  exact (handle_writes_only_the_users_entries sample_host []
           (sample_envelope "Create a plan" None) ("sessions", "s1") empty_world w' r H1 H2).
Defined.

Lemma handle_raises_before_any_effect_witness :
  ∃ e w',
    Planner.handle sample_host []
      (Router.make_envelope "u1" "s1" "Create a short plan" "t1"
         (Intent.classify "Create a short plan")) empty_world = (inl e, w')
    ∧ exn_class e = "TypeError"
    ∧ kv w' = kv empty_world.
Proof.
  assert (H : Planner.handle sample_host []
                (Router.make_envelope "u1" "s1" "Create a short plan" "t1"
                   (Intent.classify "Create a short plan")) empty_world
              = (inl (TypeError "'>=' not supported between instances of 'str' and 'float'"),
                 with_kv_log [KvGet "planner_runs" "u1"] empty_world))
    by (vm_compute; reflexivity).
  do 2 eexists. split; [exact H|].
  destruct (handle_raises_before_any_effect sample_host [] _ _ _ _ H) as (_ & Hkv & _).
  split; [reflexivity | exact Hkv].
Defined.

Lemma handle_refuses_blank_goal_witness :
  envelope_goal (sample_envelope "   " None) = ""
  ∧ ∃ w', Planner.handle sample_host [] (sample_envelope "   " None) empty_world
          = (inr (Planner.RError "missing_goal" "Please describe what you want to plan."), w')
          ∧ kv w' = kv empty_world.
Proof.
  assert (H : envelope_goal (sample_envelope "   " None) = "") by reflexivity.
  split; [exact H|].
  destruct (handle_refuses_blank_goal sample_host [] (sample_envelope "   " None)
              empty_world H) as (w' & Hrun & Hkv & _).
  exists w'. split; [exact Hrun | exact Hkv].
Defined.
